(** * CloudBridge provider services (Azure, OpenStack): a shallow embedding

    The development follows
      cloudbridge/cloud/providers/azure/services.py
      cloudbridge/cloud/providers/openstack/services.py
    The services are stateless request translators: every durable effect
    happens inside the provider SDK client.  The SDK clients are therefore
    records of operations over an arbitrary backend state, the services are
    functions over such a record, and every call that a service makes on
    the client is recorded in a trace, the way a mock client records its
    calls. *)

From stdpp Require Import base strings gmap list.
From Stdlib Require Import ZArith Sorting.Sorted.

Set Default Proof Using "Type".
Open Scope string_scope.
Open Scope list_scope.

(** ** The Python layer: exceptions, results, the service monad, strings *)
Module Py.

(** The exception classes that services.py raises or catches by name.
    [OtherError] stands for any other exception an SDK call may raise. *)
Inductive exn : Type :=
| CloudError (message : string)
| AzureException (message : string)
| InvalidConfigurationException (message : string)
| PyException (message : string)
| IndexError (message : string)
| AttributeError (message : string)
| TypeError (message : string)
| NovaNotFound (message : string)
| CinderNotFound (message : string)
| NeutronClientException (message : string)
| InvalidNameException (message : string)
| OtherError (class_name message : string).

Inductive res (A : Type) : Type :=
| Ok (a : A)
| Raise (e : exn).
Arguments Ok {A} a.
Arguments Raise {A} e.

Definition is_ok {A} (r : res A) : bool :=
  match r with Ok _ => true | Raise _ => false end.

(** What a service run can touch: the provider backend, the trace of client
    calls made so far (oldest first) and the number of random values (uuids,
    generated keys) drawn so far. *)
Record world (St Call : Type) : Type := World {
  backend : St;
  trace : list Call;
  uuids_drawn : nat
}.
Arguments World {St Call} backend trace uuids_drawn.
Arguments backend {St Call} w.
Arguments trace {St Call} w.
Arguments uuids_drawn {St Call} w.

(** A computation either returns or raises; the world it leaves behind is
    kept in both cases (nothing is rolled back when an exception is raised). *)
Definition M (St Call A : Type) : Type := world St Call -> res A * world St Call.

Section Monad.
Context {St Call : Type}.

Definition ret {A} (a : A) : M St Call A := fun w => (Ok a, w).

Definition raise {A} (e : exn) : M St Call A := fun w => (Raise e, w).

Definition bind {A B} (m : M St Call A) (k : A -> M St Call B) : M St Call B :=
  fun w =>
    match m w with
    | (Ok a, w') => k a w'
    | (Raise e, w') => (Raise e, w')
    end.

(** [try: m except h]: the handler [h] returns [None] for the exceptions
    the [except] clauses do not match, which then propagate. *)
Definition try_except {A} (m : M St Call A) (h : exn -> option (M St Call A))
  : M St Call A :=
  fun w =>
    match m w with
    | (Ok a, w') => (Ok a, w')
    | (Raise e, w') =>
        match h e with
        | Some k => k w'
        | None => (Raise e, w')
        end
    end.

(** A call on the SDK client: it is appended to the trace and run on the
    backend. *)
Definition invoke {A} (c : Call) (op : St -> res A * St) : M St Call A :=
  fun w =>
    let '(r, st) := op (backend w) in
    (r, World st (trace w ++ [c]) (uuids_drawn w)).

(** A random value (a uuid, a generated key): the next value of an entropy
    source, which is a function of the number of the draw. *)
Definition draw {A} (source : nat -> A) : M St Call A :=
  fun w =>
    (Ok (source (uuids_drawn w)),
     World (backend w) (trace w) (S (uuids_drawn w))).

(** [uuid.uuid4().hex] *)
Definition uuid4_hex (source : nat -> string) : M St Call string := draw source.

(** [for x in xs: acc = body acc x] *)
Fixpoint for_each {A X} (xs : list X) (body : A -> X -> M St Call A) (acc : A)
  : M St Call A :=
  match xs with
  | [] => ret acc
  | x :: xs' => bind (body acc x) (for_each xs' body)
  end.

(** The footprint of a computation on the client: every call that [m]
    makes, from whatever world, satisfies [q]. *)
Definition calls_only {A} (q : Call -> Prop) (m : M St Call A) : Prop :=
  forall w, exists t, trace (snd (m w)) = trace w ++ t /\ Forall q t.

(** Run from [w], [m] raises, having made only calls that satisfy [q]. *)
Definition raises_within {A} (q : Call -> Prop) (m : M St Call A)
    (w : world St Call) : Prop :=
  is_ok (fst (m w)) = false
  /\ exists t, trace (snd (m w)) = trace w ++ t /\ Forall q t.

End Monad.

Declare Scope py_scope.
Delimit Scope py_scope with py.
Notation "x <- m ;; k" := (bind m (fun x => k))
  (at level 100, m at next level, right associativity) : py_scope.
Notation "m ;;; k" := (bind m (fun _ => k))
  (at level 100, right associativity) : py_scope.

(** *** Truthiness *)

Definition truthy_str (s : string) : bool :=
  match s with EmptyString => false | String _ _ => true end.

Definition truthy_opt_str (s : option string) : bool :=
  match s with None => false | Some s => truthy_str s end.

(** [size] values are [None] or an integer. *)
Definition truthy_opt_int (z : option Z) : bool :=
  match z with None => false | Some z => negb (Z.eqb z 0) end.

(** [a or b] on optional strings where [b] is a string. *)
Definition or_else (a : option string) (b : string) : string :=
  match a with
  | Some s => if truthy_str s then s else b
  | None => b
  end.

(** *** Strings *)

(** [s.startswith(p)] *)
Definition startswith (s p : string) : bool := String.prefix p s.

(** [s[:n]] *)
Definition slice_to (n : nat) (s : string) : string := String.substring 0 n s.

(** [sep.join(parts)] *)
Fixpoint join (sep : string) (parts : list string) : string :=
  match parts with
  | [] => ""
  | [p] => p
  | p :: rest => p +:+ sep +:+ join sep rest
  end.

(** [sub in s] *)
Fixpoint contains (sub s : string) : bool :=
  String.prefix sub s ||
  match s with
  | EmptyString => false
  | String _ s' => contains sub s'
  end.

(** [s.endswith(p)] *)
Fixpoint endswith (s p : string) : bool :=
  String.eqb s p ||
  match s with
  | EmptyString => false
  | String _ s' => endswith s' p
  end.

(** The characters of [uuid.hex]: the digits and the letters a to f. *)
Definition is_hex_digit (c : Ascii.ascii) : bool :=
  let n := Ascii.nat_of_ascii c in
  (Nat.leb 48 n && Nat.leb n 57) || (Nat.leb 97 n && Nat.leb n 102).

Fixpoint all_hex (s : string) : bool :=
  match s with
  | EmptyString => true
  | String c s' => is_hex_digit c && all_hex s'
  end.

(** [s.split(sep)] for a non-empty separator: the string is scanned from
    the left; where the separator matches, the piece collected so far is
    emitted and the scan resumes after the separator ([skip] counts the
    separator characters still to be passed over). *)
Fixpoint split_scan (sep : string) (skip : nat) (cur : string) (s : string)
  : list string :=
  match s with
  | EmptyString => [cur]
  | String c s' =>
      match skip with
      | S k => split_scan sep k cur s'
      | O =>
          if String.prefix sep s
          then cur :: split_scan sep (String.length sep - 1) "" s'
          else split_scan sep 0 (cur +:+ String c "") s'
      end
  end.

Definition split (sep s : string) : list string := split_scan sep 0 "" s.

(** [parts[i]] *)
Definition index {St Call A} (parts : list A) (i : nat) : M St Call A :=
  match parts !! i with
  | Some x => ret x
  | None => raise (IndexError "list index out of range")
  end.

(** [isinstance(x, str)] distinguishes an identifier from a resource
    object wherever a service accepts both. *)
Inductive arg (T : Type) : Type :=
| ById (id : string)
| Obj (o : T).
Arguments ById {T} id.
Arguments Obj {T} o.

Definition truthy_arg {T} (a : option (arg T)) : bool :=
  match a with
  | None => false
  | Some (ById s) => truthy_str s
  | Some (Obj _) => true
  end.

(** [ClientPagedResultList(provider, objects, limit, marker)]: the class
    lives in cloudbridge/cloud/base/resources.py; here it is the record of
    what the services pass to its constructor. *)
Record ClientPagedResultList (A : Type) : Type := PagedList {
  objects : list A;
  limit : option nat;
  marker : option string
}.
Arguments PagedList {A} objects limit marker.
Arguments objects {A} c.
Arguments limit {A} c.
Arguments marker {A} c.

(** One entry of a launch configuration's [block_devices]. *)
Inductive device_source (Snap Vol Img : Type) : Type :=
| SrcNone
| SrcSnapshot (s : Snap)
| SrcVolume (v : Vol)
| SrcImage (i : Img).
Arguments SrcNone {Snap Vol Img}.
Arguments SrcSnapshot {Snap Vol Img} s.
Arguments SrcVolume {Snap Vol Img} v.
Arguments SrcImage {Snap Vol Img} i.

Record block_device (Snap Vol Img : Type) : Type := BlockDevice {
  is_volume : bool;
  is_root : bool;
  source : device_source Snap Vol Img;
  size : option Z;
  delete_on_terminate : option bool
}.
Arguments BlockDevice {Snap Vol Img} is_volume is_root source size delete_on_terminate.
Arguments is_volume {Snap Vol Img} b.
Arguments is_root {Snap Vol Img} b.
Arguments source {Snap Vol Img} b.
Arguments size {Snap Vol Img} b.
Arguments delete_on_terminate {Snap Vol Img} b.

End Py.

(** ** The Azure provider (cloudbridge/cloud/providers/azure/services.py) *)
Module Azure.
Import Py.
Open Scope py_scope.

(** *** Resources

    The resource classes (AzureVolume, AzureSubnet, ...) are thin wrappers
    around the objects the client returns; each record below holds the
    properties that services.py reads from such an object. *)

Record sg_rule : Type := SgRule {
  ip_protocol : string;
  from_port : Z;
  to_port : Z;
  cidr_ip : string
}.

Record security_group : Type := SecurityGroup {
  sg_id : string;
  sg_resource_id : string;
  sg_tags : gmap string string;
  sg_rules : list sg_rule
}.

(** The table entity that stores a public key; [create] builds it with
    exactly these four keys. *)
Record public_key_entity : Type := PublicKeyEntity {
  PartitionKey : string;
  RowKey : string;
  Name : string;
  Key : string
}.

Record key_pair : Type := AzureKeyPair {
  _key_pair : public_key_entity;
  material : option string
}.

(** [key_pair.name] *)
Definition kp_name (kp : key_pair) : string := Name (_key_pair kp).

Record bucket : Type := AzureBucket { bucket_name : string }.

Record volume : Type := AzureVolume {
  vol_id : string;
  vol_resource_id : string;
  vol_size : option Z;
  vol_tags : gmap string string
}.

Record snapshot : Type := AzureSnapshot {
  snap_id : string;
  snap_resource_id : string;
  snap_tags : gmap string string
}.

Record machine_image : Type := AzureMachineImage {
  img_id : string;
  img_resource_id : string;
  img_tags : gmap string string
}.

Record instance_type : Type := AzureInstanceType { it_id : string }.

Record placement_zone : Type := AzurePlacementZone { zone_id : string }.

Record network : Type := AzureNetwork {
  net_id : string;
  net_name : string
}.

Record subnet : Type := AzureSubnet {
  subnet_id : string;
  subnet_resource_id : string;
  subnet_zone_id : option string   (* subnet.zone.id *)
}.

Record floating_ip : Type := AzureFloatingIP { fip_id : string }.

Record region : Type := AzureRegion { region_name_of : string }.

Record router : Type := AzureRouter { router_name : option string }.

Record nic_info : Type := NicInfo { nic_id : string }.

Record instance : Type := AzureInstance {
  vm_id : string;
  vm_tags : gmap string string
}.

Definition launch_device : Type := block_device snapshot volume machine_image.

Record launch_config : Type := AzureLaunchConfig {
  block_devices : list launch_device
}.

(** What [create] has worked out when it turns to the launch options: the
    local variables [instance_name], [key_pair], [image] and [subnet]. *)
Record launch_inputs : Type := LaunchInputs {
  li_instance_name : string;
  li_key_pair : option key_pair;
  li_image : option machine_image;
  li_subnet : option subnet
}.

(** *** Request bodies

    The parameter dictionaries handed to the client, one record per shape;
    an optional field is a key that is only set on some paths (for
    [disk_size_gb], also a [None] size). *)

Record sg_parameters : Type := SgParameters {
  sgp_location : string;
  sgp_tags : gmap string string
}.

Record disk_parameters : Type := DiskParameters {
  dp_location : string;
  dp_disk_size_gb : option Z;
  dp_create_option : string;
  dp_source_uri : option string;
  dp_tags : gmap string string
}.

Record nic_parameters : Type := NicParameters {
  nic_location : string;
  ip_config_name : string;
  private_ip_allocation_method : string;
  nic_subnet_id : string;
  network_security_group : option string
}.

Record data_disk : Type := DataDisk {
  lun : nat;
  dd_name : string;
  dd_create_option : string;
  managed_disk_id : string
}.

(** The virtual-machine request, with the nested dictionaries of the
    source flattened into one record. *)
Record vm_parameters : Type := VmParameters {
  vm_location : string;
  admin_username : string;
  computer_name : string;
  disable_password_authentication : bool;
  ssh_key_path : string;
  ssh_key_data : string;
  custom_data : option string;
  vm_size : string;
  network_interface_id : string;
  image_reference_id : string;
  os_disk_name : string;
  os_disk_create_option : string;
  os_disk_size_gb : option Z;
  data_disks : option (list data_disk);
  vmp_tags : gmap string string
}.

Record network_parameters : Type := NetworkParameters {
  np_location : string;
  address_prefixes : list string;
  np_tags : gmap string string
}.

Record public_ip_parameters : Type := PublicIpParameters {
  pip_location : string;
  public_ip_allocation_method : string
}.

Record subnet_parameters : Type := SubnetParameters {
  address_prefix : string
}.

(** *** The client ([self.provider.azure_client])

    One constructor per client method the services call, with the actual
    arguments.  [SnapshotCreateVolume] and [CreateSecurityGroupRule] are
    the provider calls behind the resource methods [snapshot.create_volume()]
    and [security_group.add_rule(...)]. *)
Inductive call : Type :=
| GetSecurityGroup (sg_id : string)
| ListSecurityGroup
| CreateSecurityGroup (name : string) (parameters : sg_parameters)
| DeleteSecurityGroup (group_id : string)
| CreateSecurityGroupRule (group_id : string) (rule : sg_rule)
| GetPublicKey (key_pair_id : string)
| ListPublicKeys (partition_key : string)
| CreatePublicKey (entity : public_key_entity)
| GetContainer (bucket_id : string)
| ListContainers (prefix : option string)
| CreateContainer (name : string)
| GetDisk (volume_id : string)
| ListDisks
| CreateSnapshotDisk (disk_name : string) (params : disk_parameters)
| CreateEmptyDisk (disk_name : string) (params : disk_parameters)
| UpdateDiskTags (volume_id : string) (tags : gmap string string)
| SnapshotCreateVolume (snapshot_id : string)
| GetSnapshot (ss_id : string)
| ListSnapshots
| CreateSnapshot (snapshot_name : string) (params : disk_parameters)
| CreateNic (nic_name : string) (params : nic_parameters)
| CreateVm (instance_name : string) (params : vm_parameters)
| GetVm (instance_id : string)
| ListVm
| GetImage (image_id : string)
| ListImages
| ListInstanceTypes
| GetNetwork (network_id : string)
| ListNetworks
| CreateNetwork (network_name : string) (params : network_parameters)
| DeleteNetwork (network_id : string)
| CreateFloatingIp (name : string) (params : public_ip_parameters)
| ListFloatingIps
| ListLocations
| GetSubnet (network_id subnet_name : string)
| ListSubnets (network_id : string)
| CreateSubnet (network_id subnet_name : string) (params : subnet_parameters)
| DeleteSubnet (network_id subnet_name : string).

(** The calls that change the backend, as opposed to reads. *)
Definition is_mutation (c : call) : bool :=
  match c with
  | CreateSecurityGroup _ _ | DeleteSecurityGroup _
  | CreateSecurityGroupRule _ _ | CreatePublicKey _ | CreateContainer _
  | CreateSnapshotDisk _ _ | CreateEmptyDisk _ _ | UpdateDiskTags _ _
  | SnapshotCreateVolume _ | CreateSnapshot _ _ | CreateNic _ _
  | CreateVm _ _ | CreateNetwork _ _ | DeleteNetwork _
  | CreateFloatingIp _ _ | CreateSubnet _ _ _ | DeleteSubnet _ _ => true
  | _ => false
  end.

Definition mutations (t : list call) : list call := filter (fun c => is_mutation c = true) t.

Definition reads (c : call) : Prop := is_mutation c = false.

(** The calls that request a network interface or a virtual machine. *)
Definition is_launch (c : call) : bool :=
  match c with
  | CreateNic _ _ | CreateVm _ _ => true
  | _ => false
  end.

Definition no_launch (c : call) : Prop := is_launch c = false.

(** The virtual machines that the call requests are requested at
    [location]. *)
Definition vm_at (location : string) (c : call) : Prop :=
  forall n p, c = CreateVm n p -> vm_location p = location.

(** The calls that create a security group or a rule of one. *)
Definition is_group_creation (c : call) : bool :=
  match c with
  | CreateSecurityGroup _ _ | CreateSecurityGroupRule _ _ => true
  | _ => false
  end.

Definition no_group (c : call) : Prop := is_group_creation c = false.

Definition group_creations (t : list call) : list call :=
  filter (fun c => is_group_creation c = true) t.

(** The calls that create, on the group [gid], the rules of the groups
    [gs], group by group. *)
Definition imported_rules (gid : string) (gs : list security_group)
  : list call :=
  map (CreateSecurityGroupRule gid) (concat (map sg_rules gs)).

(** The same for groups requested by identifier: each is looked up, then its
    rules are created on [gid]. *)
Definition looked_up_rules (gid : string)
    (looked : list (string * security_group)) : list call :=
  concat (map (fun sg => GetSecurityGroup (fst sg)
                         :: map (CreateSecurityGroupRule gid) (sg_rules (snd sg)))
              looked).

(** If the call creates a disk, it creates it under the name [native], with
    [requested] as its 'Name' tag. *)
Definition names_disk (native requested : string) (c : call) : Prop :=
  match c with
  | CreateEmptyDisk n p | CreateSnapshotDisk n p =>
      n = native /\ dp_tags p !! "Name" = Some requested
  | _ => True
  end.

(** The same for the creation of a snapshot. *)
Definition names_snapshot (native requested : string) (c : call) : Prop :=
  match c with
  | CreateSnapshot n p => n = native /\ dp_tags p !! "Name" = Some requested
  | _ => True
  end.

(** The same for the creation of a virtual machine. *)
Definition names_vm (native requested : string) (c : call) : Prop :=
  match c with
  | CreateVm n p => n = native /\ vmp_tags p !! "Name" = Some requested
  | _ => True
  end.

Record azure_client (St : Type) : Type := AzureClient {
  client_region_name : string;
  get_security_group : string -> St -> res security_group * St;
  list_security_group : St -> res (list security_group) * St;
  create_security_group : string -> sg_parameters -> St -> res security_group * St;
  delete_security_group : string -> St -> res unit * St;
  create_security_group_rule : string -> sg_rule -> St -> res unit * St;
  get_public_key : string -> St -> res (option public_key_entity) * St;
  list_public_keys : string -> St -> res (list public_key_entity) * St;
  create_public_key : public_key_entity -> St -> res unit * St;
  get_container : string -> St -> res bucket * St;
  list_containers : option string -> St -> res (list bucket) * St;
  create_container : string -> St -> res bucket * St;
  get_disk : string -> St -> res volume * St;
  list_disks : St -> res (list volume) * St;
  create_snapshot_disk : string -> disk_parameters -> St -> res unit * St;
  create_empty_disk : string -> disk_parameters -> St -> res unit * St;
  update_disk_tags : string -> gmap string string -> St -> res unit * St;
  snapshot_create_volume : snapshot -> St -> res volume * St;
  get_snapshot : string -> St -> res snapshot * St;
  list_snapshots : St -> res (list snapshot) * St;
  create_snapshot : string -> disk_parameters -> St -> res unit * St;
  create_nic : string -> nic_parameters -> St -> res nic_info * St;
  create_vm : string -> vm_parameters -> St -> res unit * St;
  get_vm : string -> St -> res instance * St;
  list_vm : St -> res (list instance) * St;
  get_image : string -> St -> res machine_image * St;
  list_images : St -> res (list machine_image) * St;
  list_instance_types : St -> res (list instance_type) * St;
  get_network : string -> St -> res network * St;
  list_networks : St -> res (list network) * St;
  create_network : string -> network_parameters -> St -> res unit * St;
  delete_network : string -> St -> res unit * St;
  create_floating_ip : string -> public_ip_parameters -> St -> res floating_ip * St;
  list_floating_ips : St -> res (list floating_ip) * St;
  list_locations : St -> res (list region) * St;
  get_subnet : string -> string -> St -> res (option subnet) * St;
  list_subnets : string -> St -> res (list subnet) * St;
  create_subnet : string -> string -> subnet_parameters -> St -> res subnet * St;
  delete_subnet : string -> string -> St -> res unit * St
}.
Arguments client_region_name {St} a.
Arguments get_security_group {St} a.
Arguments list_security_group {St} a.
Arguments create_security_group {St} a.
Arguments delete_security_group {St} a.
Arguments create_security_group_rule {St} a.
Arguments get_public_key {St} a.
Arguments list_public_keys {St} a.
Arguments create_public_key {St} a.
Arguments get_container {St} a.
Arguments list_containers {St} a.
Arguments create_container {St} a.
Arguments get_disk {St} a.
Arguments list_disks {St} a.
Arguments create_snapshot_disk {St} a.
Arguments create_empty_disk {St} a.
Arguments update_disk_tags {St} a.
Arguments snapshot_create_volume {St} a.
Arguments get_snapshot {St} a.
Arguments list_snapshots {St} a.
Arguments create_snapshot {St} a.
Arguments create_nic {St} a.
Arguments create_vm {St} a.
Arguments get_vm {St} a.
Arguments list_vm {St} a.
Arguments get_image {St} a.
Arguments list_images {St} a.
Arguments list_instance_types {St} a.
Arguments get_network {St} a.
Arguments list_networks {St} a.
Arguments create_network {St} a.
Arguments delete_network {St} a.
Arguments create_floating_ip {St} a.
Arguments list_floating_ips {St} a.
Arguments list_locations {St} a.
Arguments get_subnet {St} a.
Arguments list_subnets {St} a.
Arguments create_subnet {St} a.
Arguments delete_subnet {St} a.

(** [self.provider] *)
Record provider (St : Type) : Type := Provider {
  azure : azure_client St;
  region_name : string;
  vm_default_user_name : string
}.
Arguments Provider {St} azure region_name vm_default_user_name.
Arguments azure {St} p.
Arguments region_name {St} p.
Arguments vm_default_user_name {St} p.

(** Class-level constants. *)
Definition PARTITION_KEY : string := "00000000-0000-0000-0000-000000000000".

(** Modelled from the spec: AzureSubnet.id is defined in resources.py, which
    is not among the sources.  The composite subnet identifier is "a string
    key built by joining the parent network identifier and the subnet's own
    identifier with a fixed, reserved delimiter sequence"; the delimiter is
    the one [get] and [delete] split on. *)
Definition composite_subnet_id (network_id subnet_name : string) : string :=
  network_id +:+ "|$|" +:+ subnet_name.

(** A non-root volume device without a source: a blank volume is wanted. *)
Definition blank_device (d : launch_device) : bool :=
  is_volume d && negb (is_root d) &&
  match source d with SrcNone => true | _ => false end.

(** The devices for which the loop of [_process_block_device_mappings]
    calls nothing: ephemeral devices, the root device and non-root devices
    with a machine image as their source. *)
Definition inert_device (d : launch_device) : bool :=
  negb (is_volume d) || is_root d ||
  match source d with SrcImage _ => true | _ => false end.

(** *** The services *)
Section Services.
Context {St : Type}.

(** [self.provider] *)
Variable P : provider St.

(** [uuid.uuid4().hex] and the key generator of azure_helpers, as functions
    of the number of the draw. *)
Variable uuid_source : nat -> string.
Variable gen_key_pair : nat -> string * string.

(** [str(base64.b64encode(bytes(s, 'utf-8')), 'utf-8')] *)
Variable b64encode : string -> string.

(** The matching policy of azure_helpers.filter: [tag_match wanted actual]. *)
Variable tag_match : string -> string -> bool.

(** AzureNetwork.CB_DEFAULT_NETWORK_NAME, AzureSubnet.CB_DEFAULT_SUBNET_NAME *)
Variable CB_DEFAULT_NETWORK_NAME : string.
Variable CB_DEFAULT_SUBNET_NAME : string.

Abbreviation cl := (azure P).
Abbreviation M := (Py.M St call).

(** [except CloudError as cloudError: log.exception(...); <k>] (logging is
    not modelled). *)
Definition except_CloudError {A} (k : M A) (e : exn) : option (M A) :=
  match e with CloudError _ => Some k | _ => None end.

Definition except_AzureException {A} (k : M A) (e : exn) : option (M A) :=
  match e with AzureException _ => Some k | _ => None end.

(** ["{0}-{1}".format(name, uuid.uuid4().hex[:6])] *)
Definition suffixed_name (name : string) : M string :=
  hex <- uuid4_hex uuid_source ;;
  ret (name +:+ "-" +:+ slice_to 6 hex).

(** Modelled from the spec: azure_helpers.filter (helpers.py is not among
    the sources).  Find is a filter by name over the listing: an object is
    kept when its tag [key] matches the wanted value under the provider's
    matching policy. *)
Definition filter_by_tag {A} (tags_of : A -> gmap string string)
    (items : list A) (key wanted : string) : list A :=
  List.filter
    (fun obj =>
       match tags_of obj !! key with
       | Some actual => tag_match wanted actual
       | None => false
       end)
    items.

(** **** AzureSecurityGroupService *)

(** [tags = {'Name': name}; if description: tags.update(Description=...)] *)
Definition name_tags (name : string) (description : option string)
  : gmap string string :=
  match description with
  | Some d => if truthy_str d then <["Description" := d]> {[ "Name" := name ]}
              else {[ "Name" := name ]}
  | None => {[ "Name" := name ]}
  end.

Definition AzureSecurityGroupService_get (sg_id : string)
  : M (option security_group) :=
  try_except
    (sgs <- invoke (GetSecurityGroup sg_id) (get_security_group cl sg_id) ;;
     ret (Some sgs))
    (except_CloudError (ret None)).

Definition AzureSecurityGroupService_list (limit : option nat)
    (marker : option string) : M (ClientPagedResultList security_group) :=
  sgs <- invoke ListSecurityGroup (list_security_group cl) ;;
  ret (PagedList sgs limit marker).

Definition AzureSecurityGroupService_create (name : string)
    (description : option string) : M security_group :=
  let parameters := SgParameters (region_name P) (name_tags name description) in
  invoke (CreateSecurityGroup name parameters)
         (create_security_group cl name parameters).

Definition AzureSecurityGroupService_find (name : string)
    (limit : option nat) (marker : option string)
  : M (ClientPagedResultList security_group) :=
  all <- invoke ListSecurityGroup (list_security_group cl) ;;
  ret (PagedList (filter_by_tag sg_tags all "Name" name) limit marker).

Definition AzureSecurityGroupService_delete (group_id : string) : M bool :=
  try_except
    (invoke (DeleteSecurityGroup group_id) (delete_security_group cl group_id) ;;;
     ret true)
    (except_CloudError (ret false)).

(** Modelled from the spec: AzureSecurityGroup.add_rule(src_group=...) is
    defined in resources.py, which is not among the sources.  The merge group
    "imports rules from each requested group": every rule of the source
    group is created on the receiving group; a source given by identifier
    is looked up first. *)
Definition AzureSecurityGroup_add_rule (sg : security_group)
    (src_group : arg security_group) : M unit :=
  src <- match src_group with
         | Obj g => ret (Some g)
         | ById s => AzureSecurityGroupService_get s
         end ;;
  match src with
  | Some g =>
      for_each (sg_rules g)
        (fun _ rule =>
           invoke (CreateSecurityGroupRule (sg_id sg) rule)
                  (create_security_group_rule cl (sg_id sg) rule))
        tt
  | None => raise (AttributeError "'NoneType' object has no attribute 'rules'")
  end.

(** **** AzureKeyPairService *)

Definition AzureKeyPairService_get (key_pair_id : string)
  : M (option key_pair) :=
  try_except
    (key_pair <- invoke (GetPublicKey key_pair_id)
                        (get_public_key cl key_pair_id) ;;
     match key_pair with
     | Some entity => ret (Some (AzureKeyPair entity None))
     | None => ret None
     end)
    (except_AzureException (ret None)).

Definition AzureKeyPairService_list (limit : option nat)
    (marker : option string) : M (ClientPagedResultList key_pair) :=
  keys <- invoke (ListPublicKeys PARTITION_KEY)
                 (list_public_keys cl PARTITION_KEY) ;;
  ret (PagedList (map (fun e => AzureKeyPair e None) keys) limit marker).

Definition AzureKeyPairService_find (name : string) (limit : option nat)
    (marker : option string) : M (ClientPagedResultList key_pair) :=
  key_pair <- AzureKeyPairService_get name ;;
  ret (PagedList (match key_pair with Some kp => [kp] | None => [] end)
                 limit marker).

(** [str(uuid.uuid4())]: the 32 hexadecimal digits in groups of
    8-4-4-4-12. *)
Definition uuid_str (hex : string) : string :=
  String.substring 0 8 hex +:+ "-" +:+ String.substring 8 4 hex +:+ "-" +:+
  String.substring 12 4 hex +:+ "-" +:+ String.substring 16 4 hex +:+ "-" +:+
  String.substring 20 12 hex.

Definition AzureKeyPairService_create (name : string) : M key_pair :=
  existing <- AzureKeyPairService_get name ;;
  match existing with
  | Some _ => raise (PyException ("Keypair already exists with name " +:+ name))
  | None =>
      keys <- draw gen_key_pair ;;
      let '(private_key_str, public_key_str) := keys in
      hex <- uuid4_hex uuid_source ;;
      let entity := PublicKeyEntity PARTITION_KEY (uuid_str hex) name
                                    public_key_str in
      invoke (CreatePublicKey entity) (create_public_key cl entity) ;;;
      created <- AzureKeyPairService_get name ;;
      match created with
      | Some kp => ret (AzureKeyPair (_key_pair kp) (Some private_key_str))
      | None =>
          raise (AttributeError "'NoneType' object has no attribute 'material'")
      end
  end.

(** **** AzureObjectStoreService *)

(** [name.lower()] on ASCII names. *)
Definition lower_char (c : Ascii.ascii) : Ascii.ascii :=
  let n := Ascii.nat_of_ascii c in
  if Nat.leb 65 n && Nat.leb n 90 then Ascii.ascii_of_nat (n + 32) else c.

Fixpoint lower (s : string) : string :=
  match s with
  | EmptyString => EmptyString
  | String c s' => String (lower_char c) (lower s')
  end.

Definition AzureObjectStoreService_get (bucket_id : string)
  : M (option bucket) :=
  try_except
    (b <- invoke (GetContainer bucket_id) (get_container cl bucket_id) ;;
     ret (Some b))
    (except_AzureException (ret None)).

Definition AzureObjectStoreService_find (name : string) (limit : option nat)
    (marker : option string) : M (ClientPagedResultList bucket) :=
  buckets <- invoke (ListContainers (Some name)) (list_containers cl (Some name)) ;;
  ret (PagedList buckets limit marker).

Definition AzureObjectStoreService_list (limit : option nat)
    (marker : option string) : M (ClientPagedResultList bucket) :=
  buckets <- invoke (ListContainers None) (list_containers cl None) ;;
  ret (PagedList buckets limit marker).

Definition AzureObjectStoreService_create (name : string) : M bucket :=
  invoke (CreateContainer (lower name)) (create_container cl (lower name)).

(** **** AzureSnapshotService.get and AzureVolumeService *)

Definition AzureSnapshotService_get (ss_id : string) : M (option snapshot) :=
  try_except
    (s <- invoke (GetSnapshot ss_id) (get_snapshot cl ss_id) ;;
     ret (Some s))
    (except_CloudError (ret None)).

Definition AzureVolumeService_get (volume_id : string) : M (option volume) :=
  try_except
    (v <- invoke (GetDisk volume_id) (get_disk cl volume_id) ;;
     ret (Some v))
    (except_CloudError (ret None)).

Definition AzureVolumeService_find (name : string) (limit : option nat)
    (marker : option string) : M (ClientPagedResultList volume) :=
  all <- invoke ListDisks (list_disks cl) ;;
  ret (PagedList (filter_by_tag vol_tags all "Name" name) limit marker).

Definition AzureVolumeService_list (limit : option nat)
    (marker : option string) : M (ClientPagedResultList volume) :=
  azure_vols <- invoke ListDisks (list_disks cl) ;;
  ret (PagedList azure_vols limit marker).

(** [zone.id if isinstance(zone, PlacementZone) else zone] *)
Definition zone_id_of (zone : option (arg placement_zone)) : option string :=
  match zone with
  | None => None
  | Some (ById z) => Some z
  | Some (Obj z) => Some (zone_id z)
  end.

Definition AzureVolumeService_create (name : string) (size : option Z)
    (zone : option (arg placement_zone)) (snapshot : option (arg snapshot))
    (description : option string) : M volume :=
  let zone_id := zone_id_of zone in
  snapshot <- match snapshot with
              | Some (ById s) =>
                  if truthy_str s then AzureSnapshotService_get s else ret None
              | Some (Obj s) => ret (Some s)
              | None => ret None
              end ;;
  disk_name <- suffixed_name name ;;
  let tags := name_tags name description in
  match snapshot with
  | Some snap =>
      let params := DiskParameters (or_else zone_id (client_region_name cl))
                      None "copy" (Some (snap_resource_id snap)) tags in
      invoke (CreateSnapshotDisk disk_name params)
             (create_snapshot_disk cl disk_name params)
  | None =>
      let params := DiskParameters (or_else zone_id (region_name P))
                      size "empty" None tags in
      invoke (CreateEmptyDisk disk_name params)
             (create_empty_disk cl disk_name params)
  end ;;;
  invoke (GetDisk disk_name) (get_disk cl disk_name).

(** **** AzureSnapshotService *)

Definition AzureSnapshotService_find (name : string) (limit : option nat)
    (marker : option string) : M (ClientPagedResultList snapshot) :=
  all <- invoke ListSnapshots (list_snapshots cl) ;;
  ret (PagedList (filter_by_tag snap_tags all "Name" name) limit marker).

Definition AzureSnapshotService_list (limit : option nat)
    (marker : option string) : M (ClientPagedResultList snapshot) :=
  snaps <- invoke ListSnapshots (list_snapshots cl) ;;
  ret (PagedList snaps limit marker).

Definition AzureSnapshotService_create (name : string) (volume : arg volume)
    (description : option string) : M snapshot :=
  volume <- match volume with
            | ById v => AzureVolumeService_get v
            | Obj v => ret (Some v)
            end ;;
  snapshot_name <- suffixed_name name ;;
  let tags := name_tags name description in
  match volume with
  | None =>
      raise (AttributeError "'NoneType' object has no attribute 'resource_id'")
  | Some vol =>
      let params := DiskParameters (client_region_name cl) (vol_size vol)
                      "Copy" (Some (vol_resource_id vol)) tags in
      invoke (CreateSnapshot snapshot_name params)
             (create_snapshot cl snapshot_name params) ;;;
      invoke (GetSnapshot snapshot_name) (get_snapshot cl snapshot_name)
  end.

(** **** AzureImageService, AzureInstanceTypesService, AzureRegionService *)

Definition AzureImageService_get (image_id : string)
  : M (option machine_image) :=
  try_except
    (i <- invoke (GetImage image_id) (get_image cl image_id) ;;
     ret (Some i))
    (except_CloudError (ret None)).

Definition AzureImageService_find (name : string) (limit : option nat)
    (marker : option string) : M (ClientPagedResultList machine_image) :=
  all <- invoke ListImages (list_images cl) ;;
  ret (PagedList (filter_by_tag img_tags all "Name" name) limit marker).

Definition AzureImageService_list (limit : option nat)
    (marker : option string) : M (ClientPagedResultList machine_image) :=
  azure_images <- invoke ListImages (list_images cl) ;;
  ret (PagedList azure_images limit marker).

Definition AzureInstanceTypesService_list (limit : option nat)
    (marker : option string) : M (ClientPagedResultList instance_type) :=
  inst_types <- invoke ListInstanceTypes (list_instance_types cl) ;;
  ret (PagedList inst_types limit marker).

Definition AzureRegionService_get (region_id : string) : M (option region) :=
  locations <- invoke ListLocations (list_locations cl) ;;
  ret (List.find (fun r => String.eqb (region_name_of r) region_id) locations).

Definition AzureRegionService_list (limit : option nat)
    (marker : option string) : M (ClientPagedResultList region) :=
  regions <- invoke ListLocations (list_locations cl) ;;
  ret (PagedList regions limit marker).

Definition AzureRegionService_current : M (option region) :=
  AzureRegionService_get (region_name P).

(** **** AzureNetworkService *)

Definition AzureNetworkService_get (network_id : string)
  : M (option network) :=
  try_except
    (n <- invoke (GetNetwork network_id) (get_network cl network_id) ;;
     ret (Some n))
    (except_CloudError (ret None)).

Definition AzureNetworkService_list (limit : option nat)
    (marker : option string) : M (ClientPagedResultList network) :=
  networks <- invoke ListNetworks (list_networks cl) ;;
  ret (PagedList networks limit marker).

Definition AzureNetworkService_create (name : option string) : M network :=
  network_name <- match name with
                  | Some n => if truthy_str n then suffixed_name n
                              else ret CB_DEFAULT_NETWORK_NAME
                  | None => ret CB_DEFAULT_NETWORK_NAME
                  end ;;
  let params :=
    NetworkParameters (client_region_name cl) ["10.0.0.0/16"]
      {[ "Name" := or_else name CB_DEFAULT_NETWORK_NAME ]} in
  invoke (CreateNetwork network_name params)
         (create_network cl network_name params) ;;;
  invoke (GetNetwork network_name) (get_network cl network_name).

Definition AzureNetworkService_create_floating_ip : M floating_ip :=
  public_ip_address_name <- suffixed_name "public_ip" ;;
  let public_ip_parameters :=
    PublicIpParameters (client_region_name cl) "Static" in
  invoke (CreateFloatingIp public_ip_address_name public_ip_parameters)
         (create_floating_ip cl public_ip_address_name public_ip_parameters).

Definition AzureNetworkService_floating_ips
  : M (ClientPagedResultList floating_ip) :=
  floating_ips <- invoke ListFloatingIps (list_floating_ips cl) ;;
  ret (PagedList floating_ips None None).

Definition AzureNetworkService_routers : M (ClientPagedResultList router) :=
  ret (PagedList [] None None).

Definition AzureNetworkService_create_router (name : option string)
  : M router :=
  ret (AzureRouter name).

Definition AzureNetworkService_delete (network_id : string) : M bool :=
  try_except
    (invoke (DeleteNetwork network_id) (delete_network cl network_id) ;;;
     ret true)
    (except_CloudError (ret false)).

(** **** AzureSubnetService *)

Definition AzureSubnetService_get (subnet_id : string) : M (option subnet) :=
  try_except
    (let subnet_id_parts := split "|$|" subnet_id in
     network_part <- index subnet_id_parts 0 ;;
     subnet_part <- index subnet_id_parts 1 ;;
     invoke (GetSubnet network_part subnet_part)
            (get_subnet cl network_part subnet_part))
    (except_CloudError (ret None)).

Definition AzureSubnetService__list_subnets (network : option (arg network))
  : M (list subnet) :=
  let of_all_networks : M (list subnet) :=
    networks <- invoke ListNetworks (list_networks cl) ;;
    for_each networks
      (fun result_list net =>
         more <- invoke (ListSubnets (net_name net))
                        (list_subnets cl (net_name net)) ;;
         ret (result_list ++ more)%list)
      [] in
  match network with
  | Some (Obj n) =>
      invoke (ListSubnets (net_id n)) (list_subnets cl (net_id n))
  | Some (ById network_id) =>
      if truthy_str network_id
      then invoke (ListSubnets network_id) (list_subnets cl network_id)
      else of_all_networks
  | None => of_all_networks
  end.

Definition AzureSubnetService_list (network : option (arg network))
    (limit : option nat) (marker : option string)
  : M (ClientPagedResultList subnet) :=
  subnets <- AzureSubnetService__list_subnets network ;;
  ret (PagedList subnets limit marker).

Definition AzureSubnetService_create (network : arg network)
    (cidr_block : string) (name : option string) : M subnet :=
  let network_id := match network with Obj n => net_id n | ById n => n end in
  let subnet_name := or_else name CB_DEFAULT_SUBNET_NAME in
  invoke (CreateSubnet network_id subnet_name (SubnetParameters cidr_block))
         (create_subnet cl network_id subnet_name (SubnetParameters cidr_block)).

Definition AzureSubnetService_get_or_create_default : M subnet :=
  let default_cdir := "10.0.1.0/24" in
  subnet <- try_except
              (invoke (GetSubnet CB_DEFAULT_NETWORK_NAME CB_DEFAULT_SUBNET_NAME)
                      (get_subnet cl CB_DEFAULT_NETWORK_NAME
                                  CB_DEFAULT_SUBNET_NAME))
              (except_CloudError (ret None)) ;;
  match subnet with
  | Some sn => ret sn
  | None =>
      network <- try_except
                   (n <- invoke (GetNetwork CB_DEFAULT_NETWORK_NAME)
                                (get_network cl CB_DEFAULT_NETWORK_NAME) ;;
                    ret (Some n))
                   (except_CloudError (ret None)) ;;
      match network with
      | Some _ => ret tt
      | None => AzureNetworkService_create None ;;; ret tt
      end ;;;
      invoke (CreateSubnet CB_DEFAULT_NETWORK_NAME CB_DEFAULT_SUBNET_NAME
                           (SubnetParameters default_cdir))
             (create_subnet cl CB_DEFAULT_NETWORK_NAME CB_DEFAULT_SUBNET_NAME
                            (SubnetParameters default_cdir))
  end.

Definition AzureSubnetService_delete (subnet : arg subnet) : M bool :=
  try_except
    (let subnet_id := match subnet with Obj s => subnet_id s | ById s => s end in
     let subnet_id_parts := split "|$|" subnet_id in
     network_part <- index subnet_id_parts 0 ;;
     subnet_part <- index subnet_id_parts 1 ;;
     invoke (DeleteSubnet network_part subnet_part)
            (delete_subnet cl network_part subnet_part) ;;;
     ret true)
    (except_CloudError (ret false)).

(** **** AzureInstanceService *)

(** [str(b)] for a boolean. *)
Definition str_bool (b : bool) : string := if b then "True" else "False".

(** The line feed of ['#cloud-config\n']. *)
Definition LF : string :=
  String (Ascii.Ascii false true false true false false false false) "".

(** The accumulators of [_process_block_device_mappings]. *)
Record bdm_state : Type := BdmState {
  disks : list data_disk;
  volumes_count : nat;
  root_disk_size : option Z
}.

(** The invariant of the loop on these accumulators: the logical unit
    numbers of the data disks collected so far increase strictly and stay
    below the volume counter, and every disk is attached. *)
Definition luns_ok (st : bdm_state) : Prop :=
  StronglySorted lt (map lun (disks st))
  /\ Forall (fun d => lun d < volumes_count st) (disks st)
  /\ Forall (fun d => dd_create_option d = "attach") (disks st).

(** The nested function [attach_volume]; it reads [volumes_count] as it is
    at the time of the call and appends to [disks]. *)
Definition attach_volume (disks : list data_disk) (volumes_count : nat)
    (vol : volume) (delete_on_terminate : option bool) : M (list data_disk) :=
  let disks :=
    (disks ++ [DataDisk volumes_count (vol_id vol) "attach"
                        (vol_resource_id vol)])%list in
  let delete_on_terminate := default false delete_on_terminate in
  let tags := <["delete_on_terminate" := str_bool delete_on_terminate]>
                (vol_tags vol) in
  invoke (UpdateDiskTags (vol_id vol) tags)
         (update_disk_tags cl (vol_id vol) tags) ;;;
  ret disks.

Definition BLANK_VOLUME_NEEDS_ZONE : string :=
  "A zone must be specified when launching with a new blank volume block device mapping.".

(** The body of the loop over [launch_config.block_devices]. *)
Definition process_device (vm_name : string) (zone : option string)
    (st : bdm_state) (device : launch_device) : M bdm_state :=
  if is_volume device then
    if negb (is_root device) then
      disks' <-
        match source device with
        | SrcSnapshot snap =>
            snapshot_vol <- invoke (SnapshotCreateVolume (snap_id snap))
                                   (snapshot_create_volume cl snap) ;;
            attach_volume (disks st) (volumes_count st) snapshot_vol
                          (delete_on_terminate device)
        | SrcVolume vol =>
            attach_volume (disks st) (volumes_count st) vol
                          (delete_on_terminate device)
        | SrcImage _ => ret (disks st)
        | SrcNone =>
            if negb (truthy_opt_str zone) then
              raise (InvalidConfigurationException BLANK_VOLUME_NEEDS_ZONE)
            else
              hex <- uuid4_hex uuid_source ;;
              let vol_name := vm_name +:+ "_" +:+ slice_to 6 hex +:+ "_disk" in
              new_vol <- AzureVolumeService_create vol_name (size device)
                           (option_map ById zone) None None ;;
              attach_volume (disks st) (volumes_count st) new_vol
                            (delete_on_terminate device)
        end ;;
      ret (BdmState disks' (S (volumes_count st)) (root_disk_size st))
    else
      ret (BdmState (disks st) (volumes_count st) (size device))
  else
    ret st.

Definition AzureInstanceService__process_block_device_mappings
    (launch_config : launch_config) (vm_name : string) (zone : option string)
  : M (list data_disk * option Z) :=
  final <- for_each (block_devices launch_config)
                    (process_device vm_name zone) (BdmState [] 0 None) ;;
  ret (disks final, root_disk_size final).

(** [','.join(ids)] raises TypeError on an element that is not a string. *)
Fixpoint all_strings (ids : list (arg security_group)) : option (list string) :=
  match ids with
  | [] => Some []
  | ById s :: rest => option_map (cons s) (all_strings rest)
  | Obj _ :: _ => None
  end.

(** [[sg.id for sg in security_groups]] raises AttributeError on a string. *)
Fixpoint all_ids (sgs : list (arg security_group)) : option (list string) :=
  match sgs with
  | [] => Some []
  | Obj g :: rest => option_map (cons (sg_id g)) (all_ids rest)
  | ById _ :: _ => None
  end.

Definition AzureInstanceService__resolve_launch_options (name : string)
    (subnet : option subnet) (zone_id : option string)
    (security_groups : option (list (arg security_group)))
  : M (string * option string * option string) :=
  let zone_id :=
    match subnet with
    | Some sn => subnet_zone_id sn      (* subnet's zone takes precedence *)
    | None => zone_id
    end in
  security_group_id <-
    match security_groups with
    | Some (first :: rest) =>
        let security_groups := first :: rest in
        first_choice <-
          match first with
          | Obj sg0 =>
              match all_ids security_groups with
              | Some ids => ret (Some ids, Some (sg_resource_id sg0))
              | None =>
                  raise (AttributeError "'str' object has no attribute 'id'")
              end
          | ById first_id =>
              seuciry_group <- AzureSecurityGroupService_get first_id ;;
              match seuciry_group with
              | Some g =>
                  ret (all_strings security_groups, Some (sg_resource_id g))
              | None =>
                  raise (AttributeError
                           "'NoneType' object has no attribute 'resource_id'")
              end
          end ;;
        let '(security_groups_ids, security_group_id) := first_choice in
        if Nat.ltb 1 (length security_groups) then
          match security_groups_ids with
          | None => raise (TypeError "sequence item: expected str instance")
          | Some ids =>
              new_sg <- AzureSecurityGroupService_create (name +:+ "-sg")
                          (Some ("Merge security groups " +:+ join "," ids)) ;;
              for_each security_groups
                (fun _ sg => AzureSecurityGroup_add_rule new_sg sg) tt ;;;
              ret (Some (sg_resource_id new_sg))
          end
        else ret security_group_id
    | _ => ret None
    end ;;
  match subnet with
  | Some sn => ret (subnet_resource_id sn, zone_id, security_group_id)
  | None =>
      raise (AttributeError "'NoneType' object has no attribute 'resource_id'")
  end.

(** The user data sent to the machine: a '#cloud-config' header is put in
    front unless the data is a shell script or already has one. *)
Definition cloud_init_user_data (user_data : option string) : option string :=
  match user_data with
  | Some u =>
      if truthy_str u && negb (startswith u "#!")
         && negb (startswith u "#cloud-config")
      then Some ("#cloud-config" +:+ LF +:+ u)
      else Some u
  | None => None
  end.

Definition KEYPAIR_REQUIRED : string :=
  "Can not create instance in azure without public key. Keypair required".

Definition AzureInstanceService_create (name : string)
    (image : arg machine_image) (instance_type : arg instance_type)
    (subnet : option (arg subnet)) (zone : option (arg placement_zone))
    (key_pair : option (arg key_pair))
    (security_groups : option (list (arg security_group)))
    (user_data : option string) (launch_config : option launch_config)
  : M instance :=
  instance_name <- suffixed_name name ;;
  key_pair <- match key_pair with
              | Some (Obj kp) => ret (Some kp)
              | Some (ById k) =>
                  if truthy_str k then AzureKeyPairService_get k
                  else raise (PyException KEYPAIR_REQUIRED)
              | None => raise (PyException KEYPAIR_REQUIRED)
              end ;;
  image <- match image with
           | ById i => AzureImageService_get i
           | Obj i => ret (Some i)
           end ;;
  let instance_size :=
    match instance_type with Obj t => it_id t | ById t => t end in
  subnet <- match subnet with
            | Some (Obj sn) => ret (Some sn)
            | Some (ById s) =>
                if truthy_str s then AzureSubnetService_get s
                else sn <- AzureSubnetService_get_or_create_default ;;
                     ret (Some sn)
            | None => sn <- AzureSubnetService_get_or_create_default ;;
                      ret (Some sn)
            end ;;
  let zone_id := zone_id_of zone in
  resolved <- AzureInstanceService__resolve_launch_options instance_name
                subnet zone_id security_groups ;;
  let '(subnet_id, zone_id, security_group_id) := resolved in
  processed <- match launch_config with
               | Some lc =>
                   dr <- AzureInstanceService__process_block_device_mappings
                           lc name zone_id ;;
                   ret (Some (fst dr), snd dr)
               | None => ret (None, None)
               end ;;
  let '(disks, root_disk_size) := processed in
  let nic_params :=
    NicParameters (region_name P) (instance_name +:+ "_ip_config") "Dynamic"
      subnet_id
      (if truthy_opt_str security_group_id then security_group_id else None) in
  nic_info <- invoke (CreateNic (instance_name +:+ "_nic") nic_params)
                     (create_nic cl (instance_name +:+ "_nic") nic_params) ;;
  let ud := cloud_init_user_data user_data in
  kp <- match key_pair with
        | Some kp => ret kp
        | None =>
            raise (AttributeError
                     "'NoneType' object has no attribute '_key_pair'")
        end ;;
  img <- match image with
         | Some i => ret i
         | None =>
             raise (AttributeError
                      "'NoneType' object has no attribute 'resource_id'")
         end ;;
  let params :=
    VmParameters
      (or_else zone_id (region_name P))
      (vm_default_user_name P)
      instance_name
      true
      ("/home/" +:+ vm_default_user_name P +:+ "/.ssh/authorized_keys")
      (Key (_key_pair kp))
      (if truthy_opt_str user_data then option_map b64encode ud else None)
      instance_size
      (nic_id nic_info)
      (img_resource_id img)
      (instance_name +:+ "_os_disk")
      "fromImage"
      (if truthy_opt_int root_disk_size then root_disk_size else None)
      disks
      (<["Key_Pair" := kp_name kp]> {[ "Name" := name ]}) in
  invoke (CreateVm instance_name params) (create_vm cl instance_name params) ;;;
  invoke (GetVm instance_name) (get_vm cl instance_name).

(** **** The phases of [create]

    [create] is one function in the source.  To state what happens between
    its steps, the same steps are given once more in parts: the inputs
    (instance name, key pair, image and subnet, l.447-470), the launch
    options (l.472-474, [_resolve_launch_options]), the block devices
    (l.476-482) and the launch (l.484-560).  [create] run from any world is
    the sequence of these parts ([create_in_phases] below). *)

Definition launch_key_pair (key_pair_arg : option (arg key_pair))
  : M (option key_pair) :=
  match key_pair_arg with
  | Some (Obj kp) => ret (Some kp)
  | Some (ById k) =>
      if truthy_str k then AzureKeyPairService_get k
      else raise (PyException KEYPAIR_REQUIRED)
  | None => raise (PyException KEYPAIR_REQUIRED)
  end.

Definition launch_image (image : arg machine_image) : M (option machine_image) :=
  match image with
  | ById i => AzureImageService_get i
  | Obj i => ret (Some i)
  end.

Definition launch_subnet (subnet_arg : option (arg subnet))
  : M (option subnet) :=
  match subnet_arg with
  | Some (Obj sn) => ret (Some sn)
  | Some (ById s) =>
      if truthy_str s then AzureSubnetService_get s
      else sn <- AzureSubnetService_get_or_create_default ;; ret (Some sn)
  | None => sn <- AzureSubnetService_get_or_create_default ;; ret (Some sn)
  end.

Definition AzureInstanceService_create_inputs (name : string)
    (image : arg machine_image) (subnet : option (arg subnet))
    (key_pair : option (arg key_pair)) : M launch_inputs :=
  instance_name <- suffixed_name name ;;
  key_pair <- launch_key_pair key_pair ;;
  image <- launch_image image ;;
  subnet <- launch_subnet subnet ;;
  ret (LaunchInputs instance_name key_pair image subnet).

Definition AzureInstanceService_create_devices (name : string)
    (launch_config : option launch_config) (zone_id : option string)
  : M (option (list data_disk) * option Z) :=
  match launch_config with
  | Some lc =>
      dr <- AzureInstanceService__process_block_device_mappings lc name zone_id ;;
      ret (Some (fst dr), snd dr)
  | None => ret (None, None)
  end.

Definition nic_parameters_of (i : launch_inputs)
    (resolved : string * option string * option string) : nic_parameters :=
  let '(subnet_id, zone_id, security_group_id) := resolved in
  NicParameters (region_name P) (li_instance_name i +:+ "_ip_config") "Dynamic"
    subnet_id
    (if truthy_opt_str security_group_id then security_group_id else None).

Definition vm_parameters_of (name : string) (i : launch_inputs)
    (instance_type : arg instance_type)
    (resolved : string * option string * option string)
    (processed : option (list data_disk) * option Z)
    (user_data : option string) (nic_info : nic_info) (kp : key_pair)
    (img : machine_image) : vm_parameters :=
  let '(subnet_id, zone_id, security_group_id) := resolved in
  let '(disks, root_disk_size) := processed in
  VmParameters
    (or_else zone_id (region_name P))
    (vm_default_user_name P)
    (li_instance_name i)
    true
    ("/home/" +:+ vm_default_user_name P +:+ "/.ssh/authorized_keys")
    (Key (_key_pair kp))
    (if truthy_opt_str user_data
     then option_map b64encode (cloud_init_user_data user_data) else None)
    (match instance_type with Obj t => it_id t | ById t => t end)
    (nic_id nic_info)
    (img_resource_id img)
    (li_instance_name i +:+ "_os_disk")
    "fromImage"
    (if truthy_opt_int root_disk_size then root_disk_size else None)
    disks
    (<["Key_Pair" := kp_name kp]> {[ "Name" := name ]}).

Definition AzureInstanceService_create_launch (name : string)
    (i : launch_inputs) (instance_type : arg instance_type)
    (resolved : string * option string * option string)
    (processed : option (list data_disk) * option Z)
    (user_data : option string) : M instance :=
  let instance_name := li_instance_name i in
  nic_info <- invoke (CreateNic (instance_name +:+ "_nic")
                                (nic_parameters_of i resolved))
                     (create_nic cl (instance_name +:+ "_nic")
                                 (nic_parameters_of i resolved)) ;;
  kp <- match li_key_pair i with
        | Some kp => ret kp
        | None =>
            raise (AttributeError
                     "'NoneType' object has no attribute '_key_pair'")
        end ;;
  img <- match li_image i with
         | Some img => ret img
         | None =>
             raise (AttributeError
                      "'NoneType' object has no attribute 'resource_id'")
         end ;;
  let params := vm_parameters_of name i instance_type resolved processed
                                 user_data nic_info kp img in
  invoke (CreateVm instance_name params) (create_vm cl instance_name params) ;;;
  invoke (GetVm instance_name) (get_vm cl instance_name).

Definition AzureInstanceService_create_by_phases (name : string)
    (image : arg machine_image) (instance_type : arg instance_type)
    (subnet : option (arg subnet)) (zone : option (arg placement_zone))
    (key_pair : option (arg key_pair))
    (security_groups : option (list (arg security_group)))
    (user_data : option string) (launch_config : option launch_config)
  : M instance :=
  i <- AzureInstanceService_create_inputs name image subnet key_pair ;;
  resolved <- AzureInstanceService__resolve_launch_options
                (li_instance_name i) (li_subnet i) (zone_id_of zone)
                security_groups ;;
  processed <- AzureInstanceService_create_devices name launch_config
                 (snd (fst resolved)) ;;
  AzureInstanceService_create_launch name i instance_type resolved processed
    user_data.

(** No zone can be resolved for the subnet argument of [create]: a subnet
    object carries none; for an identifier or the default, the subnets that
    the backend returns carry none. *)
Definition no_resolvable_zone (subnet_arg : option (arg subnet)) : Prop :=
  match subnet_arg with
  | Some (Obj sn) => truthy_opt_str (subnet_zone_id sn) = false
  | _ =>
      (forall N S st sn st',
          get_subnet cl N S st = (Ok (Some sn), st') ->
          truthy_opt_str (subnet_zone_id sn) = false)
      /\ (forall N S params st sn st',
             create_subnet cl N S params st = (Ok sn, st') ->
             truthy_opt_str (subnet_zone_id sn) = false)
  end.

(** The subnet is given, as an object or by a non-empty identifier, rather
    than defaulted. *)
Definition subnet_given (subnet_arg : option (arg subnet)) : bool :=
  match subnet_arg with
  | Some (Obj _) => true
  | Some (ById s) => truthy_str s
  | None => false
  end.

(** At most one security group is requested. *)
Definition at_most_one (security_groups : option (list (arg security_group)))
  : bool :=
  match security_groups with
  | None | Some [] | Some [_] => true
  | Some (_ :: _ :: _) => false
  end.

(** The subnet argument of [create] stands for subnet [S] of network [N]:
    by its composite identifier, or as the default. *)
Definition names_subnet (subnet_arg : option (arg subnet)) (N S0 : string)
  : Prop :=
  match subnet_arg with
  | Some (ById s) =>
      if truthy_str s
      then split "|$|" s !! 0 = Some N /\ split "|$|" s !! 1 = Some S0
      else N = CB_DEFAULT_NETWORK_NAME /\ S0 = CB_DEFAULT_SUBNET_NAME
  | Some (Obj _) => False
  | None => N = CB_DEFAULT_NETWORK_NAME /\ S0 = CB_DEFAULT_SUBNET_NAME
  end.

(** The parameters with which the merge group of instance [name] is
    requested for the groups [ids]. *)
Definition merge_group_parameters (name : string) (ids : list string)
  : sg_parameters :=
  SgParameters (region_name P)
    (name_tags (name +:+ "-sg")
       (Some ("Merge security groups " +:+ join "," ids))).

(** The backend returned the group for the identifier. *)
Definition looked_up (sg : string * security_group) : Prop :=
  exists st st', get_security_group cl (fst sg) st = (Ok (snd sg), st').

Definition AzureInstanceService_list (limit : option nat)
    (marker : option string) : M (ClientPagedResultList instance) :=
  instances <- invoke ListVm (list_vm cl) ;;
  ret (PagedList instances limit marker).

Definition AzureInstanceService_get (instance_id : string)
  : M (option instance) :=
  try_except
    (vm <- invoke (GetVm instance_id) (get_vm cl instance_id) ;;
     ret (Some vm))
    (except_CloudError (ret None)).

Definition AzureInstanceService_find (name : string) (limit : option nat)
    (marker : option string) : M (ClientPagedResultList instance) :=
  all <- invoke ListVm (list_vm cl) ;;
  ret (PagedList (filter_by_tag vm_tags all "Name" name) limit marker).

End Services.
End Azure.

(** ** The OpenStack provider
    (cloudbridge/cloud/providers/openstack/services.py) *)
Module OpenStack.
Import Py.
Open Scope py_scope.

(** *** Resources *)

Record key_pair : Type := OpenStackKeyPair { kp_name : string }.

Record security_group : Type := OpenStackSecurityGroup {
  sg_id : string;
  sg_name : string
}.

Record machine_image : Type := OpenStackMachineImage { img_id : string }.

Record volume : Type := OpenStackVolume { vol_id : string }.

Record snapshot : Type := OpenStackSnapshot {
  snap_id : string;
  snap_name : string
}.

Record placement_zone : Type := OpenStackPlacementZone { zone_id : string }.

(** An entry of the container listing of the object store: a dictionary
    with a ['name'] key. *)
Record container : Type := Container { container_name : string }.

(** [OpenStackBucket(provider, c)] wraps whatever it is given, also [None]. *)
Record bucket : Type := OpenStackBucket { _bucket : option container }.

Record network : Type := OpenStackNetwork {
  net_id : string;
  net_name : string;
  external : bool
}.

Record subnet : Type := OpenStackSubnet {
  subnet_id : string;
  subnet_name : string;
  network_id : string
}.

Record router : Type := OpenStackRouter {
  router_id : string;
  router_name : string
}.

Record internet_gateway : Type := OpenStackInternetGateway {
  gateway_net : network
}.

Record instance : Type := OpenStackInstance { server_id : string }.

Definition launch_device : Type := block_device snapshot volume machine_image.

Record launch_config : Type := BaseLaunchConfig {
  block_devices : list launch_device
}.

(** One dictionary of a BlockDeviceMappingV2 list; an optional field is a
    key that is only set on some paths. *)
Record bdm_dict : Type := BdmDict {
  destination_type : string;
  device_name : option string;
  boot_index : option Z;
  source_type : string;
  uuid : option string;
  delete_on_termination : option bool;
  volume_size : option Z
}.

(** The resource classes whose names are validated on creation. *)
Inductive resource_class : Type :=
| KeyPairClass | SecurityGroupClass | VolumeClass | SnapshotClass
| BucketClass | NetworkClass | SubnetClass | RouterClass | GatewayClass
| InstanceClass.

(** *** The clients (nova, cinder, swift, neutron)

    [SecurityGroupDelete], [NetworkCreateSubnet], [RouterAttachSubnet] and
    [RouterAttachGateway] are the provider calls behind the resource
    methods [sg.delete()], [net.create_subnet(...)],
    [router.attach_subnet(sn)] and [router.attach_gateway(gw)]. *)
Inductive call : Type :=
| KeypairsGet (key_pair_id : string)
| KeypairsList
| KeypairsFindall (name : string)
| KeypairsCreate (name : string)
| SecurityGroupsGet (sg_id : string)
| SecurityGroupsList
| SecurityGroupsCreate (name : string) (description : option string)
| SecurityGroupsFindall (name : string)
| SecurityGroupDelete (sg_id : string)
| ImagesGet (image_id : string)
| VolumesGet (volume_id : string)
| VolumesCreate (size : option Z) (name : string) (description : option string)
    (availability_zone : option string) (snapshot_id : option string)
| SnapshotsGet (snapshot_id : string)
| SnapshotsCreate (volume_id : string) (name : string)
    (description : option string)
| ServersGet (instance_id : string)
| SwiftGetAccountPrefix (prefix : string)
| SwiftPutContainer (name : string)
| ListNetworks (name : option string)
| CreateNetwork (name : string)
| ListSubnets
| CreateSubnet (name network_id cidr : string)
| ListRouters
| CreateRouter (name : option string)
| NetworkCreateSubnet (network_id name cidr_block : string)
| RouterAttachSubnet (router_id subnet_id : string)
| RouterAttachGateway (router_id : string) (gateway_net_id : option string).

Definition is_mutation (c : call) : bool :=
  match c with
  | KeypairsCreate _ | SecurityGroupsCreate _ _ | SecurityGroupDelete _
  | VolumesCreate _ _ _ _ _ | SnapshotsCreate _ _ _ | SwiftPutContainer _
  | CreateNetwork _ | CreateSubnet _ _ _ | CreateRouter _
  | NetworkCreateSubnet _ _ _ | RouterAttachSubnet _ _
  | RouterAttachGateway _ _ => true
  | _ => false
  end.

Definition mutations (t : list call) : list call := filter (fun c => is_mutation c = true) t.

Definition reads (c : call) : Prop := is_mutation c = false.

Record clients (St : Type) : Type := Clients {
  keypairs_get : string -> St -> res key_pair * St;
  keypairs_list : St -> res (list key_pair) * St;
  keypairs_findall : string -> St -> res (list key_pair) * St;
  keypairs_create : string -> St -> res (option key_pair) * St;
  security_groups_get : string -> St -> res security_group * St;
  security_groups_list : St -> res (list security_group) * St;
  security_groups_create :
    string -> option string -> St -> res (option security_group) * St;
  security_groups_findall : string -> St -> res (list security_group) * St;
  security_group_delete : security_group -> St -> res unit * St;
  images_get : string -> St -> res machine_image * St;
  volumes_get : string -> St -> res volume * St;
  volumes_create :
    option Z -> string -> option string -> option string -> option string ->
    St -> res volume * St;
  snapshots_get : string -> St -> res snapshot * St;
  snapshots_create :
    string -> string -> option string -> St -> res snapshot * St;
  servers_get : string -> St -> res instance * St;
  swift_get_account_prefix : string -> St -> res (list container) * St;
  swift_put_container : string -> St -> res unit * St;
  list_networks : option string -> St -> res (list (option network)) * St;
  create_network : string -> St -> res network * St;
  list_subnets : St -> res (list subnet) * St;
  create_subnet : string -> string -> string -> St -> res subnet * St;
  list_routers : St -> res (list router) * St;
  create_router : option string -> St -> res router * St;
  network_create_subnet :
    network -> string -> string -> St -> res subnet * St;
  router_attach_subnet : router -> subnet -> St -> res unit * St;
  router_attach_gateway :
    router -> option internet_gateway -> St -> res unit * St
}.
Arguments keypairs_get {St} c.
Arguments keypairs_list {St} c.
Arguments keypairs_findall {St} c.
Arguments keypairs_create {St} c.
Arguments security_groups_get {St} c.
Arguments security_groups_list {St} c.
Arguments security_groups_create {St} c.
Arguments security_groups_findall {St} c.
Arguments security_group_delete {St} c.
Arguments images_get {St} c.
Arguments volumes_get {St} c.
Arguments volumes_create {St} c.
Arguments snapshots_get {St} c.
Arguments snapshots_create {St} c.
Arguments servers_get {St} c.
Arguments swift_get_account_prefix {St} c.
Arguments swift_put_container {St} c.
Arguments list_networks {St} c.
Arguments create_network {St} c.
Arguments list_subnets {St} c.
Arguments create_subnet {St} c.
Arguments list_routers {St} c.
Arguments create_router {St} c.
Arguments network_create_subnet {St} c.
Arguments router_attach_subnet {St} c.
Arguments router_attach_gateway {St} c.

(** *** The services *)
Section Services.
Context {St : Type}.

(** [self.provider]: its nova, cinder, swift and neutron clients. *)
Variable cl : clients St.

(** [<Class>.assert_valid_resource_name(name)] accepts the names for which
    [valid_resource_name] holds (the check is in the base resources). *)
Variable valid_resource_name : resource_class -> string -> bool.

(** The items that a paged result holds, which iterating over it yields:
    the class cuts them from the objects it is given, by marker and limit
    (ClientPagedResultList, cloudbridge/cloud/base/resources.py). *)
Variable page : forall A : Type, ClientPagedResultList A -> list A.

(** Class-level constants of the OpenStack resources. *)
Variable CB_DEFAULT_NETWORK_NAME : string.
Variable CB_DEFAULT_SUBNET_NAME : string.
Variable CB_DEFAULT_ROUTER_NAME : string.
Variable CB_DEFAULT_INET_GATEWAY_NAME : string.

Abbreviation M := (Py.M St call).

Definition assert_valid_resource_name (c : resource_class) (name : string)
  : M unit :=
  if valid_resource_name c name then ret tt
  else raise (InvalidNameException name).

Definition except_NovaNotFound {A} (k : M A) (e : exn) : option (M A) :=
  match e with NovaNotFound _ => Some k | _ => None end.

Definition except_CinderNotFound {A} (k : M A) (e : exn) : option (M A) :=
  match e with CinderNotFound _ => Some k | _ => None end.

Definition except_NeutronClientException {A} (k : M A) (e : exn)
  : option (M A) :=
  match e with NeutronClientException _ => Some k | _ => None end.

(** **** OpenStackKeyPairService *)

Definition OpenStackKeyPairService_get (key_pair_id : string)
  : M (option key_pair) :=
  try_except
    (kp <- invoke (KeypairsGet key_pair_id) (keypairs_get cl key_pair_id) ;;
     ret (Some kp))
    (except_NovaNotFound (ret None)).

Definition OpenStackKeyPairService_list (limit : option nat)
    (marker : option string) : M (ClientPagedResultList key_pair) :=
  keypairs <- invoke KeypairsList (keypairs_list cl) ;;
  ret (PagedList keypairs limit marker).

Definition OpenStackKeyPairService_find (name : string) (limit : option nat)
    (marker : option string) : M (ClientPagedResultList key_pair) :=
  keypairs <- invoke (KeypairsFindall name) (keypairs_findall cl name) ;;
  ret (PagedList keypairs limit marker).

Definition OpenStackKeyPairService_create (name : string)
  : M (option key_pair) :=
  assert_valid_resource_name KeyPairClass name ;;;
  invoke (KeypairsCreate name) (keypairs_create cl name).

(** **** OpenStackSecurityGroupService *)

Definition OpenStackSecurityGroupService_get (sg_id : string)
  : M (option security_group) :=
  try_except
    (sg <- invoke (SecurityGroupsGet sg_id) (security_groups_get cl sg_id) ;;
     ret (Some sg))
    (except_NovaNotFound (ret None)).

Definition OpenStackSecurityGroupService_list (limit : option nat)
    (marker : option string) : M (ClientPagedResultList security_group) :=
  sgs <- invoke SecurityGroupsList (security_groups_list cl) ;;
  ret (PagedList sgs limit marker).

Definition OpenStackSecurityGroupService_create (name : string)
    (description : option string) : M (option security_group) :=
  assert_valid_resource_name SecurityGroupClass name ;;;
  invoke (SecurityGroupsCreate name description)
         (security_groups_create cl name description).

Definition OpenStackSecurityGroupService_find (name : string)
    (limit : option nat) (marker : option string)
  : M (ClientPagedResultList security_group) :=
  sgs <- invoke (SecurityGroupsFindall name) (security_groups_findall cl name) ;;
  ret (PagedList sgs limit marker).

Definition OpenStackSecurityGroupService_delete (group_id : string) : M bool :=
  sg <- OpenStackSecurityGroupService_get group_id ;;
  match sg with
  | Some g =>
      invoke (SecurityGroupDelete (sg_id g)) (security_group_delete cl g)
  | None => ret tt
  end ;;;
  ret true.

(** **** Lookups of the image, volume, snapshot and instance services *)

Definition OpenStackImageService_get (image_id : string)
  : M (option machine_image) :=
  try_except
    (i <- invoke (ImagesGet image_id) (images_get cl image_id) ;;
     ret (Some i))
    (except_NovaNotFound (ret None)).

Definition OpenStackVolumeService_get (volume_id : string)
  : M (option volume) :=
  try_except
    (v <- invoke (VolumesGet volume_id) (volumes_get cl volume_id) ;;
     ret (Some v))
    (except_CinderNotFound (ret None)).

Definition OpenStackSnapshotService_get (snapshot_id : string)
  : M (option snapshot) :=
  try_except
    (s <- invoke (SnapshotsGet snapshot_id) (snapshots_get cl snapshot_id) ;;
     ret (Some s))
    (except_CinderNotFound (ret None)).

Definition OpenStackInstanceService_get (instance_id : string)
  : M (option instance) :=
  try_except
    (i <- invoke (ServersGet instance_id) (servers_get cl instance_id) ;;
     ret (Some i))
    (except_NovaNotFound (ret None)).

(** **** Creation of volumes and snapshots *)

Definition OpenStackVolumeService_create (name : string) (size : option Z)
    (zone : option (arg placement_zone)) (snapshot : option (arg snapshot))
    (description : option string) : M volume :=
  assert_valid_resource_name VolumeClass name ;;;
  let zone_id := match zone with
                 | Some (Obj z) => Some (zone_id z)
                 | Some (ById z) => Some z
                 | None => None
                 end in
  let snapshot_id := match snapshot with
                     | Some (Obj s) => Some (snap_id s)
                     | Some (ById s) => Some s
                     | None => None
                     end in
  invoke (VolumesCreate size name description zone_id snapshot_id)
         (volumes_create cl size name description zone_id snapshot_id).

Definition OpenStackSnapshotService_create (name : string)
    (volume : arg volume) (description : option string) : M snapshot :=
  assert_valid_resource_name SnapshotClass name ;;;
  let volume_id := match volume with Obj v => vol_id v | ById v => v end in
  invoke (SnapshotsCreate volume_id name description)
         (snapshots_create cl volume_id name description).

(** **** OpenStackObjectStoreService *)

Definition OpenStackObjectStoreService_get (bucket_id : string)
  : M (option bucket) :=
  container_list <- invoke (SwiftGetAccountPrefix bucket_id)
                           (swift_get_account_prefix cl bucket_id) ;;
  match container_list with
  | _ :: _ =>
      ret (Some (OpenStackBucket
                   (List.find
                      (fun c => String.eqb (container_name c) bucket_id)
                      container_list)))
  | [] => ret None
  end.

Definition OpenStackObjectStoreService_create (name : string)
  : M (option bucket) :=
  assert_valid_resource_name BucketClass name ;;;
  invoke (SwiftPutContainer name) (swift_put_container cl name) ;;;
  OpenStackObjectStoreService_get name.

(** **** OpenStackInstanceService: block device mappings *)

Definition to_bdm_dict (device : launch_device) : bdm_dict :=
  if is_volume device then
    let root := is_root device in
    let '(source_type, uuid) :=
      match source device with
      | SrcSnapshot s => ("snapshot", Some (snap_id s))
      | SrcVolume v => ("volume", Some (vol_id v))
      | SrcImage i => ("image", Some (img_id i))
      | SrcNone => ("blank", None)
      end in
    BdmDict "volume"
            (if root then Some "/dev/sda" else None)
            (if root then Some 0%Z else None)
            source_type uuid
            (delete_on_terminate device)
            (if truthy_opt_int (size device) then size device else None)
  else
    BdmDict "local" None None "blank" None (Some true) None.

Definition OpenStackInstanceService__to_block_device_mapping
    (launch_config : launch_config) : list bdm_dict :=
  map to_bdm_dict (block_devices launch_config).

Definition OpenStackInstanceService__has_root_device
    (launch_config : option launch_config) : bool :=
  match launch_config with
  | None => false
  | Some lc => existsb is_root (block_devices lc)
  end.

(** **** OpenStackNetworkService *)

(** The comprehension [... for network in ...get('networks') if network]
    drops the empty entries of the listing. *)
Definition present_networks (l : list (option network)) : list network :=
  omap id l.

Definition OpenStackNetworkService_list (limit : option nat)
    (marker : option string) : M (ClientPagedResultList network) :=
  networks <- invoke (ListNetworks None) (list_networks cl None) ;;
  ret (PagedList (present_networks networks) limit marker).

(** Modelled from the spec: iterating over a service ([for n in self]) is
    defined in cloudbridge/cloud/base/resources.py, which is not among the
    sources.  For a client-paged service "the whole native result is already
    a concrete sequence": the iteration calls [list] once and yields every
    object that [list] handed to its paged result. *)
Definition OpenStackNetworkService_iter : M (list network) :=
  l <- OpenStackNetworkService_list None None ;; ret (objects l).

Definition OpenStackNetworkService_get (network_id : string)
  : M (option network) :=
  networks <- OpenStackNetworkService_iter ;;
  ret (List.find (fun n => String.eqb (net_id n) network_id) networks).

Definition OpenStackNetworkService_find (name : string) (limit : option nat)
    (marker : option string) : M (ClientPagedResultList network) :=
  networks <- invoke (ListNetworks (Some name)) (list_networks cl (Some name)) ;;
  ret (PagedList (present_networks networks) limit marker).

Definition OpenStackNetworkService_create (name : string)
    (cidr_block : string) : M network :=
  assert_valid_resource_name NetworkClass name ;;;
  invoke (CreateNetwork name) (create_network cl name).

(** **** OpenStackRouterService, OpenStackGatewayService *)

Definition OpenStackRouterService_list (limit : option nat)
    (marker : option string) : M (ClientPagedResultList router) :=
  routers <- invoke ListRouters (list_routers cl) ;;
  ret (PagedList routers limit marker).

(** Modelled from the spec: iteration over the service, as for networks. *)
Definition OpenStackRouterService_iter : M (list router) :=
  l <- OpenStackRouterService_list None None ;; ret (objects l).

Definition OpenStackRouterService_get (router_id' : string)
  : M (option router) :=
  routers <- OpenStackRouterService_iter ;;
  ret (List.find (fun r => String.eqb (router_id r) router_id') routers).

Definition OpenStackRouterService_find (name : string) (limit : option nat)
    (marker : option string) : M (ClientPagedResultList router) :=
  routers <- OpenStackRouterService_iter ;;
  ret (PagedList
         (List.filter (fun r => String.eqb (router_name r) name) routers)
         limit marker).

Definition OpenStackRouterService_create (name : string) : M router :=
  assert_valid_resource_name RouterClass name ;;;
  let body := if truthy_str name then Some name else None in
  invoke (CreateRouter body) (create_router cl body).

Definition OpenStackGatewayService_get_or_create_inet_gateway (name : string)
  : M (option internet_gateway) :=
  assert_valid_resource_name GatewayClass name ;;;
  networks <- OpenStackNetworkService_iter ;;
  ret (option_map OpenStackInternetGateway (List.find external networks)).

(** **** OpenStackSubnetService *)

(** The branch of [list] without a network. *)
Definition OpenStackSubnetService_list_unfiltered (limit : option nat)
    (marker : option string) : M (ClientPagedResultList subnet) :=
  subnets <- invoke ListSubnets (list_subnets cl) ;;
  ret (PagedList subnets limit marker).

(** With a network, [list] goes over [self.list()], that is over the items
    of the paged result of the branch without a network. *)
Definition OpenStackSubnetService_list (network : option (arg network))
    (limit : option nat) (marker : option string)
  : M (ClientPagedResultList subnet) :=
  let of_network (network_id' : string) : M (ClientPagedResultList subnet) :=
    all <- OpenStackSubnetService_list_unfiltered None None ;;
    ret (PagedList
           (List.filter (fun s => String.eqb network_id' (network_id s))
                        (page _ all))
           limit marker) in
  match network with
  | Some (Obj n) => of_network (net_id n)
  | Some (ById n) =>
      if truthy_str n then of_network n
      else OpenStackSubnetService_list_unfiltered limit marker
  | None => OpenStackSubnetService_list_unfiltered limit marker
  end.

(** Modelled from the spec: iteration over the service, as for networks;
    its [self.list()] takes the branch without a network. *)
Definition OpenStackSubnetService_iter : M (list subnet) :=
  l <- OpenStackSubnetService_list_unfiltered None None ;; ret (objects l).

Definition OpenStackSubnetService_get (subnet_id' : string)
  : M (option subnet) :=
  subnets <- OpenStackSubnetService_iter ;;
  ret (List.find (fun s => String.eqb (subnet_id s) subnet_id') subnets).

(** Modelled from the spec: [find] is inherited from BaseSubnetService
    (cloudbridge/cloud/base/services.py, not among the sources).  It is the
    exact match by name over the service's own listing. *)
Definition OpenStackSubnetService_find (name : string) : M (list subnet) :=
  subnets <- OpenStackSubnetService_iter ;;
  ret (List.filter (fun s => String.eqb (subnet_name s) name) subnets).

Definition OpenStackSubnetService_create (name : string)
    (network : arg network) (cidr_block : string) : M subnet :=
  assert_valid_resource_name SubnetClass name ;;;
  let network_id := match network with Obj n => net_id n | ById n => n end in
  invoke (CreateSubnet name network_id cidr_block)
         (create_subnet cl name network_id cidr_block).

Definition OpenStackSubnetService_get_or_create_default
  : M (option subnet) :=
  try_except
    (sn <- OpenStackSubnetService_find CB_DEFAULT_SUBNET_NAME ;;
     match sn with
     | first :: _ => ret (Some first)
     | [] =>
         net <- OpenStackNetworkService_create CB_DEFAULT_NETWORK_NAME
                  "10.0.0.0/16" ;;
         sn <- invoke (NetworkCreateSubnet (net_id net) CB_DEFAULT_SUBNET_NAME
                                           "10.0.0.0/24")
                      (network_create_subnet cl net CB_DEFAULT_SUBNET_NAME
                                             "10.0.0.0/24") ;;
         router <- OpenStackRouterService_create CB_DEFAULT_ROUTER_NAME ;;
         invoke (RouterAttachSubnet (router_id router) (subnet_id sn))
                (router_attach_subnet cl router sn) ;;;
         gteway <- OpenStackGatewayService_get_or_create_inet_gateway
                     CB_DEFAULT_INET_GATEWAY_NAME ;;
         invoke (RouterAttachGateway (router_id router)
                   (option_map (fun g => net_id (gateway_net g)) gteway))
                (router_attach_gateway cl router gteway) ;;;
         ret (Some sn)
     end)
    (except_NeutronClientException (ret None)).

End Services.
End OpenStack.

(** ** In-memory backends

    Two small backends in the manner of the mock clients of the test suites:
    resources are kept in lists under their provider-native names; as the
    comments in the services say of Azure, looking up or deleting a name
    that is not there raises the provider's error.  They serve to run the
    services on concrete inputs. *)
Module AzureMock.
Import Py Azure.

Record state : Type := State {
  m_security_groups : list security_group;
  m_public_keys : list public_key_entity;
  m_containers : list bucket;
  m_disks : list volume;
  m_snapshots : list snapshot;
  m_vms : list instance;
  m_networks : list network;
  m_subnets : list (string * subnet)      (* with the name of the network *)
}.

Definition empty : state := State [] [] [] [] [] [] [] [].

Definition set_security_groups (l : list security_group) (s : state) : state :=
  State l (m_public_keys s) (m_containers s) (m_disks s) (m_snapshots s)
        (m_vms s) (m_networks s) (m_subnets s).

Definition set_public_keys (l : list public_key_entity) (s : state) : state :=
  State (m_security_groups s) l (m_containers s) (m_disks s) (m_snapshots s)
        (m_vms s) (m_networks s) (m_subnets s).

Definition set_containers (l : list bucket) (s : state) : state :=
  State (m_security_groups s) (m_public_keys s) l (m_disks s) (m_snapshots s)
        (m_vms s) (m_networks s) (m_subnets s).

Definition set_disks (l : list volume) (s : state) : state :=
  State (m_security_groups s) (m_public_keys s) (m_containers s) l
        (m_snapshots s) (m_vms s) (m_networks s) (m_subnets s).

Definition set_snapshots (l : list snapshot) (s : state) : state :=
  State (m_security_groups s) (m_public_keys s) (m_containers s) (m_disks s)
        l (m_vms s) (m_networks s) (m_subnets s).

Definition set_vms (l : list instance) (s : state) : state :=
  State (m_security_groups s) (m_public_keys s) (m_containers s) (m_disks s)
        (m_snapshots s) l (m_networks s) (m_subnets s).

Definition set_networks (l : list network) (s : state) : state :=
  State (m_security_groups s) (m_public_keys s) (m_containers s) (m_disks s)
        (m_snapshots s) (m_vms s) l (m_subnets s).

Definition set_subnets (l : list (string * subnet)) (s : state) : state :=
  State (m_security_groups s) (m_public_keys s) (m_containers s) (m_disks s)
        (m_snapshots s) (m_vms s) (m_networks s) l.

Definition not_found {A} (what : string) (s : state) : res A * state :=
  (Raise (CloudError ("ResourceNotFound: " +:+ what)), s).

(** Look a resource up by its name; [CloudError] when it is not there. *)
Definition lookup {A} (key : A -> string) (items : state -> list A)
    (k : string) (s : state) : res A * state :=
  match List.find (fun x => String.eqb (key x) k) (items s) with
  | Some x => (Ok x, s)
  | None => not_found k s
  end.

Definition without {A} (key : A -> string) (k : string) (l : list A) : list A :=
  List.filter (fun x => negb (String.eqb (key x) k)) l.

(** Delete a resource by its name; [CloudError] when it is not there. *)
Definition remove {A} (key : A -> string) (items : state -> list A)
    (set : list A -> state -> state) (k : string) (s : state)
  : res unit * state :=
  match List.find (fun x => String.eqb (key x) k) (items s) with
  | Some _ => (Ok tt, set (without key k (items s)) s)
  | None => not_found k s
  end.

Definition resource_uri (kind name : string) : string :=
  "/providers/" +:+ kind +:+ "/" +:+ name.

Definition add_rule_to (group_id : string) (rule : sg_rule)
    (g : security_group) : security_group :=
  if String.eqb (sg_id g) group_id
  then SecurityGroup (sg_id g) (sg_resource_id g) (sg_tags g)
                     (sg_rules g ++ [rule])
  else g.

Definition subnet_key (network_id subnet_name : string)
    (entry : string * subnet) : bool :=
  String.eqb (fst entry) network_id &&
  String.eqb (subnet_id (snd entry)) (network_id +:+ "|$|" +:+ subnet_name).

Definition client : azure_client state := {|
  client_region_name := "eastus";
  get_security_group := lookup sg_id m_security_groups;
  list_security_group := fun s => (Ok (m_security_groups s), s);
  create_security_group := fun name parameters s =>
    let g := SecurityGroup name (resource_uri "networkSecurityGroups" name)
                           (sgp_tags parameters) [] in
    (Ok g, set_security_groups (without sg_id name (m_security_groups s) ++ [g]) s);
  delete_security_group := remove sg_id m_security_groups set_security_groups;
  create_security_group_rule := fun group_id rule s =>
    (Ok tt, set_security_groups
              (map (add_rule_to group_id rule) (m_security_groups s)) s);
  get_public_key := fun key_pair_id s =>
    (Ok (List.find (fun e => String.eqb (Name e) key_pair_id)
                   (m_public_keys s)), s);
  list_public_keys := fun partition_key s =>
    (Ok (List.filter (fun e => String.eqb (PartitionKey e) partition_key)
                     (m_public_keys s)), s);
  create_public_key := fun entity s =>
    (Ok tt, set_public_keys (m_public_keys s ++ [entity]) s);
  get_container := fun bucket_id s =>
    match List.find (fun b => String.eqb (bucket_name b) bucket_id)
                    (m_containers s) with
    | Some b => (Ok b, s)
    | None => (Raise (AzureException "ContainerNotFound"), s)
    end;
  list_containers := fun prefix s =>
    (Ok (List.filter
           (fun b => match prefix with
                     | Some p => String.prefix p (bucket_name b)
                     | None => true
                     end)
           (m_containers s)), s);
  create_container := fun name s =>
    (Ok (AzureBucket name),
     set_containers (without bucket_name name (m_containers s)
                     ++ [AzureBucket name]) s);
  get_disk := lookup vol_id m_disks;
  list_disks := fun s => (Ok (m_disks s), s);
  create_snapshot_disk := fun disk_name params s =>
    (Ok tt, set_disks (without vol_id disk_name (m_disks s)
                       ++ [AzureVolume disk_name (resource_uri "disks" disk_name)
                                       (dp_disk_size_gb params) (dp_tags params)]) s);
  create_empty_disk := fun disk_name params s =>
    (Ok tt, set_disks (without vol_id disk_name (m_disks s)
                       ++ [AzureVolume disk_name (resource_uri "disks" disk_name)
                                       (dp_disk_size_gb params) (dp_tags params)]) s);
  update_disk_tags := fun volume_id tags s =>
    match List.find (fun v => String.eqb (vol_id v) volume_id) (m_disks s) with
    | Some _ =>
        (Ok tt, set_disks
                  (map (fun v => if String.eqb (vol_id v) volume_id
                                 then AzureVolume (vol_id v) (vol_resource_id v)
                                                  (vol_size v) tags
                                 else v)
                       (m_disks s)) s)
    | None => not_found volume_id s
    end;
  snapshot_create_volume := fun snap s =>
    let v := AzureVolume (snap_id snap +:+ "-vol")
                         (resource_uri "disks" (snap_id snap +:+ "-vol"))
                         None ∅ in
    (Ok v, set_disks (without vol_id (vol_id v) (m_disks s) ++ [v]) s);
  get_snapshot := lookup snap_id m_snapshots;
  list_snapshots := fun s => (Ok (m_snapshots s), s);
  create_snapshot := fun snapshot_name params s =>
    (Ok tt, set_snapshots
              (without snap_id snapshot_name (m_snapshots s)
               ++ [AzureSnapshot snapshot_name
                                 (resource_uri "snapshots" snapshot_name)
                                 (dp_tags params)]) s);
  create_nic := fun nic_name params s =>
    (Ok (NicInfo (resource_uri "networkInterfaces" nic_name)), s);
  create_vm := fun instance_name params s =>
    (Ok tt, set_vms (without vm_id instance_name (m_vms s)
                     ++ [AzureInstance instance_name (vmp_tags params)]) s);
  get_vm := lookup vm_id m_vms;
  list_vm := fun s => (Ok (m_vms s), s);
  get_image := fun image_id s => not_found image_id s;
  list_images := fun s => (Ok [], s);
  list_instance_types := fun s => (Ok [], s);
  get_network := lookup net_id m_networks;
  list_networks := fun s => (Ok (m_networks s), s);
  create_network := fun network_name params s =>
    (Ok tt, set_networks (without net_id network_name (m_networks s)
                          ++ [AzureNetwork network_name network_name]) s);
  delete_network := remove net_id m_networks set_networks;
  create_floating_ip := fun name params s => (Ok (AzureFloatingIP name), s);
  list_floating_ips := fun s => (Ok [], s);
  list_locations := fun s => (Ok [AzureRegion "eastus"; AzureRegion "westus"], s);
  get_subnet := fun network_id subnet_name s =>
    match List.find (subnet_key network_id subnet_name) (m_subnets s) with
    | Some entry => (Ok (Some (snd entry)), s)
    | None => not_found subnet_name s
    end;
  list_subnets := fun network_id s =>
    (Ok (map snd (List.filter (fun e => String.eqb (fst e) network_id)
                              (m_subnets s))), s);
  create_subnet := fun network_id subnet_name params s =>
    match List.find (fun n => String.eqb (net_id n) network_id)
                    (m_networks s) with
    | Some _ =>
        let sn := AzureSubnet (network_id +:+ "|$|" +:+ subnet_name)
                    (resource_uri "subnets" subnet_name) (Some "eastus") in
        (Ok sn,
         set_subnets
           (List.filter (fun e => negb (subnet_key network_id subnet_name e))
                        (m_subnets s) ++ [(network_id, sn)]) s)
    | None => not_found network_id s
    end;
  delete_subnet := fun network_id subnet_name s =>
    match List.find (subnet_key network_id subnet_name) (m_subnets s) with
    | Some _ =>
        (Ok tt,
         set_subnets
           (List.filter (fun e => negb (subnet_key network_id subnet_name e))
                        (m_subnets s)) s)
    | None => not_found subnet_name s
    end
|}.

Definition provider : Azure.provider state :=
  Provider client "eastus" "cbuser".

(** A backend whose subnets carry no zone: the same client, with the zone
    taken off every subnet it returns. *)
Definition without_zone (sn : subnet) : subnet :=
  AzureSubnet (subnet_id sn) (subnet_resource_id sn) None.

Definition zoneless_client : azure_client state := {|
  client_region_name := client_region_name client;
  get_security_group := get_security_group client;
  list_security_group := list_security_group client;
  create_security_group := create_security_group client;
  delete_security_group := delete_security_group client;
  create_security_group_rule := create_security_group_rule client;
  get_public_key := get_public_key client;
  list_public_keys := list_public_keys client;
  create_public_key := create_public_key client;
  get_container := get_container client;
  list_containers := list_containers client;
  create_container := create_container client;
  get_disk := get_disk client;
  list_disks := list_disks client;
  create_snapshot_disk := create_snapshot_disk client;
  create_empty_disk := create_empty_disk client;
  update_disk_tags := update_disk_tags client;
  snapshot_create_volume := snapshot_create_volume client;
  get_snapshot := get_snapshot client;
  list_snapshots := list_snapshots client;
  create_snapshot := create_snapshot client;
  create_nic := create_nic client;
  create_vm := create_vm client;
  get_vm := get_vm client;
  list_vm := list_vm client;
  get_image := get_image client;
  list_images := list_images client;
  list_instance_types := list_instance_types client;
  get_network := get_network client;
  list_networks := list_networks client;
  create_network := create_network client;
  delete_network := delete_network client;
  create_floating_ip := create_floating_ip client;
  list_floating_ips := list_floating_ips client;
  list_locations := list_locations client;
  get_subnet := fun network_id subnet_name s =>
    let '(r, s') := get_subnet client network_id subnet_name s in
    (match r with
     | Ok found => Ok (option_map without_zone found)
     | Raise e => Raise e
     end, s');
  list_subnets := list_subnets client;
  create_subnet := fun network_id subnet_name params s =>
    let '(r, s') := create_subnet client network_id subnet_name params s in
    (match r with
     | Ok sn => Ok (without_zone sn)
     | Raise e => Raise e
     end, s');
  delete_subnet := delete_subnet client
|}.

Definition zoneless_provider : Azure.provider state :=
  Provider zoneless_client "eastus" "cbuser".

(** The entropy of the examples: every uuid is the same 32 digits. *)
Definition uuid_source (n : nat) : string := "0123456789abcdef0123456789abcdef".
Definition gen_key_pair (n : nat) : string * string :=
  ("PRIVATE KEY", "ssh-rsa AAAA").
Definition b64encode (s : string) : string := "b64:" +:+ s.
Definition tag_match (wanted actual : string) : bool := contains wanted actual.

Definition start (s : state) : world state call := World s [] 0.

(** Example data. *)
Definition DEFAULT_NETWORK : string := "cloudbridge-net".
Definition DEFAULT_SUBNET : string := "cloudbridge-subnet".

Definition example_key_pair : key_pair :=
  AzureKeyPair (PublicKeyEntity PARTITION_KEY "row-1" "cb-key" "ssh-rsa AAAA")
               None.

Definition example_image : machine_image :=
  AzureMachineImage "ubuntu" (resource_uri "images" "ubuntu") ∅.

Definition subnet_without_zone : subnet :=
  AzureSubnet "cb-net|$|cb-subnet" (resource_uri "subnets" "cb-subnet") None.

Definition subnet_in_westus : subnet :=
  AzureSubnet "cb-net|$|cb-subnet" (resource_uri "subnets" "cb-subnet")
              (Some "westus").

Definition data_volume : volume :=
  AzureVolume "data-1" (resource_uri "disks" "data-1") (Some 10%Z) ∅.

Definition with_data_volume : state := set_disks [data_volume] empty.

Definition group_ssh : security_group :=
  SecurityGroup "ssh" (resource_uri "networkSecurityGroups" "ssh") ∅
                [SgRule "tcp" 22 22 "0.0.0.0/0"].

Definition group_web : security_group :=
  SecurityGroup "web" (resource_uri "networkSecurityGroups" "web") ∅
                [SgRule "tcp" 80 80 "0.0.0.0/0"].

Definition two_networks : state :=
  set_subnets
    [("net-a", AzureSubnet "net-a|$|front" (resource_uri "subnets" "front")
                           (Some "eastus"));
     ("net-b", AzureSubnet "net-b|$|back" (resource_uri "subnets" "back")
                           (Some "eastus"));
     ("net-a", AzureSubnet "net-a|$|db" (resource_uri "subnets" "db")
                           (Some "eastus"))]
    (set_networks [AzureNetwork "net-a" "net-a"; AzureNetwork "net-b" "net-b"]
                  empty).

(** A backend with a key pair, a security group and a subnet. *)
Definition launch_ready : state :=
  set_subnets [("cb-net", subnet_in_westus)]
    (set_networks [AzureNetwork "cb-net" "cb-net"]
       (set_security_groups [group_ssh]
          (set_public_keys [_key_pair example_key_pair] empty))).

(** A backend on which the default subnet exists, with a zone. *)
Definition default_in_westus : state :=
  set_subnets
    [(DEFAULT_NETWORK,
      AzureSubnet "cloudbridge-net|$|cloudbridge-subnet"
                  (resource_uri "subnets" "cloudbridge-subnet")
                  (Some "westus"))]
    (set_networks [AzureNetwork DEFAULT_NETWORK DEFAULT_NETWORK] empty).

(** A backend with the two security groups of the examples. *)
Definition two_groups : state :=
  set_security_groups [group_ssh; group_web] empty.

Definition requested_group (s : string) : security_group :=
  if String.eqb s "ssh" then group_ssh else group_web.

(** The groups "ssh" and "web" are on the backend as they were. *)
Definition groups_kept (st : state) : Prop :=
  List.find (fun g => String.eqb (sg_id g) "ssh") (m_security_groups st)
  = Some group_ssh
  /\ List.find (fun g => String.eqb (sg_id g) "web") (m_security_groups st)
     = Some group_web.

(** The group that the backend returns for the merge of "ssh" and "web". *)
Definition merged_group : security_group :=
  SecurityGroup "vm-012345-sg"
                "/providers/networkSecurityGroups/vm-012345-sg"
                (name_tags "vm-012345-sg" (Some "Merge security groups ssh,web"))
                [].

Definition root_device : launch_device :=
  BlockDevice true true SrcNone (Some 30%Z) None.

Definition image_device : launch_device :=
  BlockDevice true false (SrcImage example_image) (Some 8%Z) None.

Definition volume_device : launch_device :=
  BlockDevice true false (SrcVolume data_volume) None None.

Definition blank_volume_device : launch_device :=
  BlockDevice true false SrcNone (Some 5%Z) None.

End AzureMock.

Module OpenStackMock.
Import Py OpenStack.

Record state : Type := State {
  m_keypairs : list key_pair;
  m_security_groups : list security_group;
  m_containers : list container;
  m_networks : list network;
  m_subnets : list subnet;
  m_routers : list router
}.

Definition empty : state := State [] [] [] [] [] [].

Definition lookup {A} (key : A -> string) (missing : exn)
    (items : state -> list A) (k : string) (s : state) : res A * state :=
  match List.find (fun x => String.eqb (key x) k) (items s) with
  | Some x => (Ok x, s)
  | None => (Raise missing, s)
  end.

Definition clients : OpenStack.clients state := {|
  keypairs_get := lookup kp_name (NovaNotFound "keypair") m_keypairs;
  keypairs_list := fun s => (Ok (m_keypairs s), s);
  keypairs_findall := fun name s =>
    (Ok (List.filter (fun k => String.eqb (kp_name k) name) (m_keypairs s)), s);
  keypairs_create := fun name s =>
    match List.find (fun k => String.eqb (kp_name k) name) (m_keypairs s) with
    | Some _ => (Raise (OtherError "Conflict" ("Key pair '" +:+ name
                                               +:+ "' already exists.")), s)
    | None =>
        (Ok (Some (OpenStackKeyPair name)),
         State (m_keypairs s ++ [OpenStackKeyPair name]) (m_security_groups s)
               (m_containers s) (m_networks s) (m_subnets s) (m_routers s))
    end;
  security_groups_get :=
    lookup sg_id (NovaNotFound "security group") m_security_groups;
  security_groups_list := fun s => (Ok (m_security_groups s), s);
  security_groups_create := fun name description s =>
    let g := OpenStackSecurityGroup ("sg-" +:+ name) name in
    (Ok (Some g),
     State (m_keypairs s) (m_security_groups s ++ [g]) (m_containers s)
           (m_networks s) (m_subnets s) (m_routers s));
  security_groups_findall := fun name s =>
    (Ok (List.filter (fun g => String.eqb (sg_name g) name)
                     (m_security_groups s)), s);
  security_group_delete := fun g s =>
    (Ok tt,
     State (m_keypairs s)
           (List.filter (fun x => negb (String.eqb (sg_id x) (sg_id g)))
                        (m_security_groups s))
           (m_containers s) (m_networks s) (m_subnets s) (m_routers s));
  images_get := fun image_id s => (Raise (NovaNotFound "image"), s);
  volumes_get := fun volume_id s => (Raise (CinderNotFound "volume"), s);
  volumes_create := fun size name description zone snapshot_id s =>
    (Ok (OpenStackVolume ("vol-" +:+ name)), s);
  snapshots_get := fun snapshot_id s => (Raise (CinderNotFound "snapshot"), s);
  snapshots_create := fun volume_id name description s =>
    (Ok (OpenStackSnapshot ("snap-" +:+ name) name), s);
  servers_get := fun instance_id s => (Raise (NovaNotFound "server"), s);
  swift_get_account_prefix := fun prefix s =>
    (Ok (List.filter (fun c => String.prefix prefix (container_name c))
                     (m_containers s)), s);
  swift_put_container := fun name s =>
    (Ok tt,
     State (m_keypairs s) (m_security_groups s)
           (List.filter (fun c => negb (String.eqb (container_name c) name))
                        (m_containers s) ++ [Container name])
           (m_networks s) (m_subnets s) (m_routers s));
  list_networks := fun name s =>
    (Ok (map Some
           (List.filter
              (fun n => match name with
                        | Some x => String.eqb (net_name n) x
                        | None => true
                        end)
              (m_networks s))), s);
  create_network := fun name s =>
    let n := OpenStackNetwork ("net-" +:+ name) name false in
    (Ok n,
     State (m_keypairs s) (m_security_groups s) (m_containers s)
           (m_networks s ++ [n]) (m_subnets s) (m_routers s));
  list_subnets := fun s => (Ok (m_subnets s), s);
  create_subnet := fun name network_id cidr s =>
    let sn := OpenStackSubnet ("subnet-" +:+ name) name network_id in
    (Ok sn,
     State (m_keypairs s) (m_security_groups s) (m_containers s)
           (m_networks s) (m_subnets s ++ [sn]) (m_routers s));
  list_routers := fun s => (Ok (m_routers s), s);
  create_router := fun name s =>
    let r := OpenStackRouter ("router-" +:+ default "" name) (default "" name) in
    (Ok r,
     State (m_keypairs s) (m_security_groups s) (m_containers s)
           (m_networks s) (m_subnets s) (m_routers s ++ [r]));
  network_create_subnet := fun net name cidr s =>
    let sn := OpenStackSubnet ("subnet-" +:+ name) name (net_id net) in
    (Ok sn,
     State (m_keypairs s) (m_security_groups s) (m_containers s)
           (m_networks s) (m_subnets s ++ [sn]) (m_routers s));
  router_attach_subnet := fun r sn s => (Ok tt, s);
  router_attach_gateway := fun r gw s =>
    match gw with
    | Some _ => (Ok tt, s)
    | None => (Raise (NeutronClientException "no external network"), s)
    end
|}.

Definition valid_resource_name (c : resource_class) (name : string) : bool :=
  truthy_str name.

(** Pages of the examples: at most [limit] objects, two when no limit is
    given; markers are not interpreted. *)
Definition page (A : Type) (l : ClientPagedResultList A) : list A :=
  take (default 2 (limit l)) (objects l).

Definition start (s : state) : world state call := World s [] 0.

(** Example data. *)
Definition external_only : state :=
  State [] [] [] [OpenStackNetwork "net-public" "public" true] [] [].

Definition private_network : network := OpenStackNetwork "net-1" "private" false.

Definition two_networks : state :=
  State [] [] [] [private_network; OpenStackNetwork "net-2" "other" false]
        [OpenStackSubnet "s1" "a" "net-1"; OpenStackSubnet "s2" "b" "net-2";
         OpenStackSubnet "s3" "c" "net-1"] [].

End OpenStackMock.

(** * Properties *)

(** ** Strings and the service monad *)
Module PyFacts.
Import Py.

Lemma append_cons (c : Ascii.ascii) (s t : string) :
  String c s +:+ t = String c (s +:+ t).
Proof. reflexivity. Qed.

Lemma append_nil_l (s : string) : "" +:+ s = s.
Proof. reflexivity. Qed.

Lemma append_nil_r (s : string) : s +:+ "" = s.
Proof. induction s as [|c s IH]; [done | by rewrite append_cons, IH]. Qed.

Lemma append_assoc (a b c : string) : (a +:+ b) +:+ c = a +:+ (b +:+ c).
Proof. induction a as [|x a IH]; [done | by rewrite !append_cons, IH]. Qed.

Lemma append_snoc (cur : string) (c : Ascii.ascii) (s : string) :
  (cur +:+ String c "") +:+ s = cur +:+ String c s.
Proof. by rewrite append_assoc, append_cons, append_nil_l. Qed.

Lemma length_append (a b : string) :
  String.length (a +:+ b) = String.length a + String.length b.
Proof.
  induction a as [|x a IH]; [done|].
  rewrite append_cons. cbn [String.length]. by rewrite IH.
Qed.

(** A string is never equal to itself with something non-empty appended. *)
Lemma append_neq (a b : string) : b <> "" -> a +:+ b <> a.
Proof.
  intros Hb Heq. apply (f_equal String.length) in Heq.
  rewrite length_append in Heq. destruct b; [done | cbn in Heq; lia].
Qed.

Lemma prefix_empty (s : string) : String.prefix "" s = true.
Proof. by destruct s. Qed.

Lemma prefix_cons (a b : Ascii.ascii) (s t : string) :
  String.prefix (String a s) (String b t) =
  if Ascii.ascii_dec a b then String.prefix s t else false.
Proof. reflexivity. Qed.

Lemma prefix_append (p s : string) : String.prefix p (p +:+ s) = true.
Proof.
  induction p as [|c p IH]; [apply prefix_empty|].
  rewrite append_cons, prefix_cons. by destruct (Ascii.ascii_dec c c).
Qed.

Lemma contains_cons_false (sub : string) (c : Ascii.ascii) (s : string) :
  contains sub (String c s) = false ->
  String.prefix sub (String c s) = false /\ contains sub s = false.
Proof. cbn [contains]. intros H. by apply orb_false_elim in H. Qed.

(** Without an occurrence of the separator the string is the only piece. *)
Lemma split_scan_no_match (sep cur s : string) :
  contains sep s = false -> split_scan sep 0 cur s = [cur +:+ s].
Proof.
  revert cur. induction s as [|c s IH]; intros cur H.
  - cbn [split_scan]. by rewrite append_nil_r.
  - apply contains_cons_false in H as [Hp Hc].
    cbn [split_scan]. rewrite Hp. rewrite IH by done. by rewrite append_snoc.
Qed.

(** The scan of [N|$|S]: when the delimiter neither occurs in [N] nor
    straddles the end of [N], the first piece is [N] and the scan goes on
    in [S]. *)
Lemma split_scan_composite (N S cur : string) :
  contains "|$|" N = false -> endswith N "|$" = false ->
  split_scan "|$|" 0 cur (N +:+ "|$|" +:+ S)
  = (cur +:+ N) :: split_scan "|$|" 0 "" S.
Proof.
  revert cur. induction N as [|a N IH]; intros cur Hc He.
  - rewrite append_nil_l, append_nil_r. unfold String.append. cbn.
    by rewrite prefix_empty.
  - apply contains_cons_false in Hc as [Hp Hc].
    cbn [endswith] in He. apply orb_false_elim in He as [He1 He].
    assert (Hno : String.prefix "|$|" (String a N +:+ "|$|" +:+ S) = false).
    { clear IH Hc He. rewrite append_cons, prefix_cons.
      rewrite prefix_cons in Hp.
      destruct (Ascii.ascii_dec _ a) as [<-|]; [|done].
      destruct N as [|b N]; [done|].
      rewrite append_cons, prefix_cons. rewrite prefix_cons in Hp.
      destruct (Ascii.ascii_dec _ b) as [<-|]; [|done].
      destruct N as [|c N]; [discriminate He1|].
      rewrite append_cons, prefix_cons. rewrite prefix_cons in Hp.
      destruct (Ascii.ascii_dec _ c) as [<-|]; [|done].
      rewrite prefix_empty in Hp. discriminate Hp. }
    rewrite append_cons in Hno |- *.
    cbn [split_scan]. rewrite Hno. rewrite IH by done. by rewrite append_snoc.
Qed.

Lemma split_composite (N S : string) :
  contains "|$|" N = false -> endswith N "|$" = false ->
  contains "|$|" S = false ->
  split "|$|" (N +:+ "|$|" +:+ S) = [N; S].
Proof.
  intros HN He HS. unfold split.
  rewrite split_scan_composite by done.
  by rewrite split_scan_no_match, !append_nil_l.
Qed.

Lemma find_by_name_none {A} (key : A -> string) (k : string) (l : list A) :
  Forall (fun x => key x <> k) l ->
  List.find (fun x => String.eqb (key x) k) l = None.
Proof.
  induction 1 as [|x l Hx _ IH]; [done|].
  cbn. by destruct (String.eqb_spec (key x) k).
Qed.

Lemma substring_all_hex (n m : nat) (s : string) :
  all_hex s = true -> all_hex (String.substring n m s) = true.
Proof.
  revert n m. induction s as [|c s IH]; intros n m H.
  - by destruct n, m.
  - cbn in H. apply andb_prop in H as [Hc Hs].
    destruct n as [|n]; destruct m as [|m]; cbn; try done.
    + by rewrite Hc, IH.
    + by apply IH.
    + by apply IH.
Qed.

Lemma substring_length (m : nat) (s : string) :
  m <= String.length s -> String.length (String.substring 0 m s) = m.
Proof.
  revert m. induction s as [|c s IH]; intros m H.
  - cbn in H. by replace m with 0 by lia.
  - destruct m as [|m]; [done|]. cbn in *. rewrite IH; lia.
Qed.

Section MonadFacts.
Context {St Call : Type}.
Implicit Types w : world St Call.

Lemma bind_ok {A B} (m : M St Call A) (k : A -> M St Call B) w a w1 :
  m w = (Ok a, w1) -> bind m k w = k a w1.
Proof. unfold bind. by intros ->. Qed.

Lemma bind_raise {A B} (m : M St Call A) (k : A -> M St Call B) w e w1 :
  m w = (Raise e, w1) -> bind m k w = (Raise e, w1).
Proof. unfold bind. by intros ->. Qed.

Lemma bind_inv {A B} (m : M St Call A) (k : A -> M St Call B) w b w2 :
  bind m k w = (Ok b, w2) ->
  exists a w1, m w = (Ok a, w1) /\ k a w1 = (Ok b, w2).
Proof.
  unfold bind. destruct (m w) as [[a|e] w1]; [eauto | discriminate].
Qed.

Lemma invoke_ok {A} (c : Call) (op : St -> res A * St) w a st :
  op (backend w) = (Ok a, st) ->
  invoke c op w = (Ok a, World st (trace w ++ [c]) (uuids_drawn w)).
Proof. unfold invoke. by intros ->. Qed.

Lemma invoke_raise {A} (c : Call) (op : St -> res A * St) w e st :
  op (backend w) = (Raise e, st) ->
  invoke c op w = (Raise e, World st (trace w ++ [c]) (uuids_drawn w)).
Proof. unfold invoke. by intros ->. Qed.

Lemma invoke_inv {A} (c : Call) (op : St -> res A * St) w r w1 :
  invoke c op w = (r, w1) ->
  op (backend w) = (r, backend w1) /\
  trace w1 = trace w ++ [c] /\ uuids_drawn w1 = uuids_drawn w.
Proof.
  unfold invoke. destruct (op (backend w)) as [r' st].
  intros [= <- <-]. done.
Qed.

Lemma invoke_trace {A} (c : Call) (op : St -> res A * St) w :
  trace (snd (invoke c op w)) = trace w ++ [c].
Proof. unfold invoke. by destruct (op (backend w)). Qed.

Lemma bind_assoc {A B C} (m : M St Call A) (k : A -> M St Call B)
    (k' : B -> M St Call C) w :
  bind (bind m k) k' w = bind m (fun a => bind (k a) k') w.
Proof. unfold bind. by destruct (m w) as [[a|e] w1]. Qed.

Lemma bind_ret_l {A B} (a : A) (k : A -> M St Call B) w :
  bind (ret a) k w = k a w.
Proof. reflexivity. Qed.

Lemma bind_ext {A B} (m : M St Call A) (k1 k2 : A -> M St Call B) w :
  (forall a w', k1 a w' = k2 a w') -> bind m k1 w = bind m k2 w.
Proof.
  intros H. unfold bind. destruct (m w) as [[a|e] w']; [apply H | done].
Qed.

(** A loop over two lists in a row is the loop over the first followed by
    the loop over the second. *)
Lemma for_each_app {A X} (xs ys : list X) (body : A -> X -> M St Call A)
    (acc : A) w :
  for_each (xs ++ ys) body acc w
  = bind (for_each xs body acc) (for_each ys body) w.
Proof.
  revert acc w. induction xs as [|x xs IH]; intros acc w; [reflexivity|].
  cbn [for_each app]. unfold bind.
  destruct (body acc x w) as [[a|e] w1]; [|reflexivity].
  rewrite IH. reflexivity.
Qed.

(** *** Footprints *)

Lemma calls_only_ret {A} (q : Call -> Prop) (a : A) :
  calls_only q (ret (St := St) a).
Proof. intros w. exists []. by rewrite app_nil_r. Qed.

Lemma calls_only_raise {A} (q : Call -> Prop) e :
  calls_only q (raise (St := St) (A := A) e).
Proof. intros w. exists []. by rewrite app_nil_r. Qed.

Lemma calls_only_draw {A} (q : Call -> Prop) (source : nat -> A) :
  calls_only q (draw (St := St) source).
Proof. intros w. exists []. by rewrite app_nil_r. Qed.

Lemma calls_only_invoke {A} (q : Call -> Prop) c (op : St -> res A * St) :
  q c -> calls_only q (invoke c op).
Proof.
  intros Hc w. exists [c]. unfold invoke.
  destruct (op (backend w)) as [r st]. by repeat constructor.
Qed.

Lemma calls_only_bind {A B} (q : Call -> Prop) (m : M St Call A)
    (k : A -> M St Call B) :
  calls_only q m -> (forall a, calls_only q (k a)) -> calls_only q (bind m k).
Proof.
  intros Hm Hk w. unfold bind. destruct (Hm w) as (t1 & Ht1 & Hq1).
  destruct (m w) as [[a|e] w1]; cbn in *; [|eauto].
  destruct (Hk a w1) as (t2 & Ht2 & Hq2). exists (t1 ++ t2).
  rewrite Ht2, Ht1, app_assoc. split; [done|]. by apply Forall_app.
Qed.

Lemma calls_only_try_except {A} (q : Call -> Prop) (m : M St Call A) h :
  calls_only q m -> (forall e k, h e = Some k -> calls_only q k) ->
  calls_only q (try_except m h).
Proof.
  intros Hm Hh w. unfold try_except. destruct (Hm w) as (t1 & Ht1 & Hq1).
  destruct (m w) as [[a|e] w1]; cbn in *; [eauto|].
  destruct (h e) as [k|] eqn:He; [|eauto].
  destruct (Hh e k He w1) as (t2 & Ht2 & Hq2). exists (t1 ++ t2).
  rewrite Ht2, Ht1, app_assoc. split; [done|]. by apply Forall_app.
Qed.

Lemma calls_only_for_each {A X} (q : Call -> Prop) (xs : list X)
    (body : A -> X -> M St Call A) acc :
  (forall a x, calls_only q (body a x)) -> calls_only q (for_each xs body acc).
Proof.
  intros Hb. revert acc. induction xs as [|x xs IH]; intros acc; cbn.
  - apply calls_only_ret.
  - apply calls_only_bind; [apply Hb | apply IH].
Qed.

Lemma calls_only_index {A} (q : Call -> Prop) (parts : list A) i :
  calls_only q (index (St := St) parts i).
Proof.
  unfold index.
  destruct (parts !! i); [apply calls_only_ret | apply calls_only_raise].
Qed.

Lemma calls_only_at {A} (q : Call -> Prop) (m : M St Call A) w :
  calls_only q m ->
  exists t, trace (snd (m w)) = trace w ++ t /\ Forall q t.
Proof. intros H. apply H. Qed.

Lemma calls_at_bind {A B} (q : Call -> Prop) (m : M St Call A)
    (k : A -> M St Call B) w :
  (exists t, trace (snd (m w)) = trace w ++ t /\ Forall q t) ->
  (forall a w1, m w = (Ok a, w1) ->
     exists t, trace (snd (k a w1)) = trace w1 ++ t /\ Forall q t) ->
  exists t, trace (snd (bind m k w)) = trace w ++ t /\ Forall q t.
Proof.
  intros (t1 & Ht1 & Hq1) Hk. unfold bind.
  destruct (m w) as [[a|e] w1]; cbn in *; [|eauto].
  destruct (Hk a w1 eq_refl) as (t2 & Ht2 & Hq2). exists (t1 ++ t2).
  rewrite Ht2, Ht1, app_assoc. split; [done|]. by apply Forall_app.
Qed.

Lemma calls_at_mono {A} (q q' : Call -> Prop) (m : M St Call A) w :
  (forall c, q c -> q' c) ->
  (exists t, trace (snd (m w)) = trace w ++ t /\ Forall q t) ->
  exists t, trace (snd (m w)) = trace w ++ t /\ Forall q' t.
Proof.
  intros Hq (t & Ht & Hall). exists t. split; [done|].
  eapply Forall_impl; [exact Hall | exact Hq].
Qed.

Lemma trace_extends {A} (q : Call -> Prop) (m : M St Call A) w r w' :
  calls_only q m -> m w = (r, w') ->
  exists t, trace w' = trace w ++ t /\ Forall q t.
Proof. intros Hm Hrun. destruct (Hm w) as (t & Ht & Hq). rewrite Hrun in Ht. eauto. Qed.

Lemma invoke_then_invoke {A B} (c1 c2 : Call) (op1 : St -> res A * St)
    (op2 : St -> res B * St) (w : world St Call) :
  exists rest,
    trace (snd (bind (invoke c1 op1) (fun _ => invoke c2 op2) w))
    = trace w ++ c1 :: rest
    /\ (rest = [] \/ rest = [c2]).
Proof.
  unfold bind, invoke. destruct (op1 (backend w)) as [[a|e] st1]; cbn.
  - destruct (op2 st1) as [r st2]. exists [c2]. cbn.
    split; [by rewrite <- app_assoc | by right].
  - exists []. split; [done | by left].
Qed.

Lemma calls_only_mono {A} (q q' : Call -> Prop) (m : M St Call A) :
  (forall c, q c -> q' c) -> calls_only q m -> calls_only q' m.
Proof.
  intros Hq Hm w. destruct (Hm w) as (t & Ht & Hall). exists t.
  split; [done|]. eapply Forall_impl; [exact Hall | exact Hq].
Qed.

Lemma raises_within_raise {A} (q : Call -> Prop) e w :
  raises_within q (raise (St := St) (A := A) e) w.
Proof. split; [done|]. exists []. by rewrite app_nil_r. Qed.

Lemma raises_within_bind_l {A B} (q : Call -> Prop) (m : M St Call A)
    (k : A -> M St Call B) w :
  raises_within q m w -> raises_within q (bind m k) w.
Proof.
  intros [Hr Ht]. unfold raises_within, bind in *.
  by destruct (m w) as [[a|e] w1].
Qed.

Lemma raises_within_bind_r {A B} (q : Call -> Prop) (m : M St Call A)
    (k : A -> M St Call B) w :
  calls_only q m ->
  (forall a w1, m w = (Ok a, w1) -> raises_within q (k a) w1) ->
  raises_within q (bind m k) w.
Proof.
  intros Hm Hk. unfold raises_within, bind in *.
  destruct (Hm w) as (t1 & Ht1 & Hq1).
  destruct (m w) as [[a|e] w1]; cbn in *; [|eauto].
  destruct (Hk a w1 eq_refl) as (Hr & t2 & Ht2 & Hq2). split; [done|].
  exists (t1 ++ t2). rewrite Ht2, Ht1, app_assoc. split; [done|].
  by apply Forall_app.
Qed.

Lemma bind_ext_ok {A B} (m : M St Call A) (k1 k2 : A -> M St Call B) w :
  (forall a w1, m w = (Ok a, w1) -> k1 a w1 = k2 a w1) ->
  bind m k1 w = bind m k2 w.
Proof.
  intros H. unfold bind. destruct (m w) as [[a|e] w1]; [by apply H | done].
Qed.

End MonadFacts.

(** One step in the proof of a footprint: by the shape of the computation. *)
Ltac footprint_step :=
  first
  [ apply calls_only_ret | apply calls_only_raise | apply calls_only_draw
  | apply calls_only_index
  | apply calls_only_invoke; reflexivity
  | apply calls_only_bind; [|intros ?]
  | apply calls_only_try_except;
    [|let e := fresh "e" in let k := fresh "k" in let H := fresh "H" in
      intros e k H; destruct e; try discriminate H; injection H as <-]
  | apply calls_only_for_each; intros ? ?
  | match goal with
    | |- calls_only _ (match ?x with _ => _ end) => destruct x
    end ].

Ltac two_invokes :=
  match goal with
  | |- context [bind (invoke ?c1 ?op1) (fun _ => invoke ?c2 ?op2) ?w1] =>
      let rest := fresh "rest" in
      let Ht := fresh "Ht" in
      let Hrest := fresh "Hrest" in
      destruct (invoke_then_invoke c1 c2 op1 op2 w1) as (rest & Ht & Hrest);
      exists rest; split; [exact Ht | exact Hrest]
  end.

Create HintDb footprint.

Ltac footprint := repeat (first [ solve [auto with footprint] | footprint_step ]).

End PyFacts.

(** ** The Azure services *)
Module AzureFacts.
Import Py PyFacts Azure.

Lemma all_ids_objects (gs : list security_group) :
  all_ids (map Obj gs) = Some (map sg_id gs).
Proof. induction gs as [|g gs IH]; [done|]. cbn. by rewrite IH. Qed.

Lemma filter_by_tag_In {A} (tag_match : string -> string -> bool)
    (tags_of : A -> gmap string string) (items : list A) (key wanted : string)
    (x : A) (actual : string) :
  In x items -> tags_of x !! key = Some actual ->
  tag_match wanted actual = true ->
  In x (filter_by_tag tag_match tags_of items key wanted).
Proof.
  intros Hin Htag Hm. unfold filter_by_tag. apply filter_In. split; [done|].
  by rewrite Htag.
Qed.

Lemma name_tags_Name (name : string) (description : option string) :
  name_tags name description !! "Name" = Some name.
Proof.
  unfold name_tags. destruct description as [d|]; [destruct (truthy_str d)|];
    by simplify_map_eq.
Qed.

Lemma suffixed_name_neq (name suffix : string) :
  name +:+ "-" +:+ suffix <> name.
Proof. by apply append_neq. Qed.

Lemma sorted_snoc (l : list nat) (x : nat) :
  StronglySorted lt l -> Forall (fun y => y < x) l ->
  StronglySorted lt (l ++ [x]).
Proof.
  induction 1 as [|a l Hs IH Ha]; intros Hx; cbn.
  - repeat constructor.
  - apply Forall_cons_1 in Hx as [Hax Hx]. constructor; [by apply IH|].
    apply Forall_app. split; [done|]. by repeat constructor.
Qed.

Lemma reads_mutations (t : list call) : Forall reads t -> mutations t = [].
Proof.
  unfold mutations. induction 1 as [|c t Hc _ IH]; [done|].
  rewrite filter_cons, IH. unfold reads in Hc. by rewrite Hc.
Qed.

Lemma calls_only_reads {St A} (m : Py.M St call A) w :
  calls_only reads m -> mutations (trace (snd (m w))) = mutations (trace w).
Proof.
  intros Hm. destruct (Hm w) as (t & -> & Ht). unfold mutations.
  rewrite filter_app. fold (mutations t).
  by rewrite (reads_mutations t Ht), app_nil_r.
Qed.

Lemma reads_no_launch (c : call) : reads c -> no_launch c.
Proof. unfold reads, no_launch. by destruct c. Qed.

Lemma reads_no_group (c : call) : reads c -> no_group c.
Proof. unfold reads, no_group. by destruct c. Qed.

Lemma group_creations_none (t : list call) :
  Forall no_group t -> group_creations t = [].
Proof.
  unfold group_creations. induction 1 as [|c t Hc _ IH]; [done|].
  rewrite filter_cons, IH. unfold no_group in Hc. by rewrite Hc.
Qed.

Lemma group_creations_app (t1 t2 : list call) :
  group_creations (t1 ++ t2) = group_creations t1 ++ group_creations t2.
Proof. apply filter_app. Qed.

Lemma group_creations_skip (c : call) (t : list call) :
  is_group_creation c = false -> group_creations (c :: t) = group_creations t.
Proof. intros Hc. unfold group_creations. rewrite filter_cons. by rewrite Hc. Qed.

Lemma group_creations_keep (c : call) (t : list call) :
  is_group_creation c = true ->
  group_creations (c :: t) = c :: group_creations t.
Proof. intros Hc. unfold group_creations. rewrite filter_cons. by rewrite Hc. Qed.

Lemma group_creations_imported gid gs :
  group_creations (imported_rules gid gs) = imported_rules gid gs.
Proof.
  unfold imported_rules, group_creations.
  induction (concat (map sg_rules gs)) as [|r l IH]; [done|].
  cbn [map]. rewrite filter_cons. cbn. by rewrite IH.
Qed.

Lemma group_creations_rules gid (rules : list sg_rule) :
  group_creations (map (CreateSecurityGroupRule gid) rules)
  = map (CreateSecurityGroupRule gid) rules.
Proof.
  unfold group_creations. induction rules as [|r l IH]; [done|].
  cbn [map]. rewrite filter_cons. cbn. by rewrite IH.
Qed.

Lemma group_creations_looked_up gid looked :
  group_creations (looked_up_rules gid looked)
  = imported_rules gid (map snd looked).
Proof.
  unfold looked_up_rules, imported_rules.
  induction looked as [|[s g] l IH]; [done|].
  cbn [map concat fst snd]. rewrite map_app.
  rewrite group_creations_app, IH.
  by rewrite group_creations_skip, group_creations_rules.
Qed.

Lemma all_ids_inv sgs ids :
  all_ids sgs = Some ids ->
  exists gs, sgs = map Obj gs /\ ids = map sg_id gs.
Proof.
  revert ids. induction sgs as [|[s|g] sgs IH]; intros ids H; cbn in H.
  - injection H as <-. by exists [].
  - discriminate H.
  - destruct (all_ids sgs) as [ids'|]; [|discriminate H].
    injection H as <-. destruct (IH ids' eq_refl) as (gs & -> & ->).
    by exists (g :: gs).
Qed.

Lemma all_strings_inv sgs ids :
  all_strings sgs = Some ids -> sgs = map ById ids.
Proof.
  revert ids. induction sgs as [|[s|g] sgs IH]; intros ids H; cbn in H.
  - by injection H as <-.
  - destruct (all_strings sgs) as [ids'|]; [|discriminate H].
    injection H as <-. by rewrite (IH ids' eq_refl).
  - discriminate H.
Qed.

Lemma all_strings_ids (ids : list string) :
  all_strings (map ById ids) = Some ids.
Proof. induction ids as [|s ids IH]; [done|]. cbn. by rewrite IH. Qed.

Lemma reads_names_disk native requested (c : call) :
  reads c -> names_disk native requested c.
Proof. unfold reads. by destruct c. Qed.

Lemma reads_names_snapshot native requested (c : call) :
  reads c -> names_snapshot native requested c.
Proof. unfold reads. by destruct c. Qed.

Lemma no_launch_names_vm native requested (c : call) :
  no_launch c -> names_vm native requested c.
Proof. unfold no_launch. by destruct c. Qed.

Section Facts.
Context {St : Type} (P : provider St).
Variable uuid_source : nat -> string.
Variable gen_key_pair : nat -> string * string.
Variable b64encode : string -> string.
Variable tag_match : string -> string -> bool.
Variables NET SUB : string.
Implicit Types w : world St call.

(** *** Block device processing *)

Lemma image_device_step vm_name zone (d : launch_device) i st w :
  is_volume d = true -> is_root d = false -> source d = SrcImage i ->
  process_device P uuid_source vm_name zone st d w
  = (Ok (BdmState (disks st) (S (volumes_count st)) (root_disk_size st)), w).
Proof.
  intros Hv Hr Hs. unfold process_device. rewrite Hv, Hr, Hs. reflexivity.
Qed.

(** C9.  A non-root volume device whose source is a MachineImage is skipped
    by the loop of [_process_block_device_mappings]: the step returns
    normally with the data disks unchanged (only the volume counter moves
    on), the world is unchanged (no client call), and the devices after it
    are processed as usual from that state. *)
Theorem C9_machine_image_device_skipped vm_name zone (d : launch_device) i
    (pre post : list launch_device) st w :
  is_volume d = true -> is_root d = false -> source d = SrcImage i ->
  process_device P uuid_source vm_name zone st d w
  = (Ok (BdmState (disks st) (S (volumes_count st)) (root_disk_size st)), w)
  /\ for_each (pre ++ d :: post) (process_device P uuid_source vm_name zone) st w
     = bind (for_each pre (process_device P uuid_source vm_name zone) st)
         (fun acc =>
            for_each post (process_device P uuid_source vm_name zone)
              (BdmState (disks acc) (S (volumes_count acc)) (root_disk_size acc)))
         w.
Proof.
  intros Hv Hr Hs. split; [by eapply image_device_step|].
  rewrite for_each_app. apply bind_ext. intros acc w'.
  cbn [for_each]. unfold bind at 1.
  by erewrite image_device_step.
Qed.

Lemma blank_device_step vm_name zone (d : launch_device) st w :
  blank_device d = true -> truthy_opt_str zone = false ->
  process_device P uuid_source vm_name zone st d w
  = (Raise (InvalidConfigurationException BLANK_VOLUME_NEEDS_ZONE), w).
Proof.
  unfold blank_device, process_device. intros Hb Hz.
  destruct (is_volume d), (is_root d), (source d); try discriminate Hb.
  cbn. rewrite Hz. reflexivity.
Qed.

Lemma inert_device_step vm_name zone (d : launch_device) st w :
  inert_device d = true ->
  exists st', process_device P uuid_source vm_name zone st d w = (Ok st', w).
Proof.
  unfold inert_device, process_device. intros Hi.
  destruct (is_volume d), (is_root d), (source d); try discriminate Hi;
    cbn; eauto.
Qed.

Lemma inert_devices_loop vm_name zone (ds : list launch_device) st w :
  forallb inert_device ds = true ->
  exists st', for_each ds (process_device P uuid_source vm_name zone) st w
              = (Ok st', w).
Proof.
  revert st. induction ds as [|d ds IH]; intros st Hi; [by eexists|].
  cbn in Hi. apply andb_prop in Hi as [Hd Hds].
  destruct (inert_device_step vm_name zone d st w Hd) as [st1 H1].
  destruct (IH st1 Hds) as [st2 H2].
  exists st2. cbn [for_each]. unfold bind. by rewrite H1.
Qed.

(** *** Footprints of the lookups and of the steps of [create] *)

Lemma sg_get_reads id : calls_only reads (AzureSecurityGroupService_get P id).
Proof. unfold AzureSecurityGroupService_get. footprint. Qed.

Lemma kp_get_reads id : calls_only reads (AzureKeyPairService_get P id).
Proof. unfold AzureKeyPairService_get. footprint. Qed.

Lemma image_get_reads id : calls_only reads (AzureImageService_get P id).
Proof. unfold AzureImageService_get. footprint. Qed.

Lemma snapshot_get_reads id : calls_only reads (AzureSnapshotService_get P id).
Proof. unfold AzureSnapshotService_get. footprint. Qed.

Lemma volume_create_no_launch name size zone snapshot description :
  calls_only no_launch
    (AzureVolumeService_create P uuid_source name size zone snapshot description).
Proof.
  unfold AzureVolumeService_create, suffixed_name, uuid4_hex.
  pose proof snapshot_get_reads as Hs.
  footprint; (eapply calls_only_mono; [apply reads_no_launch | auto]).
Qed.

Lemma attach_volume_no_launch dsk c vol dot :
  calls_only no_launch (attach_volume P dsk c vol dot).
Proof. unfold attach_volume. footprint. Qed.

Lemma process_device_no_launch vm_name zone st d :
  calls_only no_launch (process_device P uuid_source vm_name zone st d).
Proof.
  unfold process_device, uuid4_hex.
  pose proof volume_create_no_launch. pose proof attach_volume_no_launch.
  footprint; auto.
Qed.

Lemma process_bdm_no_launch lc vm_name zone :
  calls_only no_launch
    (AzureInstanceService__process_block_device_mappings P uuid_source lc
       vm_name zone).
Proof.
  unfold AzureInstanceService__process_block_device_mappings.
  pose proof process_device_no_launch. footprint; auto.
Qed.

Lemma add_rule_no_launch sg src :
  calls_only no_launch (AzureSecurityGroup_add_rule P sg src).
Proof.
  unfold AzureSecurityGroup_add_rule. pose proof sg_get_reads.
  footprint; (eapply calls_only_mono; [apply reads_no_launch | auto]).
Qed.

Lemma resolve_no_launch name sn zone sgs :
  calls_only no_launch
    (AzureInstanceService__resolve_launch_options P name sn zone sgs).
Proof.
  unfold AzureInstanceService__resolve_launch_options,
    AzureSecurityGroupService_create.
  pose proof sg_get_reads. pose proof add_rule_no_launch.
  footprint; auto; (eapply calls_only_mono; [apply reads_no_launch | auto]).
Qed.

(** *** The blank volume without a zone *)

Lemma blank_device_stops_loop vm_name zone (pre post : list launch_device)
    (d : launch_device) st w :
  blank_device d = true -> truthy_opt_str zone = false ->
  for_each (pre ++ d :: post) (process_device P uuid_source vm_name zone) st w
  = (let '(r, w1) :=
       for_each pre (process_device P uuid_source vm_name zone) st w in
     match r with
     | Ok _ => (Raise (InvalidConfigurationException BLANK_VOLUME_NEEDS_ZONE), w1)
     | Raise e => (Raise e, w1)
     end).
Proof.
  intros Hb Hz. rewrite for_each_app. unfold bind at 1.
  destruct (for_each pre _ st w) as [[acc|e] w1]; [|done].
  cbn [for_each]. unfold bind. by rewrite blank_device_step.
Qed.

Lemma resolve_with_subnet name (sn : subnet) zone sgs w sid zid sgid w' :
  AzureInstanceService__resolve_launch_options P name (Some sn) zone sgs w
  = (Ok (sid, zid, sgid), w') ->
  sid = subnet_resource_id sn /\ zid = subnet_zone_id sn.
Proof.
  unfold AzureInstanceService__resolve_launch_options. intros H.
  apply bind_inv in H as (g & w1 & _ & H). by injection H as <- <- _ _.
Qed.

(** *** [create] in phases *)

Lemma create_in_phases name image instance_type subnet zone key_pair
    security_groups user_data launch_config w :
  AzureInstanceService_create P uuid_source b64encode NET SUB name image
    instance_type subnet zone key_pair security_groups user_data launch_config w
  = AzureInstanceService_create_by_phases P uuid_source b64encode NET SUB name
      image instance_type subnet zone key_pair security_groups user_data
      launch_config w.
Proof.
  unfold AzureInstanceService_create_by_phases,
    AzureInstanceService_create_inputs, AzureInstanceService_create.
  rewrite bind_assoc. apply bind_ext. intros iname w1.
  rewrite bind_assoc. apply bind_ext. intros kp w2.
  rewrite bind_assoc. apply bind_ext. intros img w3.
  rewrite bind_assoc. apply bind_ext. intros sn w4.
  rewrite bind_ret_l. cbn [li_instance_name li_subnet].
  apply bind_ext. intros [[sid zid] sgid] w5. cbn [fst snd].
  apply bind_ext. intros [dsks root] w6. reflexivity.
Qed.

Lemma subnet_get_reads id : calls_only reads (AzureSubnetService_get P id).
Proof. unfold AzureSubnetService_get. footprint. Qed.

Lemma default_subnet_no_launch :
  calls_only no_launch
    (AzureSubnetService_get_or_create_default P uuid_source NET SUB).
Proof.
  unfold AzureSubnetService_get_or_create_default, AzureNetworkService_create,
    suffixed_name, uuid4_hex.
  footprint.
Qed.

Lemma launch_key_pair_reads kp : calls_only reads (launch_key_pair P kp).
Proof. unfold launch_key_pair. pose proof kp_get_reads. footprint; auto. Qed.

Lemma launch_image_reads img : calls_only reads (launch_image P img).
Proof. unfold launch_image. pose proof image_get_reads. footprint; auto. Qed.

Lemma launch_subnet_reads sn :
  subnet_given sn = true ->
  calls_only reads (launch_subnet P uuid_source NET SUB sn).
Proof.
  unfold launch_subnet, subnet_given. intros H. pose proof subnet_get_reads.
  destruct sn as [[s|sn]|]; try discriminate H; [rewrite H|]; footprint; auto.
Qed.

Lemma launch_subnet_no_launch sn :
  calls_only no_launch (launch_subnet P uuid_source NET SUB sn).
Proof.
  unfold launch_subnet. pose proof subnet_get_reads. pose proof default_subnet_no_launch.
  footprint; auto; (eapply calls_only_mono; [apply reads_no_launch | auto]).
Qed.

Lemma create_inputs_no_launch name image subnet key_pair :
  calls_only no_launch
    (AzureInstanceService_create_inputs P uuid_source NET SUB name image subnet
       key_pair).
Proof.
  unfold AzureInstanceService_create_inputs, suffixed_name, uuid4_hex.
  pose proof launch_key_pair_reads. pose proof launch_image_reads.
  pose proof launch_subnet_no_launch.
  footprint; auto; (eapply calls_only_mono; [apply reads_no_launch | auto]).
Qed.

Lemma create_inputs_reads name image subnet key_pair :
  subnet_given subnet = true ->
  calls_only reads
    (AzureInstanceService_create_inputs P uuid_source NET SUB name image subnet
       key_pair).
Proof.
  intros Hs. unfold AzureInstanceService_create_inputs, suffixed_name, uuid4_hex.
  pose proof launch_key_pair_reads. pose proof launch_image_reads.
  pose proof (launch_subnet_reads _ Hs).
  footprint; auto.
Qed.

Lemma resolve_reads name sn zone sgs :
  at_most_one sgs = true ->
  calls_only reads (AzureInstanceService__resolve_launch_options P name sn zone sgs).
Proof.
  unfold at_most_one, AzureInstanceService__resolve_launch_options.
  intros H. pose proof sg_get_reads.
  destruct sgs as [[|g [|g' gs]]|]; try discriminate H; cbn [length Nat.ltb Nat.leb]; footprint; auto.
Qed.

Lemma inert_devices_read vm_name zone (pre : list launch_device) :
  forallb inert_device pre = true ->
  calls_only reads
    (AzureInstanceService__process_block_device_mappings P uuid_source
       (AzureLaunchConfig pre) vm_name zone).
Proof.
  intros Hpre w. exists []. rewrite app_nil_r.
  unfold AzureInstanceService__process_block_device_mappings. cbn [block_devices].
  unfold bind.
  destruct (inert_devices_loop vm_name zone pre (BdmState [] 0 None) w Hpre)
    as [st' ->]. done.
Qed.

Lemma subnet_get_origin id w sn w' :
  AzureSubnetService_get P id w = (Ok (Some sn), w') ->
  exists N S st st', get_subnet (azure P) N S st = (Ok (Some sn), st').
Proof.
  unfold AzureSubnetService_get, try_except. intros H.
  destruct (bind _ _ w) as [[r|e] w1] eqn:E.
  - injection H as -> ->.
    apply bind_inv in E as (N & w2 & _ & E).
    apply bind_inv in E as (S & w3 & _ & E).
    apply invoke_inv in E as (E & _). eauto.
  - destruct e; discriminate H.
Qed.

Lemma default_subnet_origin w sn w' :
  AzureSubnetService_get_or_create_default P uuid_source NET SUB w = (Ok sn, w') ->
  (exists st st', get_subnet (azure P) NET SUB st = (Ok (Some sn), st'))
  \/ (exists params st st',
         create_subnet (azure P) NET SUB params st = (Ok sn, st')).
Proof.
  unfold AzureSubnetService_get_or_create_default. intros H.
  apply bind_inv in H as (found & w0 & Hfound & H).
  destruct found as [sn0|].
  - injection H as <- <-. left. unfold try_except in Hfound.
    destruct (invoke _ _ w) as [[r|e] w1] eqn:Hinv.
    + injection Hfound as -> ->. apply invoke_inv in Hinv as (Hop & _). eauto.
    + destruct e; discriminate Hfound.
  - right. apply bind_inv in H as (net & w2 & _ & H).
    apply bind_inv in H as (u & w3 & _ & H).
    apply invoke_inv in H as (Hop & _). eauto.
Qed.

Lemma inputs_subnet_zoneless name image subnet key_pair w i w1 sn :
  no_resolvable_zone P subnet ->
  AzureInstanceService_create_inputs P uuid_source NET SUB name image subnet
    key_pair w = (Ok i, w1) ->
  li_subnet i = Some sn ->
  truthy_opt_str (subnet_zone_id sn) = false.
Proof.
  intros Hz H Hsn. unfold AzureInstanceService_create_inputs in H.
  apply bind_inv in H as (iname & w2 & _ & H).
  apply bind_inv in H as (kp & w3 & _ & H).
  apply bind_inv in H as (img & w4 & _ & H).
  apply bind_inv in H as (osn & w5 & Hsub & H).
  injection H as <- _. cbn in Hsn. subst osn.
  assert (Hdefault : forall w w',
    (forall N S st sn st',
        get_subnet (azure P) N S st = (Ok (Some sn), st') ->
        truthy_opt_str (subnet_zone_id sn) = false)
    /\ (forall N S params st sn st',
           create_subnet (azure P) N S params st = (Ok sn, st') ->
           truthy_opt_str (subnet_zone_id sn) = false) ->
    bind (AzureSubnetService_get_or_create_default P uuid_source NET SUB)
         (fun sn0 => ret (Some sn0)) w = (Ok (Some sn), w') ->
    truthy_opt_str (subnet_zone_id sn) = false).
  { intros wa wb [Hg Hc] Hd. apply bind_inv in Hd as (sn0 & wc & Hd & Hr).
    injection Hr as -> _.
    apply default_subnet_origin in Hd as [(st & st' & Hd)|(p & st & st' & Hd)];
      eauto. }
  unfold launch_subnet in Hsub. destruct subnet as [[s|sn0]|].
  - destruct (truthy_str s).
    + apply subnet_get_origin in Hsub as (N & S & st & st' & Hsub).
      by eapply (proj1 Hz).
    + by eapply Hdefault.
  - injection Hsub as -> _. exact Hz.
  - by eapply Hdefault.
Qed.

Lemma create_stops_before_launch name image instance_type subnet requested_zone
    key_pair sgs user_data (pre post : list launch_device) (d : launch_device) w :
  blank_device d = true ->
  no_resolvable_zone P subnet ->
  AzureInstanceService_create P uuid_source b64encode NET SUB name image
    instance_type subnet requested_zone key_pair sgs user_data
    (Some (AzureLaunchConfig (pre ++ d :: post))) w
  = bind (AzureInstanceService_create_inputs P uuid_source NET SUB name image
            subnet key_pair)
      (fun i =>
         bind (AzureInstanceService__resolve_launch_options P
                 (li_instance_name i) (li_subnet i) (zone_id_of requested_zone)
                 sgs)
           (fun resolved =>
              bind (AzureInstanceService__process_block_device_mappings P
                      uuid_source (AzureLaunchConfig pre) name
                      (snd (fst resolved)))
                (fun _ =>
                   raise (InvalidConfigurationException
                            BLANK_VOLUME_NEEDS_ZONE)))) w.
Proof.
  intros Hb Hz. rewrite create_in_phases.
  unfold AzureInstanceService_create_by_phases.
  apply bind_ext_ok. intros i w1 Hi.
  apply bind_ext_ok. intros [[sid zid] sgid] w2 Hres. cbn [fst snd].
  destruct (li_subnet i) as [sn|] eqn:Hsn.
  - pose proof (inputs_subnet_zoneless _ _ _ _ _ _ _ _ Hz Hi Hsn) as Hzone.
    apply resolve_with_subnet in Hres as [_ ->].
    unfold AzureInstanceService_create_devices.
    rewrite bind_assoc. unfold bind at 1 3.
    unfold AzureInstanceService__process_block_device_mappings.
    cbn [block_devices]. unfold bind.
    rewrite (blank_device_stops_loop _ _ _ _ _ _ _ Hb Hzone).
    by destruct (for_each pre _ _ w2) as [[acc|e] w3].
  - unfold AzureInstanceService__resolve_launch_options in Hres.
    apply bind_inv in Hres as (g & w3 & _ & Hres). discriminate Hres.
Qed.

(** C3, as amended.  With no zone, a blank non-root volume device makes
    block device processing raise InvalidConfigurationException as soon as
    the loop reaches it: the devices before it have been processed (with
    their provider calls), nothing is called for the blank device or for the
    devices after it, and an earlier failure takes precedence.  Whatever
    its arguments, a [create] for which no zone can be resolved therefore
    runs as follows: the inputs are worked out, then the launch options,
    then the devices before the blank one are processed, and then the
    exception is raised.  It never returns an instance and requests neither
    a network interface nor a virtual machine.  It makes no mutating call at
    all when the subnet is given rather than defaulted, at most one
    security group is requested and the devices before the blank one are
    inert (root, ephemeral or image-sourced).  When moreover image, subnet
    and key pair are passed as objects, the world only records the uuid
    drawn for the instance name. *)
Theorem C3_blank_volume_without_zone (name : string) (zone : option string)
    (pre post : list launch_device) (d : launch_device) w :
  blank_device d = true ->
  truthy_opt_str zone = false ->
  AzureInstanceService__process_block_device_mappings P uuid_source
    (AzureLaunchConfig (pre ++ d :: post)) name zone w
  = (let '(r, w1) :=
       AzureInstanceService__process_block_device_mappings P uuid_source
         (AzureLaunchConfig pre) name zone w in
     match r with
     | Ok _ => (Raise (InvalidConfigurationException BLANK_VOLUME_NEEDS_ZONE), w1)
     | Raise e => (Raise e, w1)
     end)
  /\ (forall image instance_type subnet requested_zone key_pair sgs user_data,
       no_resolvable_zone P subnet ->
       let run :=
         AzureInstanceService_create P uuid_source b64encode NET SUB
           name image instance_type subnet requested_zone key_pair sgs
           user_data (Some (AzureLaunchConfig (pre ++ d :: post))) w in
       run
       = bind (AzureInstanceService_create_inputs P uuid_source NET SUB name
                 image subnet key_pair)
           (fun i =>
              bind (AzureInstanceService__resolve_launch_options P
                      (li_instance_name i) (li_subnet i)
                      (zone_id_of requested_zone) sgs)
                (fun resolved =>
                   bind (AzureInstanceService__process_block_device_mappings
                           P uuid_source (AzureLaunchConfig pre) name
                           (snd (fst resolved)))
                     (fun _ =>
                        raise (InvalidConfigurationException
                                 BLANK_VOLUME_NEEDS_ZONE)))) w
       /\ is_ok (fst run) = false
       /\ (exists t, trace (snd run) = trace w ++ t
                     /\ Forall (fun c => is_launch c = false) t)
       /\ (subnet_given subnet = true -> at_most_one sgs = true ->
           forallb inert_device pre = true ->
           mutations (trace (snd run)) = mutations (trace w)))
  /\ (forall image instance_type (sn : subnet) requested_zone (kp : key_pair)
             (sg : option security_group) user_data,
       subnet_zone_id sn = zone ->
       forallb inert_device pre = true ->
       AzureInstanceService_create P uuid_source b64encode NET SUB
         name (Obj image) instance_type (Some (Obj sn)) requested_zone
         (Some (Obj kp)) (option_map (fun g => [Obj g]) sg) user_data
         (Some (AzureLaunchConfig (pre ++ d :: post))) w
       = (Raise (InvalidConfigurationException BLANK_VOLUME_NEEDS_ZONE),
          World (backend w) (trace w) (S (uuids_drawn w)))).
Proof.
  intros Hb Hz. split; [|split].
  - unfold AzureInstanceService__process_block_device_mappings.
    cbn [block_devices]. unfold bind at 1 2.
    rewrite (blank_device_stops_loop _ _ _ _ _ _ _ Hb Hz).
    by destruct (for_each pre _ _ w) as [[acc|e] w1].
  - intros image instance_type subnet requested_zone key_pair sgs user_data
      Hnz run. subst run.
    rewrite (create_stops_before_launch _ _ _ _ _ _ _ _ _ _ _ _ Hb Hnz).
    split; [done|]. split; [|split].
    + unfold bind.
      destruct (AzureInstanceService_create_inputs _ _ _ _ _ _ _ _ w)
        as [[i|e] w1]; [|done].
      destruct (AzureInstanceService__resolve_launch_options _ _ _ _ _ w1)
        as [[r|e] w2]; [|done].
      by destruct (AzureInstanceService__process_block_device_mappings
                     _ _ _ _ _ w2) as [[p|e] w3].
    + pose proof create_inputs_no_launch. pose proof resolve_no_launch.
      pose proof process_bdm_no_launch.
      apply (calls_only_at no_launch). footprint; auto.
    + intros Hgiven Hone Hpre. apply calls_only_reads.
      pose proof (create_inputs_reads name image subnet key_pair Hgiven).
      pose proof (fun n sn z => resolve_reads n sn z sgs Hone).
      pose proof (fun n z => inert_devices_read n z pre Hpre).
      footprint; auto.
  - intros image instance_type sn requested_zone kp sg user_data Hsn Hpre.
    unfold AzureInstanceService_create, suffixed_name, uuid4_hex, draw.
    unfold AzureInstanceService__resolve_launch_options,
      AzureInstanceService__process_block_device_mappings.
    cbn [block_devices]. subst zone.
    set (w0 := World (backend w) (trace w) (S (uuids_drawn w))).
    assert (Hrun : forall st,
      for_each (pre ++ d :: post)
        (process_device P uuid_source name (subnet_zone_id sn)) st w0
      = (Raise (InvalidConfigurationException BLANK_VOLUME_NEEDS_ZONE), w0)).
    { intros st. rewrite (blank_device_stops_loop _ _ _ _ _ _ _ Hb Hz).
      by destruct (inert_devices_loop name (subnet_zone_id sn) pre st w0 Hpre)
        as [st' ->]. }
    destruct sg as [g|]; cbn; unfold bind, ret; cbn; fold w0; by rewrite Hrun.
Qed.

(** *** Launch options *)

Lemma resolve_ignores_zone name (sn : option subnet) z1 z2 sgs w :
  AzureInstanceService__resolve_launch_options P name sn z1 sgs w
  = AzureInstanceService__resolve_launch_options P name sn z2 sgs w.
Proof. by destruct sn. Qed.

Lemma no_launch_vm_at location c : no_launch c -> vm_at location c.
Proof. intros Hc n p ->. discriminate Hc. Qed.

Lemma create_devices_no_launch name lc zone :
  calls_only no_launch (AzureInstanceService_create_devices P uuid_source name lc zone).
Proof.
  unfold AzureInstanceService_create_devices.
  pose proof process_bdm_no_launch. footprint; auto.
Qed.

Lemma create_launch_location name i instance_type sid zid sgid processed user_data :
  calls_only (vm_at (or_else zid (region_name P)))
    (AzureInstanceService_create_launch P b64encode name i instance_type
       (sid, zid, sgid) processed user_data).
Proof.
  unfold AzureInstanceService_create_launch.
  apply calls_only_bind; [apply calls_only_invoke; by intros n p [=]|]. intros nic.
  apply calls_only_bind; [footprint|]. intros kp.
  apply calls_only_bind; [footprint|]. intros img.
  apply calls_only_bind.
  - apply calls_only_invoke. intros n p [= _ <-].
    unfold vm_parameters_of. by destruct processed.
  - intros u. apply calls_only_invoke. by intros n p [=].
Qed.

Lemma launch_subnet_origin subnet name image key_pair w i w1 :
  AzureInstanceService_create_inputs P uuid_source NET SUB name image subnet
    key_pair w = (Ok i, w1) ->
  exists w0,
    launch_subnet P uuid_source NET SUB subnet w0 = (Ok (li_subnet i), w1).
Proof.
  unfold AzureInstanceService_create_inputs. intros H.
  apply bind_inv in H as (iname & w2 & _ & H).
  apply bind_inv in H as (kp & w3 & _ & H).
  apply bind_inv in H as (img & w4 & _ & H).
  apply bind_inv in H as (osn & w5 & Hsub & H).
  injection H as <- <-. eauto.
Qed.

Lemma create_launches_in_subnet_zone name image instance_type subnet zone
    key_pair sgs user_data lc w :
  match AzureInstanceService_create_inputs P uuid_source NET SUB name image
          subnet key_pair w with
  | (Raise e, w1) =>
      AzureInstanceService_create P uuid_source b64encode NET SUB name image
        instance_type subnet zone key_pair sgs user_data lc w = (Raise e, w1)
  | (Ok i, w1) =>
      exists t,
        trace (snd (AzureInstanceService_create P uuid_source b64encode NET SUB
                      name image instance_type subnet zone key_pair sgs
                      user_data lc w))
        = trace w ++ t
        /\ Forall (fun c =>
                     forall n p, c = CreateVm n p ->
                       exists sn, li_subnet i = Some sn
                                  /\ vm_location p
                                     = or_else (subnet_zone_id sn) (region_name P))
                  t
  end.
Proof.
  rewrite create_in_phases. unfold AzureInstanceService_create_by_phases.
  destruct (AzureInstanceService_create_inputs _ _ _ _ _ _ _ _ w)
    as [[i|e] w1] eqn:Hi; [|by unfold bind; rewrite Hi].
  set (q := fun c : call =>
              forall n p, c = CreateVm n p ->
                exists sn, li_subnet i = Some sn
                           /\ vm_location p
                              = or_else (subnet_zone_id sn) (region_name P)).
  assert (Hno : forall c, no_launch c -> q c).
  { intros c Hc n p ->. discriminate Hc. }
  apply calls_at_bind.
  { eapply calls_at_mono; [exact Hno|].
    apply calls_only_at, create_inputs_no_launch. }
  intros i' w1' Hi'. rewrite Hi in Hi'. injection Hi' as <- <-.
  apply calls_at_bind.
  { eapply calls_at_mono; [exact Hno|]. apply calls_only_at, resolve_no_launch. }
  intros [[sid zid] sgid] w2 Hres. cbn [fst snd].
  apply calls_at_bind.
  { eapply calls_at_mono; [exact Hno|].
    apply calls_only_at, create_devices_no_launch. }
  intros processed w3 _.
  destruct (li_subnet i) as [sn|] eqn:Hsn.
  - apply resolve_with_subnet in Hres as [_ ->].
    eapply calls_at_mono; [|apply calls_only_at, create_launch_location].
    intros c Hc n p ->. exists sn. split; [done|]. by eapply Hc.
  - unfold AzureInstanceService__resolve_launch_options in Hres.
    apply bind_inv in Hres as (g & w4 & _ & Hres). discriminate Hres.
Qed.

Lemma create_launch_ok name i instance_type resolved processed user_data w vm w' :
  AzureInstanceService_create_launch P b64encode name i instance_type resolved
    processed user_data w = (Ok vm, w') ->
  exists nic kp img,
    li_key_pair i = Some kp /\ li_image i = Some img /\
    trace w'
    = trace w ++ [CreateNic (li_instance_name i +:+ "_nic")
                            (nic_parameters_of P i resolved);
                  CreateVm (li_instance_name i)
                    (vm_parameters_of P b64encode name i instance_type resolved
                       processed user_data nic kp img);
                  GetVm (li_instance_name i)].
Proof.
  unfold AzureInstanceService_create_launch. intros H.
  apply bind_inv in H as (nic & w1 & Hnic & H).
  apply bind_inv in H as (kp & w2 & Hkp & H).
  apply bind_inv in H as (img & w3 & Himg & H).
  apply bind_inv in H as (u & w4 & Hvm & H).
  apply invoke_inv in Hnic as (_ & Ht1 & _).
  apply invoke_inv in Hvm as (_ & Ht4 & _).
  apply invoke_inv in H as (_ & Ht & _).
  destruct (li_key_pair i) as [kp0|]; [|discriminate Hkp].
  destruct (li_image i) as [img0|]; [|discriminate Himg].
  unfold ret in Hkp, Himg. injection Hkp as -> ->. injection Himg as -> ->.
  exists nic, kp, img. split; [done|]. split; [done|].
  rewrite Ht, Ht4, Ht1. by rewrite <- !app_assoc.
Qed.

Lemma create_ok_phases name image instance_type subnet zone key_pair sgs
    user_data lc w vm w' :
  AzureInstanceService_create P uuid_source b64encode NET SUB name image
    instance_type subnet zone key_pair sgs user_data lc w = (Ok vm, w') ->
  exists i w1 resolved w2 processed w3,
    AzureInstanceService_create_inputs P uuid_source NET SUB name image subnet
      key_pair w = (Ok i, w1)
    /\ AzureInstanceService__resolve_launch_options P (li_instance_name i)
         (li_subnet i) (zone_id_of zone) sgs w1 = (Ok resolved, w2)
    /\ AzureInstanceService_create_devices P uuid_source name lc
         (snd (fst resolved)) w2 = (Ok processed, w3)
    /\ AzureInstanceService_create_launch P b64encode name i instance_type
         resolved processed user_data w3 = (Ok vm, w').
Proof.
  rewrite create_in_phases. unfold AzureInstanceService_create_by_phases.
  intros H.
  apply bind_inv in H as (i & w1 & Hi & H).
  apply bind_inv in H as (resolved & w2 & Hres & H).
  apply bind_inv in H as (processed & w3 & Hdev & H).
  by exists i, w1, resolved, w2, processed, w3.
Qed.

Lemma create_ok_in_subnet_zone name image instance_type subnet zone key_pair
    sgs user_data lc w vm w' :
  AzureInstanceService_create P uuid_source b64encode NET SUB name image
    instance_type subnet zone key_pair sgs user_data lc w = (Ok vm, w') ->
  exists i w1 sn t params,
    AzureInstanceService_create_inputs P uuid_source NET SUB name image subnet
      key_pair w = (Ok i, w1)
    /\ li_subnet i = Some sn
    /\ trace w' = trace w ++ t
    /\ In (CreateVm (li_instance_name i) params) t
    /\ vm_location params = or_else (subnet_zone_id sn) (region_name P).
Proof.
  intros H.
  apply create_ok_phases in H
    as (i & w1 & [[sid zid] sgid] & w2 & processed & w3 & Hi & Hres & Hdev & H).
  destruct (li_subnet i) as [sn|] eqn:Hsn.
  2:{ unfold AzureInstanceService__resolve_launch_options in Hres.
      apply bind_inv in Hres as (g & w4 & _ & Hres). discriminate Hres. }
  pose proof Hres as Hzone. apply resolve_with_subnet in Hzone as [_ ->].
  apply create_launch_ok in H as (nic & kp & img & _ & _ & Ht).
  destruct (trace_extends no_launch _ _ _ _
              (create_inputs_no_launch _ _ _ _) Hi) as (t1 & Ht1 & _).
  destruct (trace_extends no_launch _ _ _ _
              (resolve_no_launch _ _ _ _) Hres) as (t2 & Ht2 & _).
  destruct (trace_extends no_launch _ _ _ _
              (create_devices_no_launch _ _ _) Hdev) as (t3 & Ht3 & _).
  eexists i, w1, sn, _, _. split; [done|]. split; [done|]. split.
  { rewrite Ht, Ht3, Ht2, Ht1. rewrite <- !app_assoc. reflexivity. }
  split.
  { rewrite !in_app_iff. do 3 right. right. left. reflexivity. }
  unfold vm_parameters_of. by destruct processed.
Qed.

Lemma launch_subnet_found subnet_arg (N S0 : string) (sn : subnet) w st1 :
  names_subnet NET SUB subnet_arg N S0 ->
  get_subnet (azure P) N S0 (backend w) = (Ok (Some sn), st1) ->
  launch_subnet P uuid_source NET SUB subnet_arg w
  = (Ok (Some sn), World st1 (trace w ++ [GetSubnet N S0]) (uuids_drawn w)).
Proof.
  unfold names_subnet, launch_subnet. intros Hsub Hget.
  assert (Hdefault :
    bind (AzureSubnetService_get_or_create_default P uuid_source NET SUB)
         (fun sn0 => ret (Some sn0)) w
    = (Ok (Some sn), World st1 (trace w ++ [GetSubnet NET SUB]) (uuids_drawn w))
    \/ (N, S0) <> (NET, SUB)).
  { destruct (decide ((N, S0) = (NET, SUB))) as [[= -> ->]|]; [left | by right].
    unfold AzureSubnetService_get_or_create_default, try_except, bind, invoke,
      ret. by rewrite Hget. }
  destruct subnet_arg as [[s|sn0]|]; [|done|].
  - destruct (truthy_str s).
    + destruct Hsub as [H0 H1].
      unfold AzureSubnetService_get, try_except, bind, index, invoke, ret.
      rewrite H0, H1. cbn. by rewrite Hget.
    + destruct Hsub as [-> ->]. by destruct Hdefault.
  - destruct Hsub as [-> ->]. by destruct Hdefault.
Qed.

Lemma create_in_found_subnet name (image : machine_image) instance_type
    subnet_arg (N S0 : string) (sn : subnet) zone (kp : key_pair) user_data
    w st1 nic st2 :
  let iname := name +:+ "-" +:+ slice_to 6 (uuid_source (uuids_drawn w)) in
  let i := LaunchInputs iname (Some kp) (Some image) (Some sn) in
  let resolved := (subnet_resource_id sn, subnet_zone_id sn, None) in
  let vmp := vm_parameters_of P b64encode name i instance_type resolved
               (None, None) user_data nic kp image in
  names_subnet NET SUB subnet_arg N S0 ->
  get_subnet (azure P) N S0 (backend w) = (Ok (Some sn), st1) ->
  create_nic (azure P) (iname +:+ "_nic") (nic_parameters_of P i resolved) st1
  = (Ok nic, st2) ->
  vm_location vmp = or_else (subnet_zone_id sn) (region_name P)
  /\ exists rest,
       trace (snd (AzureInstanceService_create P uuid_source b64encode NET SUB
                     name (Obj image) instance_type subnet_arg zone
                     (Some (Obj kp)) None user_data None w))
       = trace w ++ [GetSubnet N S0;
                     CreateNic (iname +:+ "_nic") (nic_parameters_of P i resolved);
                     CreateVm iname vmp] ++ rest.
Proof.
  intros iname i resolved vmp Hsub Hget Hnic. split; [reflexivity|].
  rewrite create_in_phases.
  unfold AzureInstanceService_create_by_phases,
    AzureInstanceService_create_inputs, launch_key_pair, launch_image,
    AzureInstanceService_create_devices, suffixed_name, uuid4_hex, draw.
  unfold bind at 1 2 3 4 5 6. unfold ret at 1 2 3. cbn [backend trace uuids_drawn].
  rewrite (launch_subnet_found subnet_arg N S0 sn
             (World (backend w) (trace w) (Datatypes.S (uuids_drawn w))) st1 Hsub Hget).
  subst vmp resolved i iname. unfold nic_parameters_of, vm_parameters_of in *.
  unfold AzureInstanceService__resolve_launch_options,
    AzureInstanceService_create_launch, nic_parameters_of, vm_parameters_of,
    bind, invoke, ret.
  cbn in Hnic |- *. rewrite Hnic. cbn.
  destruct (create_vm _ _ _ _) as [[u|e] st3]; cbn.
  - destruct (get_vm _ _ _) as [r st4]. cbn. eexists [GetVm _].
    by rewrite <- !app_assoc.
  - exists []. by rewrite <- !app_assoc.
Qed.

(** C5.  With a resolved subnet, the zone that [_resolve_launch_options]
    returns is the subnet's zone, whatever zone was requested, and [create]
    behaves the same for any two requested zones.  Whatever the subnet
    argument of [create] (an object, an identifier, or none so that the
    default is used): if resolving the inputs raises, [create] raises the
    same; otherwise every virtual machine that the run requests is requested
    at the zone of the subnet that [launch_subnet] resolved (at the
    provider's region when that subnet carries none), and when [create]
    returns, the run did request the machine there.  When the subnet is
    named by its identifier or defaulted and the backend finds it, the run
    asks for that subnet, then for the network interface, then for the
    machine at the found subnet's zone. *)
Theorem C5_subnet_zone_overrides name image instance_type
    (sn : subnet) (any_subnet : option (arg subnet))
    (z1 z2 : option (arg placement_zone)) key_pair sgs user_data lc w :
  (forall iname zone sid zid sgid w',
      AzureInstanceService__resolve_launch_options P iname (Some sn) zone sgs w
      = (Ok (sid, zid, sgid), w') ->
      zid = subnet_zone_id sn)
  /\ AzureInstanceService_create P uuid_source b64encode NET SUB name image
       instance_type any_subnet z1 key_pair sgs user_data lc w
     = AzureInstanceService_create P uuid_source b64encode NET SUB name image
         instance_type any_subnet z2 key_pair sgs user_data lc w
  /\ (forall vm w',
      AzureInstanceService_create P uuid_source b64encode NET SUB name image
        instance_type (Some (Obj sn)) z1 key_pair sgs user_data lc w
      = (Ok vm, w') ->
      exists iname params,
        In (CreateVm iname params) (trace w') /\
        vm_location params = or_else (subnet_zone_id sn) (region_name P))
  /\ match AzureInstanceService_create_inputs P uuid_source NET SUB name image
             any_subnet key_pair w with
     | (Raise e, w1) =>
         AzureInstanceService_create P uuid_source b64encode NET SUB name image
           instance_type any_subnet z1 key_pair sgs user_data lc w
         = (Raise e, w1)
     | (Ok i, w1) =>
         (exists w0,
             launch_subnet P uuid_source NET SUB any_subnet w0
             = (Ok (li_subnet i), w1))
         /\ exists t,
              trace (snd (AzureInstanceService_create P uuid_source b64encode
                            NET SUB name image instance_type any_subnet z1
                            key_pair sgs user_data lc w))
              = trace w ++ t
              /\ Forall (fun c =>
                           forall n p, c = CreateVm n p ->
                             exists found,
                               li_subnet i = Some found
                               /\ vm_location p
                                  = or_else (subnet_zone_id found)
                                            (region_name P))
                        t
     end
  /\ (forall vm w',
      AzureInstanceService_create P uuid_source b64encode NET SUB name image
        instance_type any_subnet z1 key_pair sgs user_data lc w = (Ok vm, w') ->
      exists i w1 found t params,
        AzureInstanceService_create_inputs P uuid_source NET SUB name image
          any_subnet key_pair w = (Ok i, w1)
        /\ li_subnet i = Some found
        /\ trace w' = trace w ++ t
        /\ In (CreateVm (li_instance_name i) params) t
        /\ vm_location params = or_else (subnet_zone_id found) (region_name P))
  /\ (forall N S0 found (img : machine_image) (kp : Azure.key_pair) st1 nic st2,
      let iname := name +:+ "-" +:+ slice_to 6 (uuid_source (uuids_drawn w)) in
      let i := LaunchInputs iname (Some kp) (Some img) (Some found) in
      let resolved :=
        (subnet_resource_id found, subnet_zone_id found, None) in
      let vmp := vm_parameters_of P b64encode name i instance_type resolved
                   (None, None) user_data nic kp img in
      names_subnet NET SUB any_subnet N S0 ->
      get_subnet (azure P) N S0 (backend w) = (Ok (Some found), st1) ->
      create_nic (azure P) (iname +:+ "_nic") (nic_parameters_of P i resolved)
        st1 = (Ok nic, st2) ->
      vm_location vmp = or_else (subnet_zone_id found) (region_name P)
      /\ exists rest,
           trace (snd (AzureInstanceService_create P uuid_source b64encode
                         NET SUB name (Obj img) instance_type any_subnet z1
                         (Some (Obj kp)) None user_data None w))
           = trace w ++ [GetSubnet N S0;
                         CreateNic (iname +:+ "_nic")
                                   (nic_parameters_of P i resolved);
                         CreateVm iname vmp] ++ rest).
Proof.
  split; [|split; [|split; [|split; [|split]]]].
  - intros iname zone sid zid sgid w' H.
    by apply resolve_with_subnet in H as [_ ->].
  - unfold AzureInstanceService_create.
    do 4 (apply bind_ext; intros ? ?).
    unfold bind at 1 3.
    by rewrite (resolve_ignores_zone _ _ (zone_id_of z1) (zone_id_of z2)).
  - intros vm w' H.
    apply create_ok_in_subnet_zone in H
      as (i & w1 & found & t & params & Hi & Hsn & Ht & Hin & Hloc).
    apply launch_subnet_origin in Hi as (w0 & Hi).
    cbn in Hi. unfold ret in Hi. rewrite Hsn in Hi. injection Hi as <- _.
    exists (li_instance_name i), params. split; [|done].
    rewrite Ht. apply in_or_app. by right.
  - pose proof (create_launches_in_subnet_zone name image instance_type
                  any_subnet z1 key_pair sgs user_data lc w) as H.
    destruct (AzureInstanceService_create_inputs _ _ _ _ _ _ _ _ w)
      as [[i|e] w1] eqn:Hi; [|done].
    split; [by eapply launch_subnet_origin | exact H].
  - intros vm w' H. by apply create_ok_in_subnet_zone in H.
  - intros N S0 found img kp st1 nic st2. by apply create_in_found_subnet.
Qed.

(** *** No group is created outside the resolver *)

Lemma kp_get_no_group id : calls_only no_group (AzureKeyPairService_get P id).
Proof.
  eapply calls_only_mono; [apply reads_no_group | apply kp_get_reads].
Qed.

Lemma image_get_no_group id : calls_only no_group (AzureImageService_get P id).
Proof.
  eapply calls_only_mono; [apply reads_no_group | apply image_get_reads].
Qed.

Lemma snapshot_get_no_group id :
  calls_only no_group (AzureSnapshotService_get P id).
Proof.
  eapply calls_only_mono; [apply reads_no_group | apply snapshot_get_reads].
Qed.

Lemma subnet_get_no_group id : calls_only no_group (AzureSubnetService_get P id).
Proof.
  eapply calls_only_mono; [apply reads_no_group | apply subnet_get_reads].
Qed.

Lemma default_subnet_no_group :
  calls_only no_group
    (AzureSubnetService_get_or_create_default P uuid_source NET SUB).
Proof.
  unfold AzureSubnetService_get_or_create_default,
    AzureNetworkService_create, AzureSubnetService_create, suffixed_name,
    uuid4_hex.
  footprint.
Qed.

Lemma create_inputs_no_group name image subnet key_pair :
  calls_only no_group
    (AzureInstanceService_create_inputs P uuid_source NET SUB name image subnet
       key_pair).
Proof.
  unfold AzureInstanceService_create_inputs, launch_key_pair, launch_image,
    launch_subnet, suffixed_name, uuid4_hex.
  pose proof kp_get_no_group. pose proof image_get_no_group.
  pose proof subnet_get_no_group. pose proof default_subnet_no_group.
  footprint; auto.
Qed.

Lemma volume_create_no_group name size zone snapshot description :
  calls_only no_group
    (AzureVolumeService_create P uuid_source name size zone snapshot description).
Proof.
  unfold AzureVolumeService_create, suffixed_name, uuid4_hex.
  pose proof snapshot_get_no_group as Hs.
  footprint; auto.
Qed.

Lemma attach_volume_no_group dsk c vol dot :
  calls_only no_group (attach_volume P dsk c vol dot).
Proof. unfold attach_volume. footprint. Qed.

Lemma process_device_no_group vm_name zone st d :
  calls_only no_group (process_device P uuid_source vm_name zone st d).
Proof.
  unfold process_device, uuid4_hex.
  pose proof volume_create_no_group. pose proof attach_volume_no_group.
  footprint; auto.
Qed.

Lemma create_devices_no_group name lc zone :
  calls_only no_group
    (AzureInstanceService_create_devices P uuid_source name lc zone).
Proof.
  unfold AzureInstanceService_create_devices,
    AzureInstanceService__process_block_device_mappings.
  pose proof process_device_no_group. footprint; auto.
Qed.

(** *** What a successful import has done *)

Lemma sg_get_inv s w r w' :
  AzureSecurityGroupService_get P s w = (Ok r, w') ->
  trace w' = trace w ++ [GetSecurityGroup s]
  /\ uuids_drawn w' = uuids_drawn w
  /\ match r with
     | Some g => get_security_group (azure P) s (backend w) = (Ok g, backend w')
     | None => True
     end.
Proof.
  unfold AzureSecurityGroupService_get, try_except, bind, invoke.
  destruct (get_security_group (azure P) s (backend w)) as [[g|e] st]; cbn.
  - intros [= <- <-]. done.
  - destruct e; cbn; try discriminate. intros [= <- <-]. done.
Qed.

Lemma import_rules_inv (gid : string) (rules : list sg_rule) w u w' :
  for_each rules
    (fun _ rule => invoke (CreateSecurityGroupRule gid rule)
                          (create_security_group_rule (azure P) gid rule))
    tt w = (Ok u, w') ->
  trace w' = trace w ++ map (CreateSecurityGroupRule gid) rules.
Proof.
  revert w. induction rules as [|r rules IH]; intros w H; cbn [for_each] in H.
  - injection H as _ <-. by rewrite app_nil_r.
  - apply bind_inv in H as (u1 & w1 & H1 & H).
    apply invoke_inv in H1 as (_ & Ht1 & _). destruct u1.
    rewrite (IH _ H), Ht1. cbn. by rewrite <- app_assoc.
Qed.

Lemma import_objects_inv (new_sg : security_group) (gs : list security_group)
    w u w' :
  for_each (map Obj gs)
    (fun _ sg => AzureSecurityGroup_add_rule P new_sg sg) tt w = (Ok u, w') ->
  trace w' = trace w ++ imported_rules (sg_id new_sg) gs.
Proof.
  unfold imported_rules.
  revert w. induction gs as [|g gs IH]; intros w H; cbn [for_each map] in H.
  - injection H as _ <-. by rewrite app_nil_r.
  - apply bind_inv in H as (u1 & w1 & H1 & H).
    unfold AzureSecurityGroup_add_rule in H1.
    apply bind_inv in H1 as (src & w0 & Hsrc & H1).
    unfold ret in Hsrc. injection Hsrc as <- <-.
    apply import_rules_inv in H1. destruct u1.
    rewrite (IH _ H), H1. cbn [concat map]. by rewrite map_app, app_assoc.
Qed.

Lemma import_identifiers_inv (new_sg : security_group) (ids : list string)
    w u w' :
  for_each (map ById ids)
    (fun _ sg => AzureSecurityGroup_add_rule P new_sg sg) tt w = (Ok u, w') ->
  exists looked,
    map fst looked = ids /\ Forall (looked_up P) looked
    /\ trace w' = trace w ++ looked_up_rules (sg_id new_sg) looked.
Proof.
  revert w. induction ids as [|s ids IH]; intros w H; cbn [for_each map] in H.
  - injection H as _ <-. exists []. by rewrite app_nil_r.
  - apply bind_inv in H as (u1 & w1 & H1 & H).
    unfold AzureSecurityGroup_add_rule in H1.
    apply bind_inv in H1 as (src & w0 & Hsrc & H1).
    apply sg_get_inv in Hsrc as (Ht0 & _ & Hget).
    destruct src as [g|]; [|discriminate H1].
    apply import_rules_inv in H1. destruct u1.
    destruct (IH _ H) as (looked & Hids & Hall & Ht).
    exists ((s, g) :: looked). split; [cbn; by rewrite Hids|]. split.
    { constructor; [|done]. by exists (backend w), (backend w0). }
    rewrite Ht, H1, Ht0. unfold looked_up_rules. cbn [map concat fst snd].
    rewrite <- !app_assoc. reflexivity.
Qed.

(** *** What the resolver has done when it returns for several groups *)

Lemma resolve_merge_inv name sn zone sgs w sid zid sgid w' :
  1 < length sgs ->
  AzureInstanceService__resolve_launch_options P name sn zone (Some sgs) w
  = (Ok (sid, zid, sgid), w') ->
  exists new_sg ids gs t,
    (exists st st',
        create_security_group (azure P) (name +:+ "-sg")
          (merge_group_parameters P name ids) st = (Ok new_sg, st'))
    /\ sgid = Some (sg_resource_id new_sg)
    /\ trace w' = trace w ++ t
    /\ group_creations t
       = CreateSecurityGroup (name +:+ "-sg") (merge_group_parameters P name ids)
         :: imported_rules (sg_id new_sg) gs
    /\ ((sgs = map Obj gs /\ ids = map sg_id gs
         /\ t = CreateSecurityGroup (name +:+ "-sg")
                  (merge_group_parameters P name ids)
                :: imported_rules (sg_id new_sg) gs)
        \/ (exists looked,
               sgs = map ById ids /\ map fst looked = ids
               /\ map snd looked = gs /\ Forall (looked_up P) looked
               /\ t = GetSecurityGroup (hd "" ids)
                      :: CreateSecurityGroup (name +:+ "-sg")
                           (merge_group_parameters P name ids)
                      :: looked_up_rules (sg_id new_sg) looked)).
Proof.
  intros Hlen H. unfold AzureInstanceService__resolve_launch_options in H.
  apply bind_inv in H as (sgid' & w1 & H & Hret).
  assert (sgid' = sgid /\ w1 = w') as [-> ->].
  { destruct sn; [|discriminate Hret]. by injection Hret as _ _ <- <-. }
  clear Hret.
  destruct sgs as [|first rest]; [cbn in Hlen; lia|].
  apply bind_inv in H as ([oids first_id] & w2 & Hfirst & H).
  replace (Nat.ltb 1 (length (first :: rest))) with true in H
    by (symmetry; by apply Nat.ltb_lt).
  destruct oids as [ids|]; [|discriminate H].
  apply bind_inv in H as (new_sg & w3 & Hnew & H).
  apply bind_inv in H as (u & w4 & Himport & H).
  unfold ret in H. injection H as <- <-.
  unfold AzureSecurityGroupService_create in Hnew.
  apply invoke_inv in Hnew as (Hcreate & Ht3 & _).
  fold (merge_group_parameters P name ids) in Hcreate, Ht3.
  destruct first as [first_id0|g0].
  - (* identifiers *)
    apply bind_inv in Hfirst as (found & w0 & Hget & Hfirst).
    apply sg_get_inv in Hget as (Ht0 & _ & _).
    destruct found as [g|]; [|discriminate Hfirst].
    unfold ret in Hfirst. injection Hfirst as Hids _ <-.
    apply (all_strings_inv (ById first_id0 :: rest)) in Hids.
    rewrite Hids in Himport.
    destruct u.
    apply import_identifiers_inv in Himport as (looked & Hl & Hall & Ht4).
    assert (Hhd : hd "" ids = first_id0).
    { destruct ids; [discriminate Hids | by injection Hids as -> _]. }
    eexists new_sg, ids, (map snd looked), _.
    split; [eauto|]. split; [done|]. split.
    { rewrite Ht4, Ht3, Ht0, <- !app_assoc. reflexivity. }
    split.
    { cbn [app]. rewrite group_creations_skip by done.
      rewrite group_creations_keep by done.
      by rewrite group_creations_looked_up. }
    right. exists looked. rewrite Hhd. done.
  - (* objects *)
    destruct (all_ids (Obj g0 :: rest)) as [ids'|] eqn:Hids;
      [|discriminate Hfirst].
    unfold ret in Hfirst. injection Hfirst as <- _ <-.
    apply all_ids_inv in Hids as (gs & Hsgs & ->).
    rewrite Hsgs in Himport. destruct u.
    apply import_objects_inv in Himport.
    eexists new_sg, (map sg_id gs), gs, _.
    split; [eauto|]. split; [done|]. split.
    { rewrite Himport, Ht3, <- !app_assoc. reflexivity. }
    split.
    { cbn [app]. rewrite group_creations_keep by done.
      by rewrite group_creations_imported. }
    left. done.
Qed.

(** *** The resolver on identifiers, on a backend that answers *)

Section ByIdentifier.
Variable Inv : St -> Prop.
Variable group_of : string -> security_group.

Lemma import_rules_total (gid : string) (rules : list sg_rule) w :
  Inv (backend w) ->
  (forall rule st, Inv st ->
     exists st', create_security_group_rule (azure P) gid rule st = (Ok tt, st')
                 /\ Inv st') ->
  exists w',
    for_each rules
      (fun _ rule => invoke (CreateSecurityGroupRule gid rule)
                            (create_security_group_rule (azure P) gid rule))
      tt w = (Ok tt, w')
    /\ trace w' = trace w ++ map (CreateSecurityGroupRule gid) rules
    /\ uuids_drawn w' = uuids_drawn w
    /\ Inv (backend w').
Proof.
  intros Hw Hrule. revert w Hw.
  induction rules as [|r rules IH]; intros w Hw.
  - exists w. cbn. by rewrite app_nil_r.
  - destruct (Hrule r (backend w) Hw) as (st' & Hr & Hst').
    destruct (IH (World st' (trace w ++ [CreateSecurityGroupRule gid r])
                        (uuids_drawn w)) Hst') as (w' & Hrun & Ht & Hu & Hinv).
    exists w'. cbn [for_each]. unfold bind at 1.
    rewrite (invoke_ok _ _ _ _ _ Hr). split; [exact Hrun|].
    split; [|by split]. rewrite Ht. cbn. by rewrite <- app_assoc.
Qed.

Lemma import_identifiers_total (new_sg : security_group) (ids : list string) w :
  Inv (backend w) ->
  (forall s st, In s ids -> Inv st ->
     exists st', get_security_group (azure P) s st = (Ok (group_of s), st')
                 /\ Inv st') ->
  (forall rule st, Inv st ->
     exists st', create_security_group_rule (azure P) (sg_id new_sg) rule st
                 = (Ok tt, st')
                 /\ Inv st') ->
  exists w',
    for_each (map ById ids)
      (fun _ sg => AzureSecurityGroup_add_rule P new_sg sg) tt w = (Ok tt, w')
    /\ trace w' = trace w ++ looked_up_rules (sg_id new_sg)
                               (map (fun s => (s, group_of s)) ids)
    /\ uuids_drawn w' = uuids_drawn w
    /\ Inv (backend w').
Proof.
  intros Hw Hget Hrule. revert w Hw.
  induction ids as [|s ids IH]; intros w Hw.
  - exists w. cbn. by rewrite app_nil_r.
  - destruct (Hget s (backend w) (or_introl eq_refl) Hw) as (st0 & Hs & Hst0).
    destruct (import_rules_total (sg_id new_sg) (sg_rules (group_of s))
                (World st0 (trace w ++ [GetSecurityGroup s]) (uuids_drawn w))
                Hst0 Hrule) as (w1 & H1 & Ht1 & Hu1 & Hinv1).
    destruct IH with (w := w1) as (w' & Hrun & Ht & Hu & Hinv); [|done|].
    { intros s' st Hin. apply Hget. by right. }
    exists w'. cbn [for_each map]. unfold bind at 1.
    unfold AzureSecurityGroup_add_rule at 1. unfold bind at 1.
    unfold AzureSecurityGroupService_get, try_except, bind at 1.
    rewrite (invoke_ok _ _ _ _ _ Hs). cbn [ret]. rewrite H1.
    split; [exact Hrun|]. split; [|split; [by rewrite Hu, Hu1 | done]].
    rewrite Ht, Ht1. unfold looked_up_rules. cbn [map concat fst snd trace].
    by rewrite <- !app_assoc.
Qed.

Lemma resolve_merges_identifiers name (sn : option subnet) zone
    (ids : list string) new_sg w :
  1 < length ids ->
  Inv (backend w) ->
  (forall s st, In s ids -> Inv st ->
     exists st', get_security_group (azure P) s st = (Ok (group_of s), st')
                 /\ Inv st') ->
  (forall st, Inv st ->
     exists st', create_security_group (azure P) (name +:+ "-sg")
                   (merge_group_parameters P name ids) st = (Ok new_sg, st')
                 /\ Inv st') ->
  (forall rule st, Inv st ->
     exists st', create_security_group_rule (azure P) (sg_id new_sg) rule st
                 = (Ok tt, st')
                 /\ Inv st') ->
  exists w',
    AzureInstanceService__resolve_launch_options P name sn zone
      (Some (map ById ids)) w
    = (match sn with
       | Some s => Ok (subnet_resource_id s, subnet_zone_id s,
                       Some (sg_resource_id new_sg))
       | None => Raise (AttributeError
                          "'NoneType' object has no attribute 'resource_id'")
       end, w')
    /\ trace w' = trace w ++
         GetSecurityGroup (hd "" ids)
         :: CreateSecurityGroup (name +:+ "-sg")
              (merge_group_parameters P name ids)
         :: looked_up_rules (sg_id new_sg) (map (fun s => (s, group_of s)) ids)
    /\ uuids_drawn w' = uuids_drawn w.
Proof.
  intros Hlen Hw Hget Hcreate Hrule.
  destruct ids as [|id0 ids']; [cbn in Hlen; lia|].
  set (ids := id0 :: ids') in *.
  destruct (Hget id0 (backend w) (or_introl eq_refl) Hw) as (st0 & H0 & Hst0).
  destruct (Hcreate st0 Hst0) as (st1 & H1 & Hst1).
  destruct (import_identifiers_total new_sg ids
              (World st1
                 ((trace w ++ [GetSecurityGroup id0])
                  ++ [CreateSecurityGroup (name +:+ "-sg")
                        (merge_group_parameters P name ids)])
                 (uuids_drawn w)) Hst1 Hget Hrule)
    as (w' & Hrun & Ht & Hu & _).
  exists w'. split; [|split; [|exact Hu]].
  - unfold AzureInstanceService__resolve_launch_options.
    change (map ById ids)
      with (@ById security_group id0 :: map ById ids').
    cbv beta iota.
    change (@ById security_group id0 :: map ById ids') with
      (map (@ById security_group) ids).
    rewrite all_strings_ids.
    replace (Nat.ltb 1 (length (map ById ids))) with true
      by (symmetry; apply Nat.ltb_lt; by rewrite length_map).
    unfold bind at 1. unfold bind at 1. unfold bind at 1.
    unfold AzureSecurityGroupService_get, try_except, bind at 1.
    rewrite (invoke_ok _ _ _ _ _ H0). cbn [ret].
    unfold bind at 1. unfold AzureSecurityGroupService_create.
    fold (merge_group_parameters P name ids).
    rewrite (invoke_ok _ _ (World st0 _ _) _ _ H1).
    unfold bind at 1. cbn [backend trace uuids_drawn]. rewrite Hrun.
    cbn [ret]. by destruct sn.
  - rewrite Ht. cbn [trace hd]. by rewrite <- !app_assoc.
Qed.

End ByIdentifier.

(** *** How [create] uses the resolver *)

Lemma create_launch_begins name i instance_type resolved processed user_data w :
  exists rest,
    trace (snd (AzureInstanceService_create_launch P b64encode name i
                  instance_type resolved processed user_data w))
    = trace w ++ CreateNic (li_instance_name i +:+ "_nic")
                           (nic_parameters_of P i resolved) :: rest
    /\ Forall no_group rest.
Proof.
  unfold AzureInstanceService_create_launch.
  unfold bind at 1. unfold invoke at 1.
  destruct (create_nic _ _ _ _) as [[nic|e] st1]; [|by exists []].
  match goal with
  | |- context [bind ?m ?k ?w1] =>
      assert (Hrest : calls_only no_group (bind m k)) by footprint;
      destruct (Hrest w1) as (rest & Ht & Hq)
  end.
  exists rest. split; [|done]. rewrite Ht. cbn [trace]. by rewrite <- app_assoc.
Qed.

Lemma create_passes_resolved_group name image instance_type subnet zone
    key_pair sgs user_data lc w :
  match AzureInstanceService_create_inputs P uuid_source NET SUB name image
          subnet key_pair w with
  | (Raise e, w1) =>
      AzureInstanceService_create P uuid_source b64encode NET SUB name image
        instance_type subnet zone key_pair sgs user_data lc w = (Raise e, w1)
      /\ exists t, trace w1 = trace w ++ t /\ Forall no_group t
  | (Ok i, w1) =>
      li_instance_name i
      = name +:+ "-" +:+ slice_to 6 (uuid_source (uuids_drawn w))
      /\ (exists t, trace w1 = trace w ++ t /\ Forall no_group t)
      /\ match AzureInstanceService__resolve_launch_options P
                 (li_instance_name i) (li_subnet i) (zone_id_of zone) sgs w1 with
         | (Raise e, w2) =>
             AzureInstanceService_create P uuid_source b64encode NET SUB name
               image instance_type subnet zone key_pair sgs user_data lc w
             = (Raise e, w2)
         | (Ok resolved, w2) =>
             exists devices launch,
               trace (snd (AzureInstanceService_create P uuid_source b64encode
                             NET SUB name image instance_type subnet zone
                             key_pair sgs user_data lc w))
               = trace w2 ++ devices ++ launch
               /\ Forall no_group devices
               /\ (launch = [] \/
                   exists rest,
                     launch = CreateNic (li_instance_name i +:+ "_nic")
                                        (nic_parameters_of P i resolved) :: rest
                     /\ Forall no_group rest)
         end
  end.
Proof.
  rewrite create_in_phases. unfold AzureInstanceService_create_by_phases.
  destruct (AzureInstanceService_create_inputs _ _ _ _ _ _ _ _ w)
    as [[i|e] w1] eqn:Hi.
  2:{ split; [by unfold bind; rewrite Hi|].
      by eapply trace_extends; [apply create_inputs_no_group|]. }
  split.
  { unfold AzureInstanceService_create_inputs, suffixed_name, uuid4_hex, draw
      in Hi.
    apply bind_inv in Hi as (n & w0 & Hn & Hi).
    apply bind_inv in Hn as (hex & w00 & Hhex & Hn).
    injection Hhex as <- <-. unfold ret in Hn. injection Hn as <- <-.
    apply bind_inv in Hi as (kp & w2 & _ & Hi).
    apply bind_inv in Hi as (img & w3 & _ & Hi).
    apply bind_inv in Hi as (sn & w4 & _ & Hi).
    unfold ret in Hi. by injection Hi as <- _. }
  split; [by eapply trace_extends; [apply create_inputs_no_group|]|].
  rewrite (bind_ok _ _ _ _ _ Hi).
  destruct (AzureInstanceService__resolve_launch_options _ _ _ _ _ w1)
    as [[resolved|e] w2] eqn:Hres; [|by rewrite (bind_raise _ _ _ _ _ Hres)].
  rewrite (bind_ok _ _ _ _ _ Hres).
  destruct (AzureInstanceService_create_devices P uuid_source name lc
              (snd (fst resolved)) w2) as [[processed|e] w3] eqn:Hdev.
  - destruct (trace_extends no_group _ _ _ _
                (create_devices_no_group _ _ _) Hdev) as (t3 & Ht3 & Hq3).
    destruct (create_launch_begins name i instance_type resolved processed
                user_data w3) as (rest & Ht & Hq).
    exists t3, (CreateNic (li_instance_name i +:+ "_nic")
                          (nic_parameters_of P i resolved) :: rest).
    rewrite (bind_ok _ _ _ _ _ Hdev). rewrite Ht, Ht3, <- app_assoc.
    split; [done|]. split; [done|]. right. by exists rest.
  - destruct (trace_extends no_group _ _ _ _
                (create_devices_no_group _ _ _) Hdev) as (t3 & Ht3 & Hq3).
    exists t3, []. rewrite (bind_raise _ _ _ _ _ Hdev). cbn [snd].
    rewrite Ht3, app_nil_r. split; [done|]. split; [done|]. by left.
Qed.

Lemma nic_group_of_resolved i sid zid rid :
  network_security_group (nic_parameters_of P i (sid, zid, Some rid))
  = if truthy_str rid then Some rid else None.
Proof. reflexivity. Qed.

(** *** Merging security groups *)

Section Merge.

Hypothesis rule_creation_succeeds :
  forall gid rule st,
    exists st', create_security_group_rule (azure P) gid rule st = (Ok tt, st').

Lemma import_rules (gid : string) (rules : list sg_rule) w :
  exists w',
    for_each rules
      (fun _ rule => invoke (CreateSecurityGroupRule gid rule)
                            (create_security_group_rule (azure P) gid rule))
      tt w = (Ok tt, w')
    /\ trace w' = trace w ++ map (CreateSecurityGroupRule gid) rules
    /\ uuids_drawn w' = uuids_drawn w.
Proof using rule_creation_succeeds.
  revert w. induction rules as [|r rules IH]; intros w.
  - exists w. cbn. by rewrite app_nil_r.
  - destruct (rule_creation_succeeds gid r (backend w)) as [st' Hr].
    destruct (IH (World st' (trace w ++ [CreateSecurityGroupRule gid r])
                        (uuids_drawn w))) as (w' & Hrun & Ht & Hu).
    exists w'. cbn [for_each]. unfold bind at 1.
    rewrite (invoke_ok _ _ _ _ _ Hr). split; [exact Hrun|].
    split; [|exact Hu]. rewrite Ht. cbn. by rewrite <- app_assoc.
Qed.

Lemma import_groups (new_sg : security_group) (gs : list security_group) w :
  exists w',
    for_each (map Obj gs)
      (fun _ sg => AzureSecurityGroup_add_rule P new_sg sg) tt w = (Ok tt, w')
    /\ trace w' = trace w ++ map (CreateSecurityGroupRule (sg_id new_sg))
                                 (concat (map sg_rules gs))
    /\ uuids_drawn w' = uuids_drawn w.
Proof using rule_creation_succeeds.
  revert w. induction gs as [|g gs IH]; intros w.
  - exists w. cbn. by rewrite app_nil_r.
  - destruct (import_rules (sg_id new_sg) (sg_rules g) w) as (w1 & H1 & Ht1 & Hu1).
    destruct (IH w1) as (w' & Hrun & Ht & Hu).
    exists w'. cbn [for_each map]. unfold bind at 1.
    unfold AzureSecurityGroup_add_rule at 1. unfold bind at 1. cbn [ret].
    rewrite H1. split; [exact Hrun|]. split; [|congruence].
    rewrite Ht, Ht1. cbn [concat map]. by rewrite map_app, app_assoc.
Qed.

Lemma resolve_merges (name : string) (sn : option subnet) zone
    (gs : list security_group) new_sg st1 w :
  1 < length gs ->
  create_security_group (azure P) (name +:+ "-sg")
    (SgParameters (region_name P)
       (name_tags (name +:+ "-sg")
          (Some ("Merge security groups " +:+ join "," (map sg_id gs)))))
    (backend w) = (Ok new_sg, st1) ->
  exists w',
    AzureInstanceService__resolve_launch_options P name sn zone
      (Some (map Obj gs)) w
    = (match sn with
       | Some s => Ok (subnet_resource_id s, subnet_zone_id s,
                       Some (sg_resource_id new_sg))
       | None => Raise (AttributeError
                          "'NoneType' object has no attribute 'resource_id'")
       end, w')
    /\ trace w' = trace w ++
         CreateSecurityGroup (name +:+ "-sg")
           (SgParameters (region_name P)
              (name_tags (name +:+ "-sg")
                 (Some ("Merge security groups " +:+ join "," (map sg_id gs)))))
         :: map (CreateSecurityGroupRule (sg_id new_sg))
                (concat (map sg_rules gs))
    /\ uuids_drawn w' = uuids_drawn w.
Proof using rule_creation_succeeds.
  intros Hlen Hcreate.
  destruct gs as [|g0 gs']; [cbn in Hlen; lia|].
  set (gs := g0 :: gs') in *.
  destruct (import_groups new_sg gs
              (World st1 (trace w ++ [CreateSecurityGroup (name +:+ "-sg")
                 (SgParameters (region_name P)
                   (name_tags (name +:+ "-sg")
                     (Some ("Merge security groups "
                            +:+ join "," (map sg_id gs)))))])
                     (uuids_drawn w))) as (w' & Hrun & Ht & Hu).
  exists w'. split; [|split; [|exact Hu]].
  - unfold AzureInstanceService__resolve_launch_options.
    change (map Obj gs) with (Obj g0 :: map Obj gs').
    cbv beta iota.
    change (Obj g0 :: map Obj gs') with (map Obj gs).
    rewrite all_ids_objects.
    replace (Nat.ltb 1 (length (map Obj gs))) with true
      by (symmetry; apply Nat.ltb_lt; by rewrite length_map).
    unfold bind at 1. unfold bind at 1. cbn [ret].
    unfold bind at 1. unfold AzureSecurityGroupService_create.
    rewrite (invoke_ok _ _ _ _ _ Hcreate).
    unfold bind at 1. rewrite Hrun. cbn [ret]. by destruct sn.
  - rewrite Ht. cbn [trace]. by rewrite <- app_assoc.
Qed.

Lemma create_after_resolve (name : string) (image : machine_image)
    instance_type (sn : subnet) (zone : option (arg placement_zone))
    (kp : key_pair) user_data sgs rid w w1 :
  let iname := name +:+ "-" +:+ slice_to 6 (uuid_source (uuids_drawn w)) in
  let nicp := NicParameters (region_name P) (iname +:+ "_ip_config") "Dynamic"
                (subnet_resource_id sn)
                (if truthy_str rid then Some rid else None) in
  AzureInstanceService__resolve_launch_options P iname (Some sn)
    (zone_id_of zone) sgs (World (backend w) (trace w) (S (uuids_drawn w)))
  = (Ok (subnet_resource_id sn, subnet_zone_id sn, Some rid), w1) ->
  exists rest,
    trace (snd (AzureInstanceService_create P uuid_source b64encode NET SUB
                  name (Obj image) instance_type (Some (Obj sn)) zone
                  (Some (Obj kp)) sgs user_data None w))
    = trace w1 ++ CreateNic (iname +:+ "_nic") nicp :: rest
    /\ (rest = [] \/
        exists vmp, rest = [CreateVm iname vmp]
                    \/ rest = [CreateVm iname vmp; GetVm iname]).
Proof.
  intros iname nicp Hrun.
  set (w0 := World (backend w) (trace w) (S (uuids_drawn w))) in *.
  unfold AzureInstanceService_create, suffixed_name, uuid4_hex, draw.
  unfold bind at 1. unfold bind at 1. cbn [ret]. fold iname. fold w0.
  unfold bind at 1. cbn [ret]. unfold bind at 1. cbn [ret].
  unfold bind at 1. cbn [ret]. unfold bind at 1. rewrite Hrun.
  unfold bind at 1. cbn [ret].
  cbn [truthy_opt_str]. fold nicp.
  unfold bind at 1. unfold invoke at 1.
  destruct (create_nic (azure P) (iname +:+ "_nic") nicp (backend w1))
    as [[nic|e] st2].
  + unfold bind at 1. cbn [ret]. unfold bind at 1. cbn [ret].
    unfold bind at 1. unfold invoke at 1. cbn [backend trace uuids_drawn].
    match goal with
    | |- context [create_vm (azure P) iname ?p st2] =>
        set (vmp := p); destruct (create_vm (azure P) iname vmp st2) as [[u|e] st3]
    end.
    * unfold invoke. cbn [backend trace uuids_drawn].
      destruct (get_vm (azure P) iname st3) as [r st4]. cbn [snd trace].
      exists [CreateVm iname vmp; GetVm iname]. split; [|eauto].
      rewrite <- !app_assoc. reflexivity.
    * cbn [snd trace]. exists [CreateVm iname vmp]. split; [|eauto].
      rewrite <- !app_assoc. reflexivity.
  + cbn [snd trace]. exists []. split; [|by left]. reflexivity.
Qed.

(** C4.  With more than one requested security group, where the backend
    accepts the creation of the merge group and of its rules (and, for
    groups requested by identifier, finds them): the resolver makes exactly
    one group-creation call, for a group named after the instance with the
    suffix "-sg"; the rules then created on that new group are the rules of
    all requested groups, group by group; the identifier it returns is the
    new group's; and in [create] the network interface is requested right
    after, with that group as its network security group.  This holds for
    groups passed as objects and for groups passed by identifier, which the
    resolver looks up (the first one once more before the merge).  Whatever
    the list of more than one group, a resolver that returns has done exactly
    that.  Whatever the other arguments of [create]: no group is created
    while the inputs are resolved; the resolver is run for the suffixed
    instance name; if it raises, so does [create]; otherwise no group is
    created while the block devices are processed, and the network interface
    is then requested with what the resolver returned, no group being
    created after that either. *)
Theorem C4_merged_security_group (name : string) image instance_type
    (sn : subnet) (zone_id : option string) (zone : option (arg placement_zone))
    (kp : key_pair) user_data (gs : list security_group) new_sg st1 w :
  let iname := name +:+ "-" +:+ slice_to 6 (uuid_source (uuids_drawn w)) in
  let sgp := SgParameters (region_name P)
               (name_tags (iname +:+ "-sg")
                  (Some ("Merge security groups " +:+ join "," (map sg_id gs)))) in
  let imported := map (CreateSecurityGroupRule (sg_id new_sg))
                      (concat (map sg_rules gs)) in
  let nicp := NicParameters (region_name P) (iname +:+ "_ip_config") "Dynamic"
                (subnet_resource_id sn)
                (if truthy_str (sg_resource_id new_sg)
                 then Some (sg_resource_id new_sg) else None) in
  1 < length gs ->
  create_security_group (azure P) (iname +:+ "-sg") sgp (backend w)
  = (Ok new_sg, st1) ->
  (exists w',
      AzureInstanceService__resolve_launch_options P iname (Some sn) zone_id
        (Some (map Obj gs)) w
      = (Ok (subnet_resource_id sn, subnet_zone_id sn,
             Some (sg_resource_id new_sg)), w')
      /\ trace w' = trace w ++ CreateSecurityGroup (iname +:+ "-sg") sgp :: imported)
  /\ (exists rest,
      trace (snd (AzureInstanceService_create P uuid_source b64encode NET SUB
                    name (Obj image) instance_type (Some (Obj sn)) zone
                    (Some (Obj kp)) (Some (map Obj gs)) user_data None w))
      = trace w ++ CreateSecurityGroup (iname +:+ "-sg") sgp :: imported
                ++ CreateNic (iname +:+ "_nic") nicp :: rest
      /\ (rest = [] \/
          exists vmp, rest = [CreateVm iname vmp]
                      \/ rest = [CreateVm iname vmp; GetVm iname]))
  /\ (forall (Inv : St -> Prop) (group_of : string -> security_group)
             (ids : list string) (merged : security_group),
      let sgp' := merge_group_parameters P iname ids in
      let looked := map (fun s => (s, group_of s)) ids in
      let nicp' := NicParameters (region_name P) (iname +:+ "_ip_config")
                     "Dynamic" (subnet_resource_id sn)
                     (if truthy_str (sg_resource_id merged)
                      then Some (sg_resource_id merged) else None) in
      1 < length ids ->
      Inv (backend w) ->
      (forall s st, In s ids -> Inv st ->
         exists st', get_security_group (azure P) s st = (Ok (group_of s), st')
                     /\ Inv st') ->
      (forall st, Inv st ->
         exists st', create_security_group (azure P) (iname +:+ "-sg") sgp' st
                     = (Ok merged, st')
                     /\ Inv st') ->
      (forall rule st, Inv st ->
         exists st', create_security_group_rule (azure P) (sg_id merged) rule st
                     = (Ok tt, st')
                     /\ Inv st') ->
      (exists w',
          AzureInstanceService__resolve_launch_options P iname (Some sn) zone_id
            (Some (map ById ids)) w
          = (Ok (subnet_resource_id sn, subnet_zone_id sn,
                 Some (sg_resource_id merged)), w')
          /\ trace w' = trace w ++ GetSecurityGroup (hd "" ids)
                                :: CreateSecurityGroup (iname +:+ "-sg") sgp'
                                :: looked_up_rules (sg_id merged) looked)
      /\ group_creations (GetSecurityGroup (hd "" ids)
                          :: CreateSecurityGroup (iname +:+ "-sg") sgp'
                          :: looked_up_rules (sg_id merged) looked)
         = CreateSecurityGroup (iname +:+ "-sg") sgp'
           :: imported_rules (sg_id merged) (map group_of ids)
      /\ (exists rest,
          trace (snd (AzureInstanceService_create P uuid_source b64encode NET
                        SUB name (Obj image) instance_type (Some (Obj sn)) zone
                        (Some (Obj kp)) (Some (map ById ids)) user_data None w))
          = trace w ++ GetSecurityGroup (hd "" ids)
                    :: CreateSecurityGroup (iname +:+ "-sg") sgp'
                    :: looked_up_rules (sg_id merged) looked
                    ++ CreateNic (iname +:+ "_nic") nicp' :: rest
          /\ (rest = [] \/
              exists vmp, rest = [CreateVm iname vmp]
                          \/ rest = [CreateVm iname vmp; GetVm iname])))
  /\ (forall n osn z sgs wr sid zid sgid w',
      1 < length sgs ->
      AzureInstanceService__resolve_launch_options P n osn z (Some sgs) wr
      = (Ok (sid, zid, sgid), w') ->
      exists merged ids requested t,
        (exists st st',
            create_security_group (azure P) (n +:+ "-sg")
              (merge_group_parameters P n ids) st = (Ok merged, st'))
        /\ sgid = Some (sg_resource_id merged)
        /\ trace w' = trace wr ++ t
        /\ group_creations t
           = CreateSecurityGroup (n +:+ "-sg") (merge_group_parameters P n ids)
             :: imported_rules (sg_id merged) requested
        /\ ((sgs = map Obj requested /\ ids = map sg_id requested
             /\ t = CreateSecurityGroup (n +:+ "-sg")
                      (merge_group_parameters P n ids)
                    :: imported_rules (sg_id merged) requested)
            \/ (exists looked,
                   sgs = map ById ids /\ map fst looked = ids
                   /\ map snd looked = requested
                   /\ Forall (looked_up P) looked
                   /\ t = GetSecurityGroup (hd "" ids)
                          :: CreateSecurityGroup (n +:+ "-sg")
                               (merge_group_parameters P n ids)
                          :: looked_up_rules (sg_id merged) looked)))
  /\ (forall any_image any_type any_subnet any_key_pair sgs any_data lc,
      match AzureInstanceService_create_inputs P uuid_source NET SUB name
              any_image any_subnet any_key_pair w with
      | (Raise e, w1) =>
          AzureInstanceService_create P uuid_source b64encode NET SUB name
            any_image any_type any_subnet zone any_key_pair sgs any_data lc w
          = (Raise e, w1)
          /\ exists t, trace w1 = trace w ++ t /\ Forall no_group t
      | (Ok i, w1) =>
          li_instance_name i = iname
          /\ (exists t, trace w1 = trace w ++ t /\ Forall no_group t)
          /\ match AzureInstanceService__resolve_launch_options P
                     (li_instance_name i) (li_subnet i) (zone_id_of zone) sgs
                     w1 with
             | (Raise e, w2) =>
                 AzureInstanceService_create P uuid_source b64encode NET SUB
                   name any_image any_type any_subnet zone any_key_pair sgs
                   any_data lc w
                 = (Raise e, w2)
             | (Ok resolved, w2) =>
                 exists devices launch,
                   trace (snd (AzureInstanceService_create P uuid_source
                                 b64encode NET SUB name any_image any_type
                                 any_subnet zone any_key_pair sgs any_data lc
                                 w))
                   = trace w2 ++ devices ++ launch
                   /\ Forall no_group devices
                   /\ (launch = [] \/
                       exists rest,
                         launch = CreateNic (li_instance_name i +:+ "_nic")
                                    (nic_parameters_of P i resolved) :: rest
                         /\ Forall no_group rest)
             end
      end)
  /\ (forall i sid zid rid,
      network_security_group (nic_parameters_of P i (sid, zid, Some rid))
      = if truthy_str rid then Some rid else None).
Proof using rule_creation_succeeds.
  intros iname sgp imported nicp Hlen Hcreate.
  split; [|split; [|split; [|split; [|split]]]].
  - destruct (resolve_merges iname (Some sn) zone_id gs new_sg st1 w Hlen Hcreate)
      as (w' & Hrun & Ht & _).
    by exists w'.
  - set (w0 := World (backend w) (trace w) (S (uuids_drawn w))).
    destruct (resolve_merges iname (Some sn) (zone_id_of zone) gs new_sg st1 w0
                Hlen Hcreate) as (w1 & Hrun & Ht & _).
    destruct (create_after_resolve name image instance_type sn zone kp
                user_data (Some (map Obj gs)) (sg_resource_id new_sg) w w1 Hrun)
      as (rest & Hrest & Hshape).
    exists rest. split; [|exact Hshape].
    rewrite Hrest, Ht. cbn [trace]. rewrite <- !app_assoc. reflexivity.
  - intros Inv group_of ids merged sgp' looked nicp' Hids Hw Hget Hnew Hrule.
    split; [|split].
    + destruct (resolve_merges_identifiers Inv group_of iname (Some sn) zone_id
                  ids merged w Hids Hw Hget Hnew Hrule) as (w' & Hrun & Ht & _).
      by exists w'.
    + rewrite group_creations_skip by done.
      rewrite group_creations_keep by done.
      unfold looked. rewrite group_creations_looked_up.
      by rewrite map_map, (map_ext _ group_of).
    + set (w0 := World (backend w) (trace w) (S (uuids_drawn w))).
      destruct (resolve_merges_identifiers Inv group_of iname (Some sn)
                  (zone_id_of zone) ids merged w0 Hids Hw Hget Hnew Hrule)
        as (w1 & Hrun & Ht & _).
      destruct (create_after_resolve name image instance_type sn zone kp
                  user_data (Some (map ById ids)) (sg_resource_id merged) w w1
                  Hrun) as (rest & Hrest & Hshape).
      exists rest. split; [|exact Hshape].
      rewrite Hrest, Ht. cbn [trace]. rewrite <- !app_assoc. reflexivity.
  - intros n osn z sgs wr sid zid sgid w' Hsgs Hrun.
    by eapply resolve_merge_inv.
  - intros any_image any_type any_subnet any_key_pair sgs any_data lc.
    apply create_passes_resolved_group.
  - intros i sid zid rid. apply nic_group_of_resolved.
Qed.

End Merge.

(** *** Subnets *)

(** C7, as amended.  For a network identifier [N] and a subnet identifier
    [S] that do not contain the delimiter, where moreover [N] does not end
    with "|$" (so that no occurrence of the delimiter straddles the joint),
    splitting the composite identifier gives back exactly [N] and [S];
    [get] then asks the client for subnet [S] of network [N], and [delete]
    (given the identifier or a subnet object carrying it) deletes subnet [S]
    of network [N]. *)
Theorem C7_composite_subnet_id (N S : string) (sn : arg subnet) w :
  contains "|$|" N = false ->
  endswith N "|$" = false ->
  contains "|$|" S = false ->
  match sn with Obj s => subnet_id s | ById s => s end = composite_subnet_id N S ->
  split "|$|" (composite_subnet_id N S) = [N; S]
  /\ AzureSubnetService_get P (composite_subnet_id N S) w
     = try_except (invoke (GetSubnet N S) (get_subnet (azure P) N S))
                  (except_CloudError (ret None)) w
  /\ trace (snd (AzureSubnetService_get P (composite_subnet_id N S) w))
     = trace w ++ [GetSubnet N S]
  /\ trace (snd (AzureSubnetService_delete P sn w))
     = trace w ++ [DeleteSubnet N S].
Proof.
  intros HN He HS Hid.
  pose proof (split_composite N S HN He HS) as Hsplit.
  split; [exact Hsplit|].
  assert (Hget : AzureSubnetService_get P (composite_subnet_id N S) w
     = try_except (invoke (GetSubnet N S) (get_subnet (azure P) N S))
                  (except_CloudError (ret None)) w).
  { unfold AzureSubnetService_get, composite_subnet_id. rewrite Hsplit.
    reflexivity. }
  split; [exact Hget|]. split.
  - rewrite Hget. unfold try_except, invoke.
    destruct (get_subnet (azure P) N S (backend w)) as [[r|[]] st]; reflexivity.
  - unfold AzureSubnetService_delete. rewrite Hid.
    unfold composite_subnet_id. rewrite Hsplit.
    unfold try_except, index, bind, ret, invoke. cbn.
    destruct (delete_subnet (azure P) N S (backend w)) as [[r|[]] st]; reflexivity.
Qed.

Section DefaultSubnet.

Hypothesis read_is_repeatable :
  forall st sn st',
    get_subnet (azure P) NET SUB st = (Ok (Some sn), st') ->
    get_subnet (azure P) NET SUB st' = (Ok (Some sn), st').
Hypothesis read_after_create :
  forall params st sn st',
    create_subnet (azure P) NET SUB params st = (Ok sn, st') ->
    get_subnet (azure P) NET SUB st' = (Ok (Some sn), st').

(** On a backend that returns a subnet it has returned or created before,
    a second call of get_or_create_default returns the subnet of the first
    call and only reads. *)
Lemma azure_default_subnet_twice w sn1 w1 :
  AzureSubnetService_get_or_create_default P uuid_source NET SUB w = (Ok sn1, w1) ->
  AzureSubnetService_get_or_create_default P uuid_source NET SUB w1
  = (Ok sn1, World (backend w1) (trace w1 ++ [GetSubnet NET SUB]) (uuids_drawn w1)).
Proof using read_is_repeatable read_after_create.
  intros H.
  assert (Hget : get_subnet (azure P) NET SUB (backend w1)
                 = (Ok (Some sn1), backend w1)).
  { unfold AzureSubnetService_get_or_create_default in H.
    apply bind_inv in H as (found & w0 & Hfound & H).
    destruct found as [sn|].
    - injection H as <- <-.
      unfold try_except in Hfound.
      destruct (invoke _ _ w) as [[r|e] w'] eqn:Hinv.
      + injection Hfound as -> ->. apply invoke_inv in Hinv as (Hop & _).
        by eapply read_is_repeatable.
      + destruct e; try discriminate Hfound.
    - apply bind_inv in H as (net & w2 & _ & H).
      apply bind_inv in H as (u & w3 & _ & H).
      apply invoke_inv in H as (Hop & _).
      by eapply read_after_create. }
  unfold AzureSubnetService_get_or_create_default, bind, try_except, invoke.
  rewrite Hget. reflexivity.
Qed.
End DefaultSubnet.

(** *** Provider-native names *)

Section Naming.

Hypothesis uuid_hex_digits :
  forall n, String.length (uuid_source n) = 32 /\ all_hex (uuid_source n) = true.

Lemma suffix_six_hex (n : nat) :
  String.length (slice_to 6 (uuid_source n)) = 6
  /\ all_hex (slice_to 6 (uuid_source n)) = true.
Proof using uuid_hex_digits.
  destruct (uuid_hex_digits n) as [Hl Hh]. unfold slice_to. split.
  - apply substring_length. lia.
  - by apply substring_all_hex.
Qed.

Lemma suffixed_name_run (name : string) w r w1 :
  suffixed_name uuid_source name w = (r, w1) ->
  r = Ok (name +:+ "-" +:+ slice_to 6 (uuid_source (uuids_drawn w)))
  /\ trace w1 = trace w /\ backend w1 = backend w.
Proof. unfold suffixed_name, uuid4_hex, draw, bind, ret. by intros [= <- <-]. Qed.

Lemma snapshot_get_keeps_draws (ss_id : string) w :
  uuids_drawn (snd (AzureSnapshotService_get P ss_id w)) = uuids_drawn w.
Proof.
  unfold AzureSnapshotService_get, try_except, bind, invoke, ret.
  by destruct (get_snapshot (azure P) ss_id (backend w)) as [[a|[]] st].
Qed.

Lemma volume_get_keeps_draws (volume_id : string) w :
  uuids_drawn (snd (AzureVolumeService_get P volume_id w)) = uuids_drawn w.
Proof.
  unfold AzureVolumeService_get, try_except, bind, invoke, ret.
  by destruct (get_disk (azure P) volume_id (backend w)) as [[a|[]] st].
Qed.

Lemma volume_create_call (name : string) size zone snapshot description w vol w' :
  AzureVolumeService_create P uuid_source name size zone snapshot description w
  = (Ok vol, w') ->
  let native := name +:+ "-" +:+ slice_to 6 (uuid_source (uuids_drawn w)) in
  exists params,
    (In (CreateEmptyDisk native params) (trace w')
     \/ In (CreateSnapshotDisk native params) (trace w'))
    /\ dp_tags params !! "Name" = Some name
    /\ exists st st', get_disk (azure P) native st = (Ok vol, st').
Proof.
  intros H native. unfold AzureVolumeService_create in H.
  apply bind_inv in H as (snapo & w0 & Hsnap & H).
  assert (Hu : uuids_drawn w0 = uuids_drawn w).
  { destruct snapshot as [[s|s]|].
    - destruct (truthy_str s).
      + pose proof (snapshot_get_keeps_draws s w) as Hk.
        by rewrite Hsnap in Hk.
      + by injection Hsnap as _ <-.
    - by injection Hsnap as _ <-.
    - by injection Hsnap as _ <-. }
  apply bind_inv in H as (disk_name & w1 & Hname & H).
  apply suffixed_name_run in Hname as ([= ->] & Ht1 & _).
  rewrite Hu in H. fold native in H.
  apply bind_inv in H as (u & w2 & Hcreate & H).
  apply invoke_inv in H as (Hget & Ht & _).
  destruct snapo as [snap|]; apply invoke_inv in Hcreate as (_ & Ht2 & _);
    eexists; split.
  - right. rewrite Ht, Ht2. apply in_or_app. left. apply in_or_app. right.
    by left.
  - split; [apply name_tags_Name | eauto].
  - left. rewrite Ht, Ht2. apply in_or_app. left. apply in_or_app. right.
    by left.
  - split; [apply name_tags_Name | eauto].
Qed.

Lemma snapshot_create_call (name : string) volume description w snap w' :
  AzureSnapshotService_create P uuid_source name volume description w
  = (Ok snap, w') ->
  let native := name +:+ "-" +:+ slice_to 6 (uuid_source (uuids_drawn w)) in
  exists params,
    In (CreateSnapshot native params) (trace w')
    /\ dp_tags params !! "Name" = Some name
    /\ exists st st', get_snapshot (azure P) native st = (Ok snap, st').
Proof.
  intros H native. unfold AzureSnapshotService_create in H.
  apply bind_inv in H as (volo & w0 & Hvol & H).
  assert (Hu : uuids_drawn w0 = uuids_drawn w).
  { destruct volume as [v|v].
    - pose proof (volume_get_keeps_draws v w) as Hk. by rewrite Hvol in Hk.
    - by injection Hvol as _ <-. }
  apply bind_inv in H as (snapshot_name & w1 & Hname & H).
  apply suffixed_name_run in Hname as ([= ->] & Ht1 & _).
  rewrite Hu in H. fold native in H.
  destruct volo as [vol|]; [|discriminate H].
  apply bind_inv in H as (u & w2 & Hcreate & H).
  apply invoke_inv in H as (Hget & Ht & _).
  apply invoke_inv in Hcreate as (_ & Ht2 & _).
  eexists. split.
  - rewrite Ht, Ht2. apply in_or_app. left. apply in_or_app. right. by left.
  - split; [apply name_tags_Name | eauto].
Qed.

Lemma instance_create_call (name : string) image instance_type subnet zone
    key_pair sgs user_data lc w vm w' :
  AzureInstanceService_create P uuid_source b64encode NET SUB name image
    instance_type subnet zone key_pair sgs user_data lc w = (Ok vm, w') ->
  let native := name +:+ "-" +:+ slice_to 6 (uuid_source (uuids_drawn w)) in
  exists params,
    In (CreateVm native params) (trace w')
    /\ vmp_tags params !! "Name" = Some name
    /\ exists st st', get_vm (azure P) native st = (Ok vm, st').
Proof.
  intros H native. unfold AzureInstanceService_create in H.
  apply bind_inv in H as (iname & w0 & Hname & H).
  apply suffixed_name_run in Hname as ([= ->] & _ & _). fold native in H.
  apply bind_inv in H as (kpo & w1 & _ & H).
  apply bind_inv in H as (imgo & w2 & _ & H).
  apply bind_inv in H as (sno & w3 & _ & H).
  apply bind_inv in H as ([[sid zid] sgid] & w4 & _ & H).
  apply bind_inv in H as ([dsk root] & w5 & _ & H).
  apply bind_inv in H as (nic & w6 & _ & H).
  apply bind_inv in H as (kp & w7 & _ & H).
  apply bind_inv in H as (img & w8 & _ & H).
  apply bind_inv in H as (u & w9 & Hvm & H).
  apply invoke_inv in Hvm as (_ & Ht9 & _).
  apply invoke_inv in H as (Hget & Ht & _).
  eexists. split.
  - rewrite Ht, Ht9. apply in_or_app. left. apply in_or_app. right. by left.
  - split; [|eauto]. cbn. by simplify_map_eq.
Qed.

(** *** What the creations send *)

Lemma volume_lookup_reads (snapshot : option (arg snapshot)) :
  calls_only reads
    (match snapshot with
     | Some (ById s) =>
         if truthy_str s then AzureSnapshotService_get P s else ret None
     | Some (Obj s) => ret (Some s)
     | None => ret None
     end).
Proof. pose proof snapshot_get_reads. footprint; auto. Qed.

Lemma volume_lookup_keeps_draws (snapshot : option (arg snapshot)) w r w0 :
  (match snapshot with
   | Some (ById s) =>
       if truthy_str s then AzureSnapshotService_get P s else ret None
   | Some (Obj s) => ret (Some s)
   | None => ret None
   end) w = (r, w0) ->
  uuids_drawn w0 = uuids_drawn w.
Proof.
  intros H. destruct snapshot as [[s|s]|].
  - destruct (truthy_str s).
    + pose proof (snapshot_get_keeps_draws s w) as Hk. by rewrite H in Hk.
    + by injection H as _ <-.
  - by injection H as _ <-.
  - by injection H as _ <-.
Qed.

(** [create] of a volume after the lookup of its snapshot. *)
Lemma volume_create_run name size zone snapshot description w snapo w0 :
  let native := name +:+ "-" +:+ slice_to 6 (uuid_source (uuids_drawn w)) in
  (match snapshot with
   | Some (ById s) =>
       if truthy_str s then AzureSnapshotService_get P s else ret None
   | Some (Obj s) => ret (Some s)
   | None => ret None
   end) w = (Ok snapo, w0) ->
  exists rest,
    trace (snd (AzureVolumeService_create P uuid_source name size zone snapshot
                  description w))
    = trace w0
      ++ match snapo with
         | Some snap =>
             CreateSnapshotDisk native
               (DiskParameters
                  (or_else (zone_id_of zone) (client_region_name (azure P)))
                  None "copy" (Some (snap_resource_id snap))
                  (name_tags name description))
         | None =>
             CreateEmptyDisk native
               (DiskParameters (or_else (zone_id_of zone) (region_name P))
                  size "empty" None (name_tags name description))
         end :: rest
    /\ (rest = [] \/ rest = [GetDisk native]).
Proof.
  intros native Hsnap. pose proof (volume_lookup_keeps_draws _ _ _ _ Hsnap) as Hu.
  unfold AzureVolumeService_create. rewrite (bind_ok _ _ _ _ _ Hsnap).
  unfold suffixed_name, uuid4_hex, draw. unfold bind at 1 2. cbn [ret].
  rewrite Hu. fold native.
  destruct snapo as [snap|]; two_invokes.
Qed.

Lemma volume_create_names name size zone snapshot description w :
  exists t,
    trace (snd (AzureVolumeService_create P uuid_source name size zone snapshot
                  description w)) = trace w ++ t
    /\ Forall (names_disk
                 (name +:+ "-" +:+ slice_to 6 (uuid_source (uuids_drawn w)))
                 name) t.
Proof.
  set (native := name +:+ "-" +:+ slice_to 6 (uuid_source (uuids_drawn w))).
  destruct ((match snapshot with
             | Some (ById s) =>
                 if truthy_str s then AzureSnapshotService_get P s else ret None
             | Some (Obj s) => ret (Some s)
             | None => ret None
             end) w) as [[snapo|e] w0] eqn:Hsnap.
  - destruct (trace_extends reads _ _ _ _ (volume_lookup_reads snapshot) Hsnap)
      as (t0 & Ht0 & Hq0).
    destruct (volume_create_run name size zone snapshot description w snapo w0
                Hsnap) as (rest & Ht & Hrest).
    eexists. split; [rewrite Ht, Ht0, <- app_assoc; reflexivity|].
    apply Forall_app. split.
    { eapply Forall_impl; [exact Hq0 | apply reads_names_disk]. }
    constructor.
    { destruct snapo; (split; [done | apply name_tags_Name]). }
    destruct Hrest as [-> | ->]; repeat constructor.
  - destruct (trace_extends reads _ _ _ _ (volume_lookup_reads snapshot) Hsnap)
      as (t0 & Ht0 & Hq0).
    exists t0. unfold AzureVolumeService_create.
    rewrite (bind_raise _ _ _ _ _ Hsnap). split; [done|].
    eapply Forall_impl; [exact Hq0 | apply reads_names_disk].
Qed.

(** What the backend did when [create] of a volume returned. *)
Lemma volume_create_backend name size zone snapshot description w vol w' :
  AzureVolumeService_create P uuid_source name size zone snapshot description w
  = (Ok vol, w') ->
  let native := name +:+ "-" +:+ slice_to 6 (uuid_source (uuids_drawn w)) in
  exists params st0 st1,
    (create_empty_disk (azure P) native params st0 = (Ok tt, st1)
     \/ create_snapshot_disk (azure P) native params st0 = (Ok tt, st1))
    /\ dp_tags params !! "Name" = Some name
    /\ get_disk (azure P) native st1 = (Ok vol, backend w').
Proof.
  intros H native. unfold AzureVolumeService_create in H.
  apply bind_inv in H as (snapo & w0 & Hsnap & H).
  apply volume_lookup_keeps_draws in Hsnap as Hu.
  apply bind_inv in H as (disk_name & w1 & Hname & H).
  apply suffixed_name_run in Hname as ([= ->] & Ht1 & _).
  rewrite Hu in H. fold native in H.
  apply bind_inv in H as (u & w2 & Hcreate & H).
  apply invoke_inv in H as (Hget & _ & _). destruct u.
  destruct snapo as [snap|]; apply invoke_inv in Hcreate as (Hop & _ & _);
    eexists _, _, _; (split; [eauto|]); (split; [apply name_tags_Name | eauto]).
Qed.

(** The same for snapshots. *)
Lemma snapshot_lookup_reads (volume : arg volume) :
  calls_only reads
    (match volume with
     | ById v => AzureVolumeService_get P v
     | Obj v => ret (Some v)
     end).
Proof.
  destruct volume; [|footprint].
  unfold AzureVolumeService_get. footprint.
Qed.

Lemma snapshot_lookup_keeps_draws (volume : arg volume) w r w0 :
  (match volume with
   | ById v => AzureVolumeService_get P v
   | Obj v => ret (Some v)
   end) w = (r, w0) ->
  uuids_drawn w0 = uuids_drawn w.
Proof.
  intros H. destruct volume as [v|v].
  - pose proof (volume_get_keeps_draws v w) as Hk. by rewrite H in Hk.
  - by injection H as _ <-.
Qed.

Lemma snapshot_create_run name volume description w vol w0 :
  let native := name +:+ "-" +:+ slice_to 6 (uuid_source (uuids_drawn w)) in
  (match volume with
   | ById v => AzureVolumeService_get P v
   | Obj v => ret (Some v)
   end) w = (Ok (Some vol), w0) ->
  exists rest,
    trace (snd (AzureSnapshotService_create P uuid_source name volume
                  description w))
    = trace w0
      ++ CreateSnapshot native
           (DiskParameters (client_region_name (azure P)) (vol_size vol) "Copy"
              (Some (vol_resource_id vol)) (name_tags name description))
         :: rest
    /\ (rest = [] \/ rest = [GetSnapshot native]).
Proof.
  intros native Hvol.
  pose proof (snapshot_lookup_keeps_draws _ _ _ _ Hvol) as Hu.
  unfold AzureSnapshotService_create. rewrite (bind_ok _ _ _ _ _ Hvol).
  unfold suffixed_name, uuid4_hex, draw. unfold bind at 1 2. cbn [ret].
  rewrite Hu. fold native. two_invokes.
Qed.

Lemma snapshot_create_names name volume description w :
  exists t,
    trace (snd (AzureSnapshotService_create P uuid_source name volume
                  description w)) = trace w ++ t
    /\ Forall (names_snapshot
                 (name +:+ "-" +:+ slice_to 6 (uuid_source (uuids_drawn w)))
                 name) t.
Proof.
  set (native := name +:+ "-" +:+ slice_to 6 (uuid_source (uuids_drawn w))).
  destruct ((match volume with
             | ById v => AzureVolumeService_get P v
             | Obj v => ret (Some v)
             end) w) as [[[vol|]|e] w0] eqn:Hvol;
    destruct (trace_extends reads _ _ _ _ (snapshot_lookup_reads volume) Hvol)
      as (t0 & Ht0 & Hq0).
  - destruct (snapshot_create_run name volume description w vol w0 Hvol)
      as (rest & Ht & Hrest).
    eexists. split; [rewrite Ht, Ht0, <- app_assoc; reflexivity|].
    apply Forall_app. split.
    { eapply Forall_impl; [exact Hq0 | apply reads_names_snapshot]. }
    constructor; [split; [done | apply name_tags_Name]|].
    destruct Hrest as [-> | ->]; repeat constructor.
  - exists t0. unfold AzureSnapshotService_create.
    rewrite (bind_ok _ _ _ _ _ Hvol).
    unfold suffixed_name, uuid4_hex, draw, bind, ret, raise. cbn.
    split; [done|].
    eapply Forall_impl; [exact Hq0 | apply reads_names_snapshot].
  - exists t0. unfold AzureSnapshotService_create.
    rewrite (bind_raise _ _ _ _ _ Hvol). split; [done|].
    eapply Forall_impl; [exact Hq0 | apply reads_names_snapshot].
Qed.

Lemma snapshot_create_backend name volume description w snap w' :
  AzureSnapshotService_create P uuid_source name volume description w
  = (Ok snap, w') ->
  let native := name +:+ "-" +:+ slice_to 6 (uuid_source (uuids_drawn w)) in
  exists params st0 st1,
    create_snapshot (azure P) native params st0 = (Ok tt, st1)
    /\ dp_tags params !! "Name" = Some name
    /\ get_snapshot (azure P) native st1 = (Ok snap, backend w').
Proof.
  intros H native. unfold AzureSnapshotService_create in H.
  apply bind_inv in H as (volo & w0 & Hvol & H).
  apply snapshot_lookup_keeps_draws in Hvol as Hu.
  apply bind_inv in H as (snapshot_name & w1 & Hname & H).
  apply suffixed_name_run in Hname as ([= ->] & Ht1 & _).
  rewrite Hu in H. fold native in H.
  destruct volo as [vol|]; [|discriminate H].
  apply bind_inv in H as (u & w2 & Hcreate & H).
  apply invoke_inv in H as (Hget & _ & _). destruct u.
  apply invoke_inv in Hcreate as (Hop & _ & _).
  eexists _, _, _. split; [eauto|]. split; [apply name_tags_Name | eauto].
Qed.

(** The same for instances. *)
Lemma create_inputs_name name image subnet key_pair w i w1 :
  AzureInstanceService_create_inputs P uuid_source NET SUB name image subnet
    key_pair w = (Ok i, w1) ->
  li_instance_name i
  = name +:+ "-" +:+ slice_to 6 (uuid_source (uuids_drawn w)).
Proof.
  unfold AzureInstanceService_create_inputs, suffixed_name, uuid4_hex, draw.
  intros Hi.
  apply bind_inv in Hi as (n & w0 & Hn & Hi).
  apply bind_inv in Hn as (hex & w00 & Hhex & Hn).
  injection Hhex as <- <-. unfold ret in Hn. injection Hn as <- <-.
  apply bind_inv in Hi as (kp & w2 & _ & Hi).
  apply bind_inv in Hi as (img & w3 & _ & Hi).
  apply bind_inv in Hi as (sn & w4 & _ & Hi).
  unfold ret in Hi. by injection Hi as <- _.
Qed.

Lemma vm_parameters_Name name i instance_type resolved processed user_data
    nic kp img :
  vmp_tags (vm_parameters_of P b64encode name i instance_type resolved
              processed user_data nic kp img) !! "Name" = Some name.
Proof.
  unfold vm_parameters_of. destruct resolved as [[? ?] ?], processed.
  cbn. by simplify_map_eq.
Qed.

Lemma create_launch_names name i instance_type resolved processed user_data :
  calls_only (names_vm (li_instance_name i) name)
    (AzureInstanceService_create_launch P b64encode name i instance_type
       resolved processed user_data).
Proof.
  unfold AzureInstanceService_create_launch.
  apply calls_only_bind; [by apply calls_only_invoke|]. intros nic.
  apply calls_only_bind; [footprint|]. intros kp.
  apply calls_only_bind; [footprint|]. intros img.
  apply calls_only_bind; [|intros u; by apply calls_only_invoke].
  apply calls_only_invoke. split; [done | apply vm_parameters_Name].
Qed.

Lemma instance_create_names name image instance_type subnet zone key_pair sgs
    user_data lc w :
  exists t,
    trace (snd (AzureInstanceService_create P uuid_source b64encode NET SUB
                  name image instance_type subnet zone key_pair sgs user_data
                  lc w)) = trace w ++ t
    /\ Forall (names_vm
                 (name +:+ "-" +:+ slice_to 6 (uuid_source (uuids_drawn w)))
                 name) t.
Proof.
  set (native := name +:+ "-" +:+ slice_to 6 (uuid_source (uuids_drawn w))).
  rewrite create_in_phases. unfold AzureInstanceService_create_by_phases.
  apply calls_at_bind.
  { eapply calls_at_mono; [apply no_launch_names_vm|].
    apply calls_only_at, create_inputs_no_launch. }
  intros i w1 Hi. apply create_inputs_name in Hi. fold native in Hi.
  apply calls_at_bind.
  { eapply calls_at_mono; [apply no_launch_names_vm|].
    apply calls_only_at, resolve_no_launch. }
  intros resolved w2 _.
  apply calls_at_bind.
  { eapply calls_at_mono; [apply no_launch_names_vm|].
    apply calls_only_at, create_devices_no_launch. }
  intros processed w3 _. rewrite <- Hi.
  apply calls_only_at, create_launch_names.
Qed.

Lemma create_launch_sends name i instance_type resolved processed user_data
    kp img nic w st1 :
  li_key_pair i = Some kp -> li_image i = Some img ->
  create_nic (azure P) (li_instance_name i +:+ "_nic")
    (nic_parameters_of P i resolved) (backend w) = (Ok nic, st1) ->
  exists rest,
    trace (snd (AzureInstanceService_create_launch P b64encode name i
                  instance_type resolved processed user_data w))
    = trace w ++ [CreateNic (li_instance_name i +:+ "_nic")
                            (nic_parameters_of P i resolved);
                  CreateVm (li_instance_name i)
                    (vm_parameters_of P b64encode name i instance_type resolved
                       processed user_data nic kp img)] ++ rest
    /\ (rest = [] \/ rest = [GetVm (li_instance_name i)]).
Proof.
  intros Hkp Himg Hnic. unfold AzureInstanceService_create_launch.
  rewrite (bind_ok _ _ _ _ _ (invoke_ok _ _ _ _ _ Hnic)).
  rewrite Hkp, Himg. unfold bind at 1 2. cbn [ret].
  match goal with
  | |- context [bind (invoke ?c1 ?op1) (fun _ => invoke ?c2 ?op2) ?w1] =>
      destruct (invoke_then_invoke c1 c2 op1 op2 w1) as (rest & Ht & Hrest)
  end.
  exists rest. split; [|exact Hrest]. rewrite Ht. cbn [trace].
  by rewrite <- app_assoc.
Qed.

Lemma instance_create_sends name image instance_type subnet zone key_pair sgs
    user_data lc w i w1 resolved w2 processed w3 kp img nic st4 :
  AzureInstanceService_create_inputs P uuid_source NET SUB name image subnet
    key_pair w = (Ok i, w1) ->
  AzureInstanceService__resolve_launch_options P (li_instance_name i)
    (li_subnet i) (zone_id_of zone) sgs w1 = (Ok resolved, w2) ->
  AzureInstanceService_create_devices P uuid_source name lc (snd (fst resolved))
    w2 = (Ok processed, w3) ->
  li_key_pair i = Some kp -> li_image i = Some img ->
  create_nic (azure P) (li_instance_name i +:+ "_nic")
    (nic_parameters_of P i resolved) (backend w3) = (Ok nic, st4) ->
  let native := name +:+ "-" +:+ slice_to 6 (uuid_source (uuids_drawn w)) in
  exists rest,
    trace (snd (AzureInstanceService_create P uuid_source b64encode NET SUB
                  name image instance_type subnet zone key_pair sgs user_data
                  lc w))
    = trace w3 ++ [CreateNic (native +:+ "_nic") (nic_parameters_of P i resolved);
                   CreateVm native
                     (vm_parameters_of P b64encode name i instance_type
                        resolved processed user_data nic kp img)] ++ rest
    /\ (rest = [] \/ rest = [GetVm native]).
Proof.
  intros Hi Hres Hdev Hkp Himg Hnic native.
  rewrite create_in_phases. unfold AzureInstanceService_create_by_phases.
  rewrite (bind_ok _ _ _ _ _ Hi), (bind_ok _ _ _ _ _ Hres),
    (bind_ok _ _ _ _ _ Hdev).
  unfold native. rewrite <- (create_inputs_name _ _ _ _ _ _ _ Hi).
  by eapply create_launch_sends.
Qed.

Lemma instance_create_objects_sends name (img : machine_image) instance_type
    (sn : subnet) zone (kp : key_pair) user_data nic w st1 :
  let native := name +:+ "-" +:+ slice_to 6 (uuid_source (uuids_drawn w)) in
  let i := LaunchInputs native (Some kp) (Some img) (Some sn) in
  let resolved := (subnet_resource_id sn, subnet_zone_id sn, None) in
  create_nic (azure P) (native +:+ "_nic") (nic_parameters_of P i resolved)
    (backend w) = (Ok nic, st1) ->
  exists rest,
    trace (snd (AzureInstanceService_create P uuid_source b64encode NET SUB
                  name (Obj img) instance_type (Some (Obj sn)) zone
                  (Some (Obj kp)) None user_data None w))
    = trace w ++ [CreateNic (native +:+ "_nic") (nic_parameters_of P i resolved);
                  CreateVm native
                    (vm_parameters_of P b64encode name i instance_type
                       resolved (None, None) user_data nic kp img)] ++ rest
    /\ (rest = [] \/ rest = [GetVm native]).
Proof.
  intros native i resolved Hnic.
  exact (instance_create_sends name (Obj img) instance_type (Some (Obj sn))
           zone (Some (Obj kp)) None user_data None w i
           (World (backend w) (trace w) (S (uuids_drawn w))) resolved _
           (None, None) _ kp img nic st1 eq_refl eq_refl eq_refl eq_refl
           eq_refl Hnic).
Qed.

Lemma instance_create_backend name image instance_type subnet zone key_pair sgs
    user_data lc w vm w' :
  AzureInstanceService_create P uuid_source b64encode NET SUB name image
    instance_type subnet zone key_pair sgs user_data lc w = (Ok vm, w') ->
  let native := name +:+ "-" +:+ slice_to 6 (uuid_source (uuids_drawn w)) in
  exists params st0 st1,
    create_vm (azure P) native params st0 = (Ok tt, st1)
    /\ vmp_tags params !! "Name" = Some name
    /\ get_vm (azure P) native st1 = (Ok vm, backend w').
Proof.
  intros H native.
  apply create_ok_phases in H
    as (i & w1 & resolved & w2 & processed & w3 & Hi & _ & _ & H).
  apply create_inputs_name in Hi. fold native in Hi.
  unfold AzureInstanceService_create_launch in H. rewrite Hi in H.
  apply bind_inv in H as (nic & w4 & _ & H).
  apply bind_inv in H as (kp & w5 & _ & H).
  apply bind_inv in H as (img & w6 & _ & H).
  apply bind_inv in H as (u & w7 & Hvm & H).
  apply invoke_inv in Hvm as (Hop & _ & _). destruct u.
  apply invoke_inv in H as (Hget & _ & _).
  eexists _, _, _. split; [exact Hop|].
  split; [apply vm_parameters_Name | exact Hget].
Qed.

(** *** Find after create, on a backend that reads back what was created *)

Lemma tagged_item_found {A} (tags_of : A -> gmap string string)
    (items : list A) (name : string) (x : A) (tags : gmap string string) :
  tags_of x = tags -> tags !! "Name" = Some name ->
  tag_match name name = true -> In x items ->
  In x (filter_by_tag tag_match tags_of items "Name" name).
Proof. intros <- Htag Hm Hin. by eapply filter_by_tag_In. Qed.

Lemma volume_found_after_create name size zone snapshot description w vol w' :
  AzureVolumeService_create P uuid_source name size zone snapshot description w
  = (Ok vol, w') ->
  (forall n p st st' v st'',
      create_empty_disk (azure P) n p st = (Ok tt, st')
      \/ create_snapshot_disk (azure P) n p st = (Ok tt, st') ->
      get_disk (azure P) n st' = (Ok v, st'') -> vol_tags v = dp_tags p) ->
  (forall n st v st',
      get_disk (azure P) n st = (Ok v, st') ->
      exists l st'', list_disks (azure P) st' = (Ok l, st'') /\ In v l) ->
  tag_match name name = true ->
  exists found w3,
    AzureVolumeService_find P tag_match name None None w' = (Ok found, w3)
    /\ In vol (objects found).
Proof.
  intros H Hback Hlist Hm.
  apply volume_create_backend in H as (params & st0 & st1 & Hc & Htag & Hget).
  pose proof (Hback _ _ _ _ _ _ Hc Hget) as Htags.
  destruct (Hlist _ _ _ _ Hget) as (l & st2 & Hl & Hin).
  unfold AzureVolumeService_find.
  rewrite (bind_ok _ _ _ _ _ (invoke_ok _ _ _ _ _ Hl)).
  eexists _, _. split; [reflexivity|]. cbn [objects].
  by eapply tagged_item_found.
Qed.

Lemma snapshot_found_after_create name volume description w snap w' :
  AzureSnapshotService_create P uuid_source name volume description w
  = (Ok snap, w') ->
  (forall n p st st' s st'',
      create_snapshot (azure P) n p st = (Ok tt, st') ->
      get_snapshot (azure P) n st' = (Ok s, st'') -> snap_tags s = dp_tags p) ->
  (forall n st s st',
      get_snapshot (azure P) n st = (Ok s, st') ->
      exists l st'', list_snapshots (azure P) st' = (Ok l, st'') /\ In s l) ->
  tag_match name name = true ->
  exists found w3,
    AzureSnapshotService_find P tag_match name None None w' = (Ok found, w3)
    /\ In snap (objects found).
Proof.
  intros H Hback Hlist Hm.
  apply snapshot_create_backend in H as (params & st0 & st1 & Hc & Htag & Hget).
  pose proof (Hback _ _ _ _ _ _ Hc Hget) as Htags.
  destruct (Hlist _ _ _ _ Hget) as (l & st2 & Hl & Hin).
  unfold AzureSnapshotService_find.
  rewrite (bind_ok _ _ _ _ _ (invoke_ok _ _ _ _ _ Hl)).
  eexists _, _. split; [reflexivity|]. cbn [objects].
  by eapply tagged_item_found.
Qed.

Lemma instance_found_after_create name image instance_type subnet zone
    key_pair sgs user_data lc w vm w' :
  AzureInstanceService_create P uuid_source b64encode NET SUB name image
    instance_type subnet zone key_pair sgs user_data lc w = (Ok vm, w') ->
  (forall n p st st' v st'',
      create_vm (azure P) n p st = (Ok tt, st') ->
      get_vm (azure P) n st' = (Ok v, st'') -> vm_tags v = vmp_tags p) ->
  (forall n st v st',
      get_vm (azure P) n st = (Ok v, st') ->
      exists l st'', list_vm (azure P) st' = (Ok l, st'') /\ In v l) ->
  tag_match name name = true ->
  exists found w3,
    AzureInstanceService_find P tag_match name None None w' = (Ok found, w3)
    /\ In vm (objects found).
Proof.
  intros H Hback Hlist Hm.
  apply instance_create_backend in H as (params & st0 & st1 & Hc & Htag & Hget).
  pose proof (Hback _ _ _ _ _ _ Hc Hget) as Htags.
  destruct (Hlist _ _ _ _ Hget) as (l & st2 & Hl & Hin).
  unfold AzureInstanceService_find.
  rewrite (bind_ok _ _ _ _ _ (invoke_ok _ _ _ _ _ Hl)).
  eexists _, _. split; [reflexivity|]. cbn [objects].
  by eapply tagged_item_found.
Qed.

Lemma snapshot_get_found (ss_id : string) w snap st1 :
  get_snapshot (azure P) ss_id (backend w) = (Ok snap, st1) ->
  AzureSnapshotService_get P ss_id w
  = (Ok (Some snap), World st1 (trace w ++ [GetSnapshot ss_id]) (uuids_drawn w)).
Proof.
  intros H. unfold AzureSnapshotService_get, try_except, bind.
  by rewrite (invoke_ok _ _ _ _ _ H).
Qed.

Lemma volume_get_found (volume_id : string) w vol st1 :
  get_disk (azure P) volume_id (backend w) = (Ok vol, st1) ->
  AzureVolumeService_get P volume_id w
  = (Ok (Some vol), World st1 (trace w ++ [GetDisk volume_id]) (uuids_drawn w)).
Proof.
  intros H. unfold AzureVolumeService_get, try_except, bind.
  by rewrite (invoke_ok _ _ _ _ _ H).
Qed.

(** C10.  For a requested name, the provider-native name under which a
    volume, a snapshot or an instance is created is the requested name,
    a hyphen and the first six hexadecimal digits of a fresh uuid, hence
    never the requested name itself; the requested name is sent as the
    'Name' tag.  This is what a returning [create] has sent; it is what
    every disk, snapshot or machine creation call of any run of [create]
    carries (so that no such call carries the requested name); and it is
    what [create] does send: for a volume right away or after the lookup
    of its snapshot, for a snapshot right away or after the lookup of its
    volume, for an instance after the network interface.  On a backend that
    resolves a native name only to the resource of that name, [get] by the
    requested name never returns the created resource; [find] by the
    requested name returns it as soon as the listing shows it with its
    'Name' tag, which is the case right after [create] on a backend that
    reads back the tags it was sent and lists what it reads back (for a
    matching policy under which a name matches itself). *)
Theorem C10_suffixed_native_names (name : string) w :
  let native := name +:+ "-" +:+ slice_to 6 (uuid_source (uuids_drawn w)) in
  (String.length (slice_to 6 (uuid_source (uuids_drawn w))) = 6
   /\ all_hex (slice_to 6 (uuid_source (uuids_drawn w))) = true
   /\ native <> name)
  /\ (forall size zone snapshot description vol w',
      AzureVolumeService_create P uuid_source name size zone snapshot
        description w = (Ok vol, w') ->
      (exists params,
          (In (CreateEmptyDisk native params) (trace w')
           \/ In (CreateSnapshotDisk native params) (trace w'))
          /\ dp_tags params !! "Name" = Some name)
      /\ ((forall n st v st',
              get_disk (azure P) n st = (Ok v, st') -> vol_id v = n) ->
          vol_id vol = native
          /\ forall w2 found w3,
              AzureVolumeService_get P name w2 = (Ok (Some found), w3) ->
              found <> vol)
      /\ (forall w2 l st,
             list_disks (azure P) (backend w2) = (Ok l, st) ->
             In vol l -> vol_tags vol !! "Name" = Some name ->
             tag_match name name = true ->
             exists found w3,
               AzureVolumeService_find P tag_match name None None w2
               = (Ok found, w3) /\ In vol (objects found)))
  /\ (forall volume description snap w',
      AzureSnapshotService_create P uuid_source name volume description w
      = (Ok snap, w') ->
      (exists params,
          In (CreateSnapshot native params) (trace w')
          /\ dp_tags params !! "Name" = Some name)
      /\ ((forall n st s st',
              get_snapshot (azure P) n st = (Ok s, st') -> snap_id s = n) ->
          snap_id snap = native
          /\ forall w2 found w3,
              AzureSnapshotService_get P name w2 = (Ok (Some found), w3) ->
              found <> snap)
      /\ (forall w2 l st,
             list_snapshots (azure P) (backend w2) = (Ok l, st) ->
             In snap l -> snap_tags snap !! "Name" = Some name ->
             tag_match name name = true ->
             exists found w3,
               AzureSnapshotService_find P tag_match name None None w2
               = (Ok found, w3) /\ In snap (objects found)))
  /\ (forall image instance_type subnet zone key_pair sgs user_data lc vm w',
      AzureInstanceService_create P uuid_source b64encode NET SUB name image
        instance_type subnet zone key_pair sgs user_data lc w = (Ok vm, w') ->
      (exists params,
          In (CreateVm native params) (trace w')
          /\ vmp_tags params !! "Name" = Some name)
      /\ ((forall n st v st',
              get_vm (azure P) n st = (Ok v, st') -> vm_id v = n) ->
          vm_id vm = native
          /\ forall w2 found w3,
              AzureInstanceService_get P name w2 = (Ok (Some found), w3) ->
              found <> vm)
      /\ (forall w2 l st,
             list_vm (azure P) (backend w2) = (Ok l, st) ->
             In vm l -> vm_tags vm !! "Name" = Some name ->
             tag_match name name = true ->
             exists found w3,
               AzureInstanceService_find P tag_match name None None w2
               = (Ok found, w3) /\ In vm (objects found)))
  /\ ((forall size zone snapshot description,
        exists t,
          trace (snd (AzureVolumeService_create P uuid_source name size zone
                        snapshot description w)) = trace w ++ t
          /\ Forall (names_disk native name) t)
      /\ (forall volume description,
        exists t,
          trace (snd (AzureSnapshotService_create P uuid_source name volume
                        description w)) = trace w ++ t
          /\ Forall (names_snapshot native name) t)
      /\ (forall image instance_type subnet zone key_pair sgs user_data lc,
        exists t,
          trace (snd (AzureInstanceService_create P uuid_source b64encode NET
                        SUB name image instance_type subnet zone key_pair sgs
                        user_data lc w)) = trace w ++ t
          /\ Forall (names_vm native name) t))
  /\ ((forall size zone description,
        exists rest,
          trace (snd (AzureVolumeService_create P uuid_source name size zone
                        None description w))
          = trace w
            ++ CreateEmptyDisk native
                 (DiskParameters (or_else (zone_id_of zone) (region_name P))
                    size "empty" None (name_tags name description))
               :: rest
          /\ (rest = [] \/ rest = [GetDisk native]))
      /\ (forall size zone (snap : snapshot) description,
        exists rest,
          trace (snd (AzureVolumeService_create P uuid_source name size zone
                        (Some (Obj snap)) description w))
          = trace w
            ++ CreateSnapshotDisk native
                 (DiskParameters
                    (or_else (zone_id_of zone) (client_region_name (azure P)))
                    None "copy" (Some (snap_resource_id snap))
                    (name_tags name description))
               :: rest
          /\ (rest = [] \/ rest = [GetDisk native]))
      /\ (forall size zone (s : string) (snap : snapshot) st1 description,
        truthy_str s = true ->
        get_snapshot (azure P) s (backend w) = (Ok snap, st1) ->
        exists rest,
          trace (snd (AzureVolumeService_create P uuid_source name size zone
                        (Some (ById s)) description w))
          = trace w
            ++ GetSnapshot s
               :: CreateSnapshotDisk native
                    (DiskParameters
                       (or_else (zone_id_of zone) (client_region_name (azure P)))
                       None "copy" (Some (snap_resource_id snap))
                       (name_tags name description))
               :: rest
          /\ (rest = [] \/ rest = [GetDisk native])))
  /\ ((forall (vol : volume) description,
        exists rest,
          trace (snd (AzureSnapshotService_create P uuid_source name (Obj vol)
                        description w))
          = trace w
            ++ CreateSnapshot native
                 (DiskParameters (client_region_name (azure P)) (vol_size vol)
                    "Copy" (Some (vol_resource_id vol))
                    (name_tags name description))
               :: rest
          /\ (rest = [] \/ rest = [GetSnapshot native]))
      /\ (forall (v : string) (vol : volume) st1 description,
        get_disk (azure P) v (backend w) = (Ok vol, st1) ->
        exists rest,
          trace (snd (AzureSnapshotService_create P uuid_source name (ById v)
                        description w))
          = trace w
            ++ GetDisk v
               :: CreateSnapshot native
                    (DiskParameters (client_region_name (azure P))
                       (vol_size vol) "Copy" (Some (vol_resource_id vol))
                       (name_tags name description))
               :: rest
          /\ (rest = [] \/ rest = [GetSnapshot native])))
  /\ ((forall (img : machine_image) instance_type (sn : subnet) zone
              (kp : key_pair) user_data nic st1,
        let i := LaunchInputs native (Some kp) (Some img) (Some sn) in
        let resolved := (subnet_resource_id sn, subnet_zone_id sn, None) in
        let vmp := vm_parameters_of P b64encode name i instance_type resolved
                     (None, None) user_data nic kp img in
        create_nic (azure P) (native +:+ "_nic")
          (nic_parameters_of P i resolved) (backend w) = (Ok nic, st1) ->
        vmp_tags vmp !! "Name" = Some name
        /\ exists rest,
             trace (snd (AzureInstanceService_create P uuid_source b64encode
                           NET SUB name (Obj img) instance_type (Some (Obj sn))
                           zone (Some (Obj kp)) None user_data None w))
             = trace w ++ [CreateNic (native +:+ "_nic")
                                     (nic_parameters_of P i resolved);
                           CreateVm native vmp] ++ rest
             /\ (rest = [] \/ rest = [GetVm native]))
      /\ (forall image instance_type subnet zone key_pair sgs user_data lc
                 i w1 resolved w2 processed w3 kp img nic st4,
        AzureInstanceService_create_inputs P uuid_source NET SUB name image
          subnet key_pair w = (Ok i, w1) ->
        AzureInstanceService__resolve_launch_options P (li_instance_name i)
          (li_subnet i) (zone_id_of zone) sgs w1 = (Ok resolved, w2) ->
        AzureInstanceService_create_devices P uuid_source name lc
          (snd (fst resolved)) w2 = (Ok processed, w3) ->
        li_key_pair i = Some kp -> li_image i = Some img ->
        create_nic (azure P) (li_instance_name i +:+ "_nic")
          (nic_parameters_of P i resolved) (backend w3) = (Ok nic, st4) ->
        exists rest,
          trace (snd (AzureInstanceService_create P uuid_source b64encode NET
                        SUB name image instance_type subnet zone key_pair sgs
                        user_data lc w))
          = trace w3
            ++ [CreateNic (native +:+ "_nic") (nic_parameters_of P i resolved);
                CreateVm native
                  (vm_parameters_of P b64encode name i instance_type resolved
                     processed user_data nic kp img)] ++ rest
          /\ (rest = [] \/ rest = [GetVm native])))
  /\ ((forall size zone snapshot description vol w',
        AzureVolumeService_create P uuid_source name size zone snapshot
          description w = (Ok vol, w') ->
        (forall n p st st' v st'',
            create_empty_disk (azure P) n p st = (Ok tt, st')
            \/ create_snapshot_disk (azure P) n p st = (Ok tt, st') ->
            get_disk (azure P) n st' = (Ok v, st'') -> vol_tags v = dp_tags p) ->
        (forall n st v st',
            get_disk (azure P) n st = (Ok v, st') ->
            exists l st'', list_disks (azure P) st' = (Ok l, st'') /\ In v l) ->
        tag_match name name = true ->
        exists found w3,
          AzureVolumeService_find P tag_match name None None w' = (Ok found, w3)
          /\ In vol (objects found))
      /\ (forall volume description snap w',
        AzureSnapshotService_create P uuid_source name volume description w
        = (Ok snap, w') ->
        (forall n p st st' s st'',
            create_snapshot (azure P) n p st = (Ok tt, st') ->
            get_snapshot (azure P) n st' = (Ok s, st'') ->
            snap_tags s = dp_tags p) ->
        (forall n st s st',
            get_snapshot (azure P) n st = (Ok s, st') ->
            exists l st'', list_snapshots (azure P) st' = (Ok l, st'')
                           /\ In s l) ->
        tag_match name name = true ->
        exists found w3,
          AzureSnapshotService_find P tag_match name None None w'
          = (Ok found, w3)
          /\ In snap (objects found))
      /\ (forall image instance_type subnet zone key_pair sgs user_data lc vm w',
        AzureInstanceService_create P uuid_source b64encode NET SUB name image
          instance_type subnet zone key_pair sgs user_data lc w = (Ok vm, w') ->
        (forall n p st st' v st'',
            create_vm (azure P) n p st = (Ok tt, st') ->
            get_vm (azure P) n st' = (Ok v, st'') -> vm_tags v = vmp_tags p) ->
        (forall n st v st',
            get_vm (azure P) n st = (Ok v, st') ->
            exists l st'', list_vm (azure P) st' = (Ok l, st'') /\ In v l) ->
        tag_match name name = true ->
        exists found w3,
          AzureInstanceService_find P tag_match name None None w'
          = (Ok found, w3)
          /\ In vm (objects found))).
Proof using uuid_hex_digits.
  intros native.
  assert (Hneq : native <> name) by apply suffixed_name_neq.
  destruct (suffix_six_hex (uuids_drawn w)) as [Hlen Hhex].
  split; [done|].
  split; [|split; [|split; [|split; [|split; [|split; [|split]]]]]].

  - intros size zone snapshot description vol w' H.
    apply volume_create_call in H as (params & Hin & Htag & st & st' & Hget).
    split; [eauto|]. split.
    + intros Hkey. pose proof (Hkey _ _ _ _ Hget) as Hid.
      split; [exact Hid|]. intros w2 found w3 Hfound ->.
      unfold AzureVolumeService_get, try_except, bind, invoke, ret in Hfound.
      destruct (get_disk (azure P) name (backend w2)) as [[v|[]] st2] eqn:E;
        try discriminate Hfound.
      injection Hfound as -> _. apply Hkey in E. unfold native in *. congruence.
    + intros w2 l st2 Hlist Hin' Htag' Hm.
      unfold AzureVolumeService_find, bind, invoke, ret. rewrite Hlist.
      eexists _, _. split; [reflexivity|]. cbn [objects].
      by eapply filter_by_tag_In.
  - intros volume description snap w' H.
    apply snapshot_create_call in H as (params & Hin & Htag & st & st' & Hget).
    split; [eauto|]. split.
    + intros Hkey. pose proof (Hkey _ _ _ _ Hget) as Hid.
      split; [exact Hid|]. intros w2 found w3 Hfound ->.
      unfold AzureSnapshotService_get, try_except, bind, invoke, ret in Hfound.
      destruct (get_snapshot (azure P) name (backend w2)) as [[v|[]] st2] eqn:E;
        try discriminate Hfound.
      injection Hfound as -> _. apply Hkey in E. unfold native in *. congruence.
    + intros w2 l st2 Hlist Hin' Htag' Hm.
      unfold AzureSnapshotService_find, bind, invoke, ret. rewrite Hlist.
      eexists _, _. split; [reflexivity|]. cbn [objects].
      by eapply filter_by_tag_In.
  - intros image instance_type subnet zone key_pair sgs user_data lc vm w' H.
    apply instance_create_call in H as (params & Hin & Htag & st & st' & Hget).
    split; [eauto|]. split.
    + intros Hkey. pose proof (Hkey _ _ _ _ Hget) as Hid.
      split; [exact Hid|]. intros w2 found w3 Hfound ->.
      unfold AzureInstanceService_get, try_except, bind, invoke, ret in Hfound.
      destruct (get_vm (azure P) name (backend w2)) as [[v|[]] st2] eqn:E;
        try discriminate Hfound.
      injection Hfound as -> _. apply Hkey in E. unfold native in *. congruence.
    + intros w2 l st2 Hlist Hin' Htag' Hm.
      unfold AzureInstanceService_find, bind, invoke, ret. rewrite Hlist.
      eexists _, _. split; [reflexivity|]. cbn [objects].
      by eapply filter_by_tag_In.
  - split; [|split].
    + intros. apply volume_create_names.
    + intros. apply snapshot_create_names.
    + intros. apply instance_create_names.
  - split; [|split].
    + intros size zone description.
      exact (volume_create_run name size zone None description w None w eq_refl).
    + intros size zone snap description.
      exact (volume_create_run name size zone (Some (Obj snap)) description w
               (Some snap) w eq_refl).
    + intros size zone s snap st1 description Hs Hget.
      destruct (volume_create_run name size zone (Some (ById s)) description w
                  (Some snap)
                  (World st1 (trace w ++ [GetSnapshot s]) (uuids_drawn w)))
        as (rest & Ht & Hrest).
      { rewrite Hs. by apply snapshot_get_found. }
      exists rest. split; [|exact Hrest]. rewrite Ht. cbn [trace].
      by rewrite <- app_assoc.
  - split.
    + intros vol description.
      exact (snapshot_create_run name (Obj vol) description w vol w eq_refl).
    + intros v vol st1 description Hget.
      destruct (snapshot_create_run name (ById v) description w vol _
                  (volume_get_found v w vol st1 Hget)) as (rest & Ht & Hrest).
      exists rest. split; [|exact Hrest]. rewrite Ht. cbn [trace].
      by rewrite <- app_assoc.
  - split.
    + intros img instance_type sn zone kp user_data nic st1 i resolved vmp Hnic.
      split; [apply vm_parameters_Name|].
      by eapply instance_create_objects_sends.
    + intros image instance_type subnet zone key_pair sgs user_data lc
        i w1 resolved w2 processed w3 kp img nic st4 Hi Hres Hdev Hkp Himg Hnic.
      by eapply instance_create_sends.
  - split; [|split].
    + intros size zone snapshot description vol w'.
      apply volume_found_after_create.
    + intros volume description snap w'. apply snapshot_found_after_create.
    + intros image instance_type subnet zone key_pair sgs user_data lc vm w'.
      apply instance_found_after_create.
Qed.

End Naming.

(** *** Further properties of the Azure services *)

(** X1.  [get] of a volume: a CloudError of the client is never raised but
    answered with None, and None is returned in no other case; a volume
    the client finds is returned; any other exception of the client
    propagates unchanged; exactly one client call is made. *)
Theorem volume_get_outcomes (volume_id : string) w :
  (forall m, fst (AzureVolumeService_get P volume_id w) <> Raise (CloudError m))
  /\ (fst (AzureVolumeService_get P volume_id w) = Ok None <->
      exists m, fst (get_disk (azure P) volume_id (backend w))
                = Raise (CloudError m))
  /\ (forall v, fst (get_disk (azure P) volume_id (backend w)) = Ok v ->
                fst (AzureVolumeService_get P volume_id w) = Ok (Some v))
  /\ (forall e, fst (get_disk (azure P) volume_id (backend w)) = Raise e ->
                (forall m, e <> CloudError m) ->
                fst (AzureVolumeService_get P volume_id w) = Raise e)
  /\ trace (snd (AzureVolumeService_get P volume_id w))
     = trace w ++ [GetDisk volume_id].
Proof.
  unfold AzureVolumeService_get, bind, try_except, invoke, ret.
  destruct (get_disk (azure P) volume_id (backend w)) as [[v|e] st];
    cbn.
  - repeat split; try done.
    + intros (m & ?). done.
    + by intros v' [= ->].
  - destruct e; cbn; repeat split; try done; eauto;
      try (by intros (m' & ?));
      try (by intros e' [= <-] He; try done; exfalso; eapply He).
Qed.

(** X2.  Without a key pair (None or an empty identifier) [create] raises the
    "Keypair required" exception before any client call: the world only
    records the uuid drawn for the instance name. *)
Theorem create_requires_key_pair name image instance_type subnet zone
    (key_pair : option (arg key_pair)) sgs user_data lc w :
  truthy_arg key_pair = false ->
  AzureInstanceService_create P uuid_source b64encode NET SUB name image
    instance_type subnet zone key_pair sgs user_data lc w
  = (Raise (PyException KEYPAIR_REQUIRED),
     World (backend w) (trace w) (S (uuids_drawn w))).
Proof.
  intros Hk. unfold AzureInstanceService_create, suffixed_name, uuid4_hex, draw,
    bind, ret.
  destruct key_pair as [[k|kp]|]; try discriminate Hk; [|done].
  cbn in Hk. by rewrite Hk.
Qed.

Lemma startswith_append (p s : string) : startswith (p +:+ s) p = true.
Proof. apply prefix_append. Qed.

(** X3.  The user data handed to the machine: preparing it twice changes nothing
    more, non-empty data always leaves with a '#!' or '#cloud-config'
    header, and a shell script is passed on as it is. *)
Theorem cloud_init_header (user_data : option string) :
  cloud_init_user_data (cloud_init_user_data user_data)
  = cloud_init_user_data user_data
  /\ (forall u, user_data = Some u -> truthy_str u = true ->
        exists sent, cloud_init_user_data user_data = Some sent
                     /\ (startswith sent "#!" = true
                         \/ startswith sent "#cloud-config" = true)
                     /\ (startswith u "#!" = true -> sent = u)).
Proof.
  split.
  - destruct user_data as [u|]; [|done]. unfold cloud_init_user_data.
    destruct (truthy_str u && negb (startswith u "#!")
              && negb (startswith u "#cloud-config")) eqn:E; [|by rewrite E].
    by rewrite (startswith_append "#cloud-config"), andb_false_r.
  - intros u -> Hu. unfold cloud_init_user_data. rewrite Hu. cbn [andb].
    destruct (startswith u "#!") eqn:E1; cbn [negb andb].
    + exists u. eauto.
    + destruct (startswith u "#cloud-config") eqn:E2; cbn [negb].
      * exists u. split; [done|]. split; [by right | done].
      * eexists. split; [done|]. split; [|done]. right.
        apply startswith_append.
Qed.

Lemma attach_volume_result dsk c (vol : volume) dot w d' w' :
  attach_volume P dsk c vol dot w = (Ok d', w') ->
  d' = dsk ++ [DataDisk c (vol_id vol) "attach" (vol_resource_id vol)].
Proof.
  unfold attach_volume. intros H.
  apply bind_inv in H as (u & w1 & _ & H). by injection H as <- _.
Qed.

Lemma luns_ok_attach st (vol : volume) :
  luns_ok st ->
  luns_ok (BdmState
             (disks st ++ [DataDisk (volumes_count st) (vol_id vol) "attach"
                                    (vol_resource_id vol)])
             (S (volumes_count st)) (root_disk_size st)).
Proof.
  intros (Hs & Hb & Ho). unfold luns_ok. cbn [disks volumes_count].
  split; [|split].
  - rewrite map_app. cbn. apply sorted_snoc; [done|].
    by apply Forall_map.
  - apply Forall_app. split.
    + eapply Forall_impl; [exact Hb|]. cbn. lia.
    + repeat constructor.
  - apply Forall_app. split; [done|]. by repeat constructor.
Qed.

Lemma luns_ok_skip st root :
  luns_ok st -> luns_ok (BdmState (disks st) (S (volumes_count st)) root).
Proof.
  intros (Hs & Hb & Ho). unfold luns_ok. cbn [disks volumes_count].
  split; [done|]. split; [|done].
  eapply Forall_impl; [exact Hb|]. cbn. lia.
Qed.

Lemma process_device_luns vm_name zone st (d : launch_device) w st' w' :
  process_device P uuid_source vm_name zone st d w = (Ok st', w') ->
  luns_ok st -> luns_ok st'.
Proof.
  unfold process_device. intros H Hok.
  destruct (is_volume d); [|by injection H as <- _].
  destruct (is_root d); cbn [negb] in H.
  { injection H as <- _. destruct Hok as (? & ? & ?). by repeat split. }
  apply bind_inv in H as (dsk & w1 & Hd & H). injection H as <- _.
  destruct (source d) as [|snap|vol|img].
  - destruct (negb (truthy_opt_str zone)); [discriminate Hd|].
    apply bind_inv in Hd as (hex & w2 & _ & Hd).
    apply bind_inv in Hd as (new_vol & w3 & _ & Hd).
    apply attach_volume_result in Hd as ->. by apply luns_ok_attach.
  - apply bind_inv in Hd as (snapshot_vol & w2 & _ & Hd).
    apply attach_volume_result in Hd as ->. by apply luns_ok_attach.
  - apply attach_volume_result in Hd as ->. by apply luns_ok_attach.
  - injection Hd as <- _. by apply luns_ok_skip.
Qed.

Lemma for_each_luns vm_name zone (ds : list launch_device) st w st' w' :
  for_each ds (process_device P uuid_source vm_name zone) st w = (Ok st', w') ->
  luns_ok st -> luns_ok st'.
Proof.
  revert st w. induction ds as [|d ds IH]; intros st w H Hok.
  - by injection H as <- _.
  - cbn [for_each] in H. apply bind_inv in H as (st1 & w1 & H1 & H).
    eapply IH; [exact H|]. by eapply process_device_luns.
Qed.

(** X4.  The data disks that block device processing returns carry strictly
    increasing, hence pairwise distinct, logical unit numbers, and each is
    an 'attach' entry. *)
Theorem data_disk_luns_increase (lc : launch_config) vm_name zone w dsks root w' :
  AzureInstanceService__process_block_device_mappings P uuid_source lc vm_name
    zone w = (Ok (dsks, root), w') ->
  StronglySorted lt (map lun dsks)
  /\ NoDup (map lun dsks)
  /\ Forall (fun d => dd_create_option d = "attach") dsks.
Proof.
  unfold AzureInstanceService__process_block_device_mappings. intros H.
  apply bind_inv in H as (final & w1 & Hloop & H). injection H as <- <- _.
  apply for_each_luns in Hloop as (Hs & Hb & Ho).
  - split; [done|]. split; [|done].
    clear -Hs. induction Hs as [|a l Hs IH Ha]; constructor; [|done].
    intros Hin. rewrite Forall_forall in Ha. apply Ha in Hin. lia.
  - repeat split; constructor.
Qed.

(** X5.  get_or_create_default when the default subnet is not there: if the
    default network exists, the subnet 10.0.1.0/24 is created in it and no
    network is created; if it does not, the default network is first
    created under its fixed name with the address space 10.0.0.0/16 and
    looked up, then the subnet is created. *)
Theorem default_subnet_creation w m st1 :
  get_subnet (azure P) NET SUB (backend w) = (Raise (CloudError m), st1) ->
  (forall n st2,
      get_network (azure P) NET st1 = (Ok n, st2) ->
      AzureSubnetService_get_or_create_default P uuid_source NET SUB w
      = invoke (CreateSubnet NET SUB (SubnetParameters "10.0.1.0/24"))
               (create_subnet (azure P) NET SUB (SubnetParameters "10.0.1.0/24"))
               (World st2 (trace w ++ [GetSubnet NET SUB; GetNetwork NET])
                      (uuids_drawn w)))
  /\ (forall m' st2 st3 n st4,
      get_network (azure P) NET st1 = (Raise (CloudError m'), st2) ->
      create_network (azure P) NET
        (NetworkParameters (client_region_name (azure P)) ["10.0.0.0/16"]
                           {[ "Name" := NET ]}) st2 = (Ok tt, st3) ->
      get_network (azure P) NET st3 = (Ok n, st4) ->
      AzureSubnetService_get_or_create_default P uuid_source NET SUB w
      = invoke (CreateSubnet NET SUB (SubnetParameters "10.0.1.0/24"))
               (create_subnet (azure P) NET SUB (SubnetParameters "10.0.1.0/24"))
               (World st4
                  (trace w ++ [GetSubnet NET SUB; GetNetwork NET;
                               CreateNetwork NET
                                 (NetworkParameters (client_region_name (azure P))
                                    ["10.0.0.0/16"] {[ "Name" := NET ]});
                               GetNetwork NET])
                  (uuids_drawn w))).
Proof.
  intros Hs. split.
  - intros n st2 Hn.
    unfold AzureSubnetService_get_or_create_default, bind, try_except, invoke.
    rewrite Hs. cbn. rewrite Hn. cbn. by rewrite <- !app_assoc.
  - intros m' st2 st3 n st4 Hn Hc Hn2.
    unfold AzureSubnetService_get_or_create_default, AzureNetworkService_create,
      bind, try_except, invoke.
    rewrite Hs. cbn. rewrite Hn. cbn. rewrite Hc. cbn. rewrite Hn2. cbn.
    by rewrite <- !app_assoc.
Qed.

(** X6.  An identifier without the delimiter is not a subnet identifier: [get]
    and [delete] raise IndexError, which their CloudError handler does not
    catch, without any client call. *)
Theorem subnet_id_without_delimiter (subnet_id : string) w :
  contains "|$|" subnet_id = false ->
  AzureSubnetService_get P subnet_id w
  = (Raise (IndexError "list index out of range"), w)
  /\ AzureSubnetService_delete P (ById subnet_id) w
     = (Raise (IndexError "list index out of range"), w).
Proof.
  intros H. unfold AzureSubnetService_get, AzureSubnetService_delete, split.
  rewrite (split_scan_no_match _ _ _ H). done.
Qed.

(** X7.  [get] of a region goes through the listing of the locations: it
    returns a location of the listing with the wanted name, None when no
    location has that name, and the client's exception when listing fails. *)
Theorem region_get_finds_by_name (region_id : string) w :
  match fst (AzureRegionService_get P region_id w) with
  | Ok (Some r) =>
      region_name_of r = region_id
      /\ exists l, fst (list_locations (azure P) (backend w)) = Ok l /\ In r l
  | Ok None =>
      exists l, fst (list_locations (azure P) (backend w)) = Ok l
                /\ Forall (fun r => region_name_of r <> region_id) l
  | Raise e => fst (list_locations (azure P) (backend w)) = Raise e
  end.
Proof.
  unfold AzureRegionService_get, bind, invoke, ret.
  destruct (list_locations (azure P) (backend w)) as [[l|e] st]; cbn; [|done].
  destruct (List.find _ l) as [r|] eqn:E.
  - apply find_some in E as [Hin Heq]. apply String.eqb_eq in Heq. eauto.
  - exists l. split; [done|]. apply Forall_forall. intros r Hin Heq.
    apply list_elem_of_In in Hin.
    eapply find_none in E; [|exact Hin]. cbn in E.
    apply String.eqb_neq in E. done.
Qed.

(** X8.  Creating a key pair under a free name stores one entity, with the fixed
    partition key, a fresh uuid as row key, the requested name and the
    generated public key; the key pair returned is the stored entity as
    read back, carrying the generated private key as its material. *)
Theorem key_pair_create_stores_entity (name : string) w st1 st2 entity st3 :
  let stored := PublicKeyEntity PARTITION_KEY
                  (uuid_str (uuid_source (S (uuids_drawn w)))) name
                  (snd (gen_key_pair (uuids_drawn w))) in
  get_public_key (azure P) name (backend w) = (Ok None, st1) ->
  create_public_key (azure P) stored st1 = (Ok tt, st2) ->
  get_public_key (azure P) name st2 = (Ok (Some entity), st3) ->
  AzureKeyPairService_create P uuid_source gen_key_pair name w
  = (Ok (AzureKeyPair entity (Some (fst (gen_key_pair (uuids_drawn w))))),
     World st3 (trace w ++ [GetPublicKey name; CreatePublicKey stored;
                            GetPublicKey name])
           (S (S (uuids_drawn w)))).
Proof.
  intros stored H1 H2 H3.
  unfold AzureKeyPairService_create, AzureKeyPairService_get, bind, try_except,
    invoke, draw, uuid4_hex, ret.
  rewrite H1. cbn. destruct (gen_key_pair (uuids_drawn w)) as [priv pub] eqn:E.
  cbn. subst stored. cbn in H2. rewrite H2. cbn. rewrite H3. cbn.
  by rewrite <- !app_assoc.
Qed.

(** X9.  A snapshot of a volume identifier that does not resolve fails with
    AttributeError after the lookup, and no snapshot is requested. *)
Theorem snapshot_of_missing_volume (name volume_id : string) description w m st :
  get_disk (azure P) volume_id (backend w) = (Raise (CloudError m), st) ->
  AzureSnapshotService_create P uuid_source name (ById volume_id) description w
  = (Raise (AttributeError "'NoneType' object has no attribute 'resource_id'"),
     World st (trace w ++ [GetDisk volume_id]) (S (uuids_drawn w))).
Proof.
  intros H. unfold AzureSnapshotService_create, AzureVolumeService_get,
    suffixed_name, uuid4_hex, draw, bind, try_except, invoke, ret.
  rewrite H. reflexivity.
Qed.

(** X10.  A key pair identifier that does not resolve makes [create] fail with
    AttributeError only once the network interface has been created: the
    interface is left behind and no virtual machine is requested. *)
Theorem unresolved_key_pair_fails_after_nic name (image : machine_image)
    instance_type (sn : subnet) zone (key_pair_id : string) user_data w st1
    nic st2 :
  let iname := name +:+ "-" +:+ slice_to 6 (uuid_source (uuids_drawn w)) in
  let nicp := NicParameters (region_name P) (iname +:+ "_ip_config") "Dynamic"
                (subnet_resource_id sn) None in
  truthy_str key_pair_id = true ->
  get_public_key (azure P) key_pair_id (backend w) = (Ok None, st1) ->
  create_nic (azure P) (iname +:+ "_nic") nicp st1 = (Ok nic, st2) ->
  AzureInstanceService_create P uuid_source b64encode NET SUB name (Obj image)
    instance_type (Some (Obj sn)) zone (Some (ById key_pair_id)) None user_data
    None w
  = (Raise (AttributeError "'NoneType' object has no attribute '_key_pair'"),
     World st2 (trace w ++ [GetPublicKey key_pair_id; CreateNic (iname +:+ "_nic") nicp])
           (S (uuids_drawn w))).
Proof.
  intros iname nicp Hk Hget Hnic.
  unfold AzureInstanceService_create, AzureKeyPairService_get,
    AzureInstanceService__resolve_launch_options,
    suffixed_name, uuid4_hex, draw, bind, try_except, invoke, ret.
  rewrite Hk. cbn. rewrite Hget. cbn. fold iname. fold nicp. rewrite Hnic. cbn.
  by rewrite <- !app_assoc.
Qed.

(** X11.  The delete operations of security groups, networks and subnets never
    raise CloudError; for networks, False is returned exactly when the
    client raised CloudError and True exactly when the client's delete
    went through. *)
Theorem delete_reports_cloud_error_as_false (id : string) (sn : arg subnet) w :
  (forall m, fst (AzureSecurityGroupService_delete P id w) <> Raise (CloudError m))
  /\ (forall m, fst (AzureNetworkService_delete P id w) <> Raise (CloudError m))
  /\ (forall m, fst (AzureSubnetService_delete P sn w) <> Raise (CloudError m))
  /\ (fst (AzureNetworkService_delete P id w) = Ok false <->
      exists m, fst (delete_network (azure P) id (backend w)) = Raise (CloudError m))
  /\ (fst (AzureNetworkService_delete P id w) = Ok true <->
      fst (delete_network (azure P) id (backend w)) = Ok tt).
Proof.
  split; [|split; [|split]].
  - intros m. unfold AzureSecurityGroupService_delete, bind, try_except, invoke, ret.
    by destruct (delete_security_group _ _ _) as [[u|[]] st].
  - intros m. unfold AzureNetworkService_delete, bind, try_except, invoke, ret.
    by destruct (delete_network _ _ _) as [[u|[]] st].
  - intros m. unfold AzureSubnetService_delete, bind, try_except, invoke, ret, index.
    destruct (split _ _ !! 0) as [n|]; [|done]. cbn.
    destruct (split _ _ !! 1) as [s|]; [|done]. cbn.
    by destruct (delete_subnet _ _ _ _) as [[u|[]] st].
  - unfold AzureNetworkService_delete, bind, try_except, invoke, ret.
    destruct (delete_network _ _ _) as [[[]|e] st]; [|destruct e]; cbn;
      (split; split; intros H; try done; try (by destruct H as (m' & H));
       eauto).
Qed.

(** X20.  The lookups of the Azure services (get, list and find of every
    service, the listings of floating addresses and regions) only read:
    none of the client calls they make changes the backend. *)
Theorem azure_lookups_only_read (id : string) (limit : option nat)
    (marker : option string) (network : option (arg network)) :
  calls_only reads (AzureSecurityGroupService_get P id)
  /\ calls_only reads (AzureSecurityGroupService_list P limit marker)
  /\ calls_only reads (AzureSecurityGroupService_find P tag_match id limit marker)
  /\ calls_only reads (AzureKeyPairService_get P id)
  /\ calls_only reads (AzureKeyPairService_list P limit marker)
  /\ calls_only reads (AzureKeyPairService_find P id limit marker)
  /\ calls_only reads (AzureObjectStoreService_get P id)
  /\ calls_only reads (AzureObjectStoreService_find P id limit marker)
  /\ calls_only reads (AzureObjectStoreService_list P limit marker)
  /\ calls_only reads (AzureVolumeService_get P id)
  /\ calls_only reads (AzureVolumeService_find P tag_match id limit marker)
  /\ calls_only reads (AzureVolumeService_list P limit marker)
  /\ calls_only reads (AzureSnapshotService_get P id)
  /\ calls_only reads (AzureSnapshotService_find P tag_match id limit marker)
  /\ calls_only reads (AzureSnapshotService_list P limit marker)
  /\ calls_only reads (AzureInstanceService_get P id)
  /\ calls_only reads (AzureInstanceService_find P tag_match id limit marker)
  /\ calls_only reads (AzureInstanceService_list P limit marker)
  /\ calls_only reads (AzureImageService_get P id)
  /\ calls_only reads (AzureImageService_find P tag_match id limit marker)
  /\ calls_only reads (AzureImageService_list P limit marker)
  /\ calls_only reads (AzureInstanceTypesService_list P limit marker)
  /\ calls_only reads (AzureNetworkService_get P id)
  /\ calls_only reads (AzureNetworkService_list P limit marker)
  /\ calls_only reads (AzureNetworkService_floating_ips P)
  /\ calls_only reads (AzureRegionService_get P id)
  /\ calls_only reads (AzureRegionService_list P limit marker)
  /\ calls_only reads (AzureRegionService_current P)
  /\ calls_only reads (AzureSubnetService_get P id)
  /\ calls_only reads (AzureSubnetService_list P network limit marker).
Proof.
  unfold AzureSecurityGroupService_get, AzureSecurityGroupService_list,
    AzureSecurityGroupService_find, AzureKeyPairService_find,
    AzureKeyPairService_get, AzureKeyPairService_list,
    AzureObjectStoreService_get, AzureObjectStoreService_find,
    AzureObjectStoreService_list, AzureVolumeService_get,
    AzureVolumeService_find, AzureVolumeService_list,
    AzureSnapshotService_get, AzureSnapshotService_find,
    AzureSnapshotService_list, AzureInstanceService_get,
    AzureInstanceService_find, AzureInstanceService_list,
    AzureImageService_get, AzureImageService_find, AzureImageService_list,
    AzureInstanceTypesService_list, AzureNetworkService_get,
    AzureNetworkService_list, AzureNetworkService_floating_ips,
    AzureRegionService_current, AzureRegionService_get, AzureRegionService_list,
    AzureSubnetService_get, AzureSubnetService_list,
    AzureSubnetService__list_subnets.
  repeat split; footprint.
Qed.

Lemma list_subnets_loop (nets : list network) acc w r w' :
  for_each nets
    (fun result_list net =>
       bind (invoke (ListSubnets (net_name net))
                    (list_subnets (azure P) (net_name net)))
            (fun more => ret (result_list ++ more)))
    acc w = (Ok r, w') ->
  trace w' = trace w ++ map (fun n => ListSubnets (net_name n)) nets
  /\ exists parts,
       Forall2 (fun n part =>
                  exists st st',
                    list_subnets (azure P) (net_name n) st = (Ok part, st'))
               nets parts
       /\ r = acc ++ concat parts.
Proof.
  revert acc w. induction nets as [|n nets IH]; intros acc w H.
  - injection H as <- <-. rewrite app_nil_r. split; [done|].
    exists []. by rewrite app_nil_r.
  - cbn [for_each] in H. apply bind_inv in H as (acc1 & w1 & H1 & H).
    apply bind_inv in H1 as (more & w0 & Hinv & H1). injection H1 as <- <-.
    apply invoke_inv in Hinv as (Hop & Hw0 & _).
    apply IH in H as (Ht & parts & Hparts & ->).
    split; [by rewrite Ht, Hw0, <- app_assoc|].
    exists (more :: parts). split; [|by cbn; rewrite app_assoc].
    constructor; [eauto | done].
Qed.

(** X21.  Without a network, [_list_subnets] lists the networks once and then
    the subnets of every network of that listing, in order and by the
    network's name; what it returns is the concatenation of those listings. *)
Theorem subnets_of_all_networks w r w' :
  AzureSubnetService__list_subnets P None w = (Ok r, w') ->
  exists nets st parts,
    list_networks (azure P) (backend w) = (Ok nets, st)
    /\ trace w' = trace w ++ ListNetworks
                           :: map (fun n => ListSubnets (net_name n)) nets
    /\ Forall2 (fun n part =>
                  exists st st',
                    list_subnets (azure P) (net_name n) st = (Ok part, st'))
               nets parts
    /\ r = concat parts.
Proof.
  unfold AzureSubnetService__list_subnets. intros H.
  apply bind_inv in H as (nets & w1 & Hinv & H).
  apply invoke_inv in Hinv as (Hop & Hw1 & _).
  apply list_subnets_loop in H as (Ht & parts & Hparts & ->).
  exists nets, (backend w1), parts.
  split; [exact Hop|]. split; [by rewrite Ht, Hw1, <- app_assoc|done].
Qed.

(** X24.  What a volume is created from.  With a snapshot object, the disk
    is requested as a copy of the snapshot and the requested size is not
    sent.  With a snapshot identifier that does not resolve, the lookup is
    followed by the request for an empty disk of the requested size, as
    when no snapshot is given: the missing snapshot is not reported.  In
    each case the disk is read back when its creation went through. *)
Theorem volume_create_source (name : string) (size : option Z) zone description w :
  let native := name +:+ "-" +:+ slice_to 6 (uuid_source (uuids_drawn w)) in
  let tags := name_tags name description in
  (forall (s : snapshot),
      exists rest,
        trace (snd (AzureVolumeService_create P uuid_source name size zone
                      (Some (Obj s)) description w))
        = trace w ++ CreateSnapshotDisk native
                       (DiskParameters
                          (or_else (zone_id_of zone) (client_region_name (azure P)))
                          None "copy" (Some (snap_resource_id s)) tags)
                     :: rest
        /\ (rest = [] \/ rest = [GetDisk native]))
  /\ (forall snapshot_id m st,
      truthy_str snapshot_id = true ->
      get_snapshot (azure P) snapshot_id (backend w) = (Raise (CloudError m), st) ->
      exists rest,
        trace (snd (AzureVolumeService_create P uuid_source name size zone
                      (Some (ById snapshot_id)) description w))
        = trace w ++ GetSnapshot snapshot_id
                     :: CreateEmptyDisk
                          (name +:+ "-" +:+ slice_to 6 (uuid_source (uuids_drawn w)))
                          (DiskParameters
                             (or_else (zone_id_of zone) (region_name P))
                             size "empty" None tags)
                     :: rest
        /\ (rest = [] \/ rest = [GetDisk native]))
  /\ (exists rest,
        trace (snd (AzureVolumeService_create P uuid_source name size zone
                      None description w))
        = trace w ++ CreateEmptyDisk native
                       (DiskParameters
                          (or_else (zone_id_of zone) (region_name P))
                          size "empty" None tags)
                     :: rest
        /\ (rest = [] \/ rest = [GetDisk native])).
Proof.
  intros native tags. split; [|split].
  - intros s. unfold AzureVolumeService_create, suffixed_name, uuid4_hex, draw,
      bind, invoke, ret. cbn. fold native. fold tags.
    destruct (create_snapshot_disk _ _ _ _) as [[u|e] st]; cbn.
    + destruct (get_disk _ _ _) as [r st']. cbn. exists [GetDisk native].
      split; [by rewrite <- app_assoc | by right].
    + exists []. split; [done | by left].
  - intros snapshot_id m st Hs Hget.
    unfold AzureVolumeService_create, AzureSnapshotService_get, suffixed_name,
      uuid4_hex, draw, bind, try_except, invoke, ret. rewrite Hs, Hget. cbn.
    fold native. fold tags.
    destruct (create_empty_disk _ _ _ _) as [[u|e] st1]; cbn.
    + destruct (get_disk _ _ _) as [r st']. cbn. exists [GetDisk native].
      split; [by rewrite <- !app_assoc | by right].
    + exists []. split; [by rewrite <- !app_assoc | by left].
  - unfold AzureVolumeService_create, suffixed_name, uuid4_hex, draw,
      bind, invoke, ret. cbn. fold native. fold tags.
    destruct (create_empty_disk _ _ _ _) as [[u|e] st]; cbn.
    + destruct (get_disk _ _ _) as [r st']. cbn. exists [GetDisk native].
      split; [by rewrite <- app_assoc | by right].
    + exists []. split; [done | by left].
Qed.

(** X25.  The name under which a network is created: the requested name
    with a hyphen and six digits of a fresh uuid when a name is given, the
    fixed default name, without any suffix and without drawing a uuid, when
    it is not; the 'Name' tag is the requested name, or the default name.
    The address space is 10.0.0.0/16, and the network is read back when its
    creation went through. *)
Theorem network_create_naming (name : option string) w :
  let named := match name with Some n => truthy_str n | None => false end in
  let native :=
    if named
    then or_else name NET +:+ "-" +:+ slice_to 6 (uuid_source (uuids_drawn w))
    else NET in
  let params := NetworkParameters (client_region_name (azure P)) ["10.0.0.0/16"]
                  {[ "Name" := or_else name NET ]} in
  let run := AzureNetworkService_create P uuid_source NET name w in
  (exists rest,
      trace (snd run) = trace w ++ CreateNetwork native params :: rest
      /\ (rest = [] \/ rest = [GetNetwork native]))
  /\ uuids_drawn (snd run) = (if named then S (uuids_drawn w) else uuids_drawn w)
  /\ (named = false -> native = NET).
Proof.
  intros named native params run. subst run named native params.
  unfold AzureNetworkService_create, suffixed_name, uuid4_hex, draw, bind,
    invoke, ret.
  destruct name as [n|]; [destruct (truthy_str n) eqn:Hn|];
    cbn; rewrite ?Hn; cbn;
    (destruct (create_network _ _ _ _) as [[u|e] st]; cbn;
     [ destruct (get_network _ _ _) as [r st']; cbn; split; [|done];
       eexists; split; [by rewrite <- app_assoc | by right]
     | split; [|done]; exists []; split; [done | by left] ]).
Qed.

End Facts.

End AzureFacts.

(** ** The OpenStack services *)
Module OpenStackFacts.
Import Py PyFacts OpenStack.

Section Facts.
Context {St : Type} (cl : clients St).
Variable valid_resource_name : resource_class -> string -> bool.
Variable page : forall A : Type, ClientPagedResultList A -> list A.
Variables NET SUB ROUTER GATEWAY : string.
Implicit Types w : world St call.

Lemma subnet_find_run (name : string) w l st :
  list_subnets cl (backend w) = (Ok l, st) ->
  OpenStackSubnetService_find cl name w
  = (Ok (List.filter (fun s => String.eqb (subnet_name s) name) l),
     World st (trace w ++ [ListSubnets]) (uuids_drawn w)).
Proof.
  intros H. unfold OpenStackSubnetService_find, OpenStackSubnetService_iter,
    OpenStackSubnetService_list_unfiltered, bind, invoke, ret.
  by rewrite H.
Qed.

Lemma default_subnet_found w l st sn rest :
  list_subnets cl (backend w) = (Ok l, st) ->
  List.filter (fun s => String.eqb (subnet_name s) SUB) l = sn :: rest ->
  OpenStackSubnetService_get_or_create_default cl valid_resource_name
    NET SUB ROUTER GATEWAY w
  = (Ok (Some sn), World st (trace w ++ [ListSubnets]) (uuids_drawn w)).
Proof.
  intros Hl Hf. unfold OpenStackSubnetService_get_or_create_default, try_except.
  unfold bind at 1. rewrite (subnet_find_run _ _ _ _ Hl), Hf. reflexivity.
Qed.

(** X12.  [get] of a key pair: NovaNotFound is never raised but answered with
    None, and None is returned in no other case; a key pair the client
    finds is returned; any other exception of the client propagates
    unchanged; exactly one client call is made. *)
Theorem keypair_get_outcomes (key_pair_id : string) w :
  (forall m, fst (OpenStackKeyPairService_get cl key_pair_id w)
             <> Raise (NovaNotFound m))
  /\ (fst (OpenStackKeyPairService_get cl key_pair_id w) = Ok None <->
      exists m, fst (keypairs_get cl key_pair_id (backend w))
                = Raise (NovaNotFound m))
  /\ (forall kp, fst (keypairs_get cl key_pair_id (backend w)) = Ok kp ->
                 fst (OpenStackKeyPairService_get cl key_pair_id w) = Ok (Some kp))
  /\ (forall e, fst (keypairs_get cl key_pair_id (backend w)) = Raise e ->
                (forall m, e <> NovaNotFound m) ->
                fst (OpenStackKeyPairService_get cl key_pair_id w) = Raise e)
  /\ trace (snd (OpenStackKeyPairService_get cl key_pair_id w))
     = trace w ++ [KeypairsGet key_pair_id].
Proof.
  unfold OpenStackKeyPairService_get, bind, try_except, invoke, ret.
  destruct (keypairs_get cl key_pair_id (backend w)) as [[v|e] st]; cbn.
  - repeat split; try done.
    + intros (m & ?). done.
    + by intros v' [= ->].
  - destruct e; cbn; repeat split; try done; eauto;
      try (by intros (m' & ?));
      try (by intros e' [= <-] He; try done; exfalso; eapply He).
Qed.

(** X13.  The block device mapping has one dictionary per device, in order.  An
    ephemeral device gives the fixed local/blank dictionary that is deleted
    on termination; a volume device gives a 'volume' destination with the
    device's delete-on-terminate flag, the root device being /dev/sda with
    boot index 0; the dictionary carries a uuid exactly when its source
    type is not 'blank', which is the case exactly when the device has a
    source. *)
Theorem block_device_mapping_shape (lc : launch_config) :
  length (OpenStackInstanceService__to_block_device_mapping lc)
  = length (block_devices lc)
  /\ forall i d,
       block_devices lc !! i = Some d ->
       exists e,
         OpenStackInstanceService__to_block_device_mapping lc !! i = Some e
         /\ (is_volume d = false ->
             e = BdmDict "local" None None "blank" None (Some true) None)
         /\ (is_volume d = true ->
             destination_type e = "volume"
             /\ delete_on_termination e = delete_on_terminate d
             /\ (is_root d = true ->
                 device_name e = Some "/dev/sda" /\ boot_index e = Some 0%Z)
             /\ (is_root d = false ->
                 device_name e = None /\ boot_index e = None)
             /\ (uuid e = None <-> source_type e = "blank")
             /\ (source d = SrcNone <-> source_type e = "blank")).
Proof.
  unfold OpenStackInstanceService__to_block_device_mapping. split.
  - apply length_map.
  - intros i d Hd. exists (to_bdm_dict d). split.
    + change (map to_bdm_dict (block_devices lc))
        with (to_bdm_dict <$> block_devices lc).
      rewrite list_lookup_fmap. unfold launch_device in *. by rewrite Hd.
    + unfold to_bdm_dict. split.
      * by intros ->.
      * intros ->. destruct (source d), (is_root d); cbn; repeat split; done.
Qed.

(** X14.  [_has_root_device] holds exactly for a launch configuration that is
    given and has a device marked as root. *)
Theorem has_root_device_iff (lc : option launch_config) :
  OpenStackInstanceService__has_root_device lc = true <->
  exists c d, lc = Some c /\ In d (block_devices c) /\ is_root d = true.
Proof.
  unfold OpenStackInstanceService__has_root_device. destruct lc as [c|].
  - rewrite existsb_exists. split.
    + intros (d & Hin & Hr). eauto.
    + intros (c' & d & [= <-] & Hin & Hr). eauto.
  - split; [done|]. by intros (c & d & ? & _).
Qed.

(** X15.  A name that the resource classes reject makes every creation raise
    InvalidNameException before any client call: the world is unchanged. *)
Theorem invalid_name_rejected_before_any_call (name : string) w :
  (forall c, valid_resource_name c name = false) ->
  OpenStackKeyPairService_create cl valid_resource_name name w
  = (Raise (InvalidNameException name), w)
  /\ (forall description,
      OpenStackSecurityGroupService_create cl valid_resource_name name description w
      = (Raise (InvalidNameException name), w))
  /\ (forall size zone snapshot description,
      OpenStackVolumeService_create cl valid_resource_name name size zone snapshot
        description w = (Raise (InvalidNameException name), w))
  /\ (forall volume description,
      OpenStackSnapshotService_create cl valid_resource_name name volume
        description w = (Raise (InvalidNameException name), w))
  /\ OpenStackObjectStoreService_create cl valid_resource_name name w
     = (Raise (InvalidNameException name), w)
  /\ (forall cidr,
      OpenStackNetworkService_create cl valid_resource_name name cidr w
      = (Raise (InvalidNameException name), w))
  /\ (forall network cidr,
      OpenStackSubnetService_create cl valid_resource_name name network cidr w
      = (Raise (InvalidNameException name), w))
  /\ OpenStackRouterService_create cl valid_resource_name name w
     = (Raise (InvalidNameException name), w).
Proof.
  intros H.
  unfold OpenStackKeyPairService_create, OpenStackSecurityGroupService_create,
    OpenStackVolumeService_create, OpenStackSnapshotService_create,
    OpenStackObjectStoreService_create, OpenStackNetworkService_create,
    OpenStackSubnetService_create, OpenStackRouterService_create,
    assert_valid_resource_name, bind.
  rewrite !H. repeat split.
Qed.

(** X16.  [get] of a bucket whose name is in the listing for that prefix returns
    a bucket that wraps a container of exactly that name. *)
Theorem bucket_get_exact_match (bucket_id : string) w l st c :
  swift_get_account_prefix cl bucket_id (backend w) = (Ok l, st) ->
  In c l -> container_name c = bucket_id ->
  exists found,
    fst (OpenStackObjectStoreService_get cl bucket_id w)
    = Ok (Some (OpenStackBucket (Some found)))
    /\ container_name found = bucket_id /\ In found l.
Proof.
  intros Hl Hin Hname. unfold OpenStackObjectStoreService_get, bind, invoke, ret.
  rewrite Hl. destruct l as [|c0 l']; [done|]. cbv beta iota.
  destruct (List.find _ (c0 :: l')) as [found|] eqn:E.
  - apply find_some in E as [Hf He]. apply String.eqb_eq in He. eauto.
  - eapply find_none in E; [|exact Hin].
    cbn in E. apply String.eqb_neq in E. done.
Qed.

(** X17.  Despite its name, get_or_create_inet_gateway creates nothing: it makes
    no mutating call, and a gateway it returns wraps an external network. *)
Theorem gateway_lookup_only_reads (name : string) w :
  valid_resource_name GatewayClass name = true ->
  mutations (trace (snd (OpenStackGatewayService_get_or_create_inet_gateway cl
                           valid_resource_name name w)))
  = mutations (trace w)
  /\ forall gw,
       fst (OpenStackGatewayService_get_or_create_inet_gateway cl
              valid_resource_name name w) = Ok (Some gw) ->
       external (gateway_net gw) = true.
Proof.
  intros Hv. unfold OpenStackGatewayService_get_or_create_inet_gateway,
    OpenStackNetworkService_iter, OpenStackNetworkService_list,
    assert_valid_resource_name, bind, invoke, ret.
  rewrite Hv. cbn. destruct (list_networks cl None (backend w)) as [[l|e] st]; cbn.
  - split.
    + unfold mutations. by rewrite filter_app, app_nil_r.
    + intros gw H. destruct (List.find external _) as [n|] eqn:E; [|done].
      injection H as <-. by apply find_some in E as [_ ?].
  - split; [|done]. unfold mutations. by rewrite filter_app, app_nil_r.
Qed.

(** X18.  Listing the subnets of a network makes one listing call, and
    every subnet it returns belongs to the network.  The subnets are taken
    from the items of the paged result of the unfiltered listing: they are
    subnets of the listing whenever a page holds only objects it was given,
    and they are exactly the subnets of the network in the listing when the
    page holds the whole listing; subnets beyond the page are left out. *)
Theorem subnets_of_network (n : network) limit marker w r w' :
  OpenStackSubnetService_list cl page (Some (Obj n)) limit marker w = (Ok r, w') ->
  Forall (fun s => network_id s = net_id n) (objects r)
  /\ trace w' = trace w ++ [ListSubnets]
  /\ exists all,
       fst (list_subnets cl (backend w)) = Ok all
       /\ objects r
          = List.filter (fun s => String.eqb (net_id n) (network_id s))
                        (page _ (PagedList all None None))
       /\ ((forall s, In s (page _ (PagedList all None None)) -> In s all) ->
           forall s, In s (objects r) -> In s all)
       /\ (page _ (PagedList all None None) = all ->
           forall s, In s (objects r) <-> In s all /\ network_id s = net_id n).
Proof.
  unfold OpenStackSubnetService_list, OpenStackSubnetService_list_unfiltered,
    bind, invoke, ret.
  destruct (list_subnets cl (backend w)) as [[all|e] st]; [|done].
  intros [= <- <-]. cbn. split; [|split; [done|]].
  - apply Forall_forall. intros s Hs. apply list_elem_of_In in Hs.
    apply filter_In in Hs as [_ Hs]. apply String.eqb_eq in Hs. done.
  - exists all. split; [done|]. split; [done|]. split.
    + intros Hpage s Hs. apply filter_In in Hs as [Hs _]. by apply Hpage.
    + intros -> s. rewrite filter_In.
      by rewrite String.eqb_eq, (eq_comm (net_id n)).
Qed.

(** X19.  get_or_create_default never lets a NeutronClientException escape. *)
Theorem default_subnet_swallows_neutron_errors w :
  forall m, fst (OpenStackSubnetService_get_or_create_default cl
                   valid_resource_name NET SUB ROUTER GATEWAY w)
            <> Raise (NeutronClientException m).
Proof.
  intros m. unfold OpenStackSubnetService_get_or_create_default, try_except.
  destruct (bind _ _ w) as [[r|e] w1]; [done|].
  destruct e; cbn; done.
Qed.

(** X22.  The lookups of the OpenStack services (get, list and find) only
    read: none of the client calls they make changes the backend. *)
Theorem openstack_lookups_only_read (id : string) (limit : option nat)
    (marker : option string) (network : option (arg network)) :
  calls_only reads (OpenStackKeyPairService_get cl id)
  /\ calls_only reads (OpenStackKeyPairService_list cl limit marker)
  /\ calls_only reads (OpenStackKeyPairService_find cl id limit marker)
  /\ calls_only reads (OpenStackSecurityGroupService_get cl id)
  /\ calls_only reads (OpenStackSecurityGroupService_list cl limit marker)
  /\ calls_only reads (OpenStackSecurityGroupService_find cl id limit marker)
  /\ calls_only reads (OpenStackImageService_get cl id)
  /\ calls_only reads (OpenStackVolumeService_get cl id)
  /\ calls_only reads (OpenStackSnapshotService_get cl id)
  /\ calls_only reads (OpenStackInstanceService_get cl id)
  /\ calls_only reads (OpenStackObjectStoreService_get cl id)
  /\ calls_only reads (OpenStackNetworkService_get cl id)
  /\ calls_only reads (OpenStackNetworkService_list cl limit marker)
  /\ calls_only reads (OpenStackNetworkService_find cl id limit marker)
  /\ calls_only reads (OpenStackSubnetService_get cl id)
  /\ calls_only reads (OpenStackSubnetService_list cl page network limit marker)
  /\ calls_only reads (OpenStackRouterService_get cl id)
  /\ calls_only reads (OpenStackRouterService_list cl limit marker)
  /\ calls_only reads (OpenStackRouterService_find cl id limit marker).
Proof.
  unfold OpenStackKeyPairService_get, OpenStackKeyPairService_list,
    OpenStackKeyPairService_find, OpenStackSecurityGroupService_get,
    OpenStackSecurityGroupService_list, OpenStackSecurityGroupService_find,
    OpenStackImageService_get, OpenStackVolumeService_get,
    OpenStackSnapshotService_get, OpenStackInstanceService_get,
    OpenStackObjectStoreService_get, OpenStackNetworkService_get,
    OpenStackNetworkService_find, OpenStackSubnetService_get,
    OpenStackSubnetService_list, OpenStackSubnetService_iter,
    OpenStackSubnetService_list_unfiltered,
    OpenStackRouterService_get, OpenStackRouterService_find,
    OpenStackRouterService_iter, OpenStackRouterService_list,
    OpenStackNetworkService_iter, OpenStackNetworkService_list.
  repeat split; footprint.
Qed.

(** X23.  get_or_create_default when no subnet has the default name, with
    valid default names: the network is created, then the subnet
    10.0.0.0/24 in it, then the router; the subnet is attached to the
    router, an external network is looked up and the router is attached to
    it as its gateway, in this order.  The new subnet is returned when the
    last step goes through; when it raises NeutronClientException, None is
    returned although network, subnet and router have been created. *)
Theorem default_subnet_built_in_order w l st1 net st2 sn st3 r st4 st5 nets st6 :
  let gateway := option_map OpenStackInternetGateway
                   (List.find external (present_networks nets)) in
  valid_resource_name NetworkClass NET = true ->
  valid_resource_name RouterClass ROUTER = true ->
  valid_resource_name GatewayClass GATEWAY = true ->
  truthy_str ROUTER = true ->
  list_subnets cl (backend w) = (Ok l, st1) ->
  Forall (fun s => subnet_name s <> SUB) l ->
  create_network cl NET st1 = (Ok net, st2) ->
  network_create_subnet cl net SUB "10.0.0.0/24" st2 = (Ok sn, st3) ->
  create_router cl (Some ROUTER) st3 = (Ok r, st4) ->
  router_attach_subnet cl r sn st4 = (Ok tt, st5) ->
  list_networks cl None st5 = (Ok nets, st6) ->
  let made := [ListSubnets; CreateNetwork NET;
               NetworkCreateSubnet (net_id net) SUB "10.0.0.0/24";
               CreateRouter (Some ROUTER);
               RouterAttachSubnet (router_id r) (subnet_id sn);
               ListNetworks None;
               RouterAttachGateway (router_id r)
                 (option_map (fun g => net_id (gateway_net g)) gateway)] in
  (forall st7,
      router_attach_gateway cl r gateway st6 = (Ok tt, st7) ->
      OpenStackSubnetService_get_or_create_default cl valid_resource_name
        NET SUB ROUTER GATEWAY w
      = (Ok (Some sn), World st7 (trace w ++ made) (uuids_drawn w)))
  /\ (forall m st7,
      router_attach_gateway cl r gateway st6
      = (Raise (NeutronClientException m), st7) ->
      OpenStackSubnetService_get_or_create_default cl valid_resource_name
        NET SUB ROUTER GATEWAY w
      = (Ok None, World st7 (trace w ++ made) (uuids_drawn w))).
Proof.
  intros gateway Hn Hr Hg Ht Hl Hnone Hnet Hsn Hrt Has Hln made.
  assert (Hf : List.filter (fun s => String.eqb (subnet_name s) SUB) l = []).
  { clear -Hnone. induction Hnone as [|s l Hs _ IH]; [done|]. cbn.
    apply String.eqb_neq in Hs. by rewrite Hs. }
  split; [intros st7 Hgw | intros m st7 Hgw];
    unfold OpenStackSubnetService_get_or_create_default, try_except;
    unfold bind at 1; rewrite (subnet_find_run SUB w l st1 Hl), Hf;
    unfold OpenStackNetworkService_create, OpenStackRouterService_create,
      OpenStackGatewayService_get_or_create_inet_gateway,
      OpenStackNetworkService_iter, OpenStackNetworkService_list,
      assert_valid_resource_name, bind, invoke, ret;
    rewrite Hn; cbn; rewrite Hnet; cbn; rewrite Hsn; cbn; rewrite Hr, Ht; cbn;
    rewrite Hrt; cbn; rewrite Has; cbn; rewrite Hg; cbn; rewrite Hln; cbn;
    fold gateway; rewrite Hgw; cbn; subst made; by rewrite <- !app_assoc.
Qed.

End Facts.
End OpenStackFacts.

(** ** Both providers *)
Module ProviderFacts.
Import Py PyFacts.

(** C1, as amended.  On OpenStack, [delete] of a security group returns
    True whenever it returns, also the second time, and in particular when
    the group never existed (the lookup raised NovaNotFound), in which case
    nothing is deleted.  On Azure, [delete] returns True when the client's
    delete call goes through and False when the client raises CloudError,
    which is how it reports a resource that is not available. *)
Theorem C1_delete_outcomes {StA StO : Type} (P : Azure.provider StA)
    (cl : OpenStack.clients StO) (group_id : string)
    (wa : world StA Azure.call) (wo : world StO OpenStack.call) :
  (forall b w1,
      OpenStack.OpenStackSecurityGroupService_delete cl group_id wo = (Ok b, w1) ->
      b = true /\
      forall b2 w2,
        OpenStack.OpenStackSecurityGroupService_delete cl group_id w1 = (Ok b2, w2) ->
        b2 = true)
  /\ (forall m st,
      OpenStack.security_groups_get cl group_id (backend wo)
      = (Raise (NovaNotFound m), st) ->
      OpenStack.OpenStackSecurityGroupService_delete cl group_id wo
      = (Ok true, World st (trace wo ++ [OpenStack.SecurityGroupsGet group_id])
                        (uuids_drawn wo)))
  /\ (forall st,
      Azure.delete_security_group (Azure.azure P) group_id (backend wa) = (Ok tt, st) ->
      fst (Azure.AzureSecurityGroupService_delete P group_id wa) = Ok true)
  /\ (forall m st,
      Azure.delete_security_group (Azure.azure P) group_id (backend wa)
      = (Raise (CloudError m), st) ->
      fst (Azure.AzureSecurityGroupService_delete P group_id wa) = Ok false).
Proof.
  assert (Hos : forall w b w1,
             OpenStack.OpenStackSecurityGroupService_delete cl group_id w = (Ok b, w1) ->
             b = true).
  { intros w b w1. unfold OpenStack.OpenStackSecurityGroupService_delete.
    intros H. apply bind_inv in H as (sg & w' & _ & H).
    apply bind_inv in H as (? & w'' & _ & H). by injection H as <- _. }
  repeat split.
  - eauto.
  - eauto.
  - intros m st H. unfold OpenStack.OpenStackSecurityGroupService_delete,
      OpenStack.OpenStackSecurityGroupService_get.
    unfold bind, try_except, invoke. rewrite H. reflexivity.
  - intros st H. unfold Azure.AzureSecurityGroupService_delete.
    unfold bind, try_except, invoke. rewrite H. reflexivity.
  - intros m st H. unfold Azure.AzureSecurityGroupService_delete.
    unfold bind, try_except, invoke. rewrite H. reflexivity.
Qed.

(** C2.  The object store of OpenStack does not return None for every
    identifier that does not resolve: when the listing for the prefix
    [bucket_id] is not empty but holds no container of exactly that name,
    [get] returns a bucket object that wraps None. *)
Theorem C2_bucket_get_wraps_missing_container {St : Type}
    (cl : OpenStack.clients St) (bucket_id : string)
    (w : world St OpenStack.call) (c : OpenStack.container)
    (cs : list OpenStack.container) (st : St) :
  OpenStack.swift_get_account_prefix cl bucket_id (backend w) = (Ok (c :: cs), st) ->
  Forall (fun c' => OpenStack.container_name c' <> bucket_id) (c :: cs) ->
  fst (OpenStack.OpenStackObjectStoreService_get cl bucket_id w)
  = Ok (Some (OpenStack.OpenStackBucket None)).
Proof.
  intros Hlist Hnone. unfold OpenStack.OpenStackObjectStoreService_get.
  unfold bind, invoke, ret. rewrite Hlist. cbv beta iota.
  by rewrite (find_by_name_none OpenStack.container_name).
Qed.

(** C6.  Creating a key pair under a name that is taken fails and creates
    nothing.  On Azure the service looks the name up first: when the lookup
    finds an entity, [create] raises the "Keypair already exists" exception
    and its only client call is that lookup.  On OpenStack the service
    hands a valid name to nova: the exception with which nova rejects the
    name reaches the caller unchanged, after that single call. *)
Theorem C6_key_pair_name_conflict {StA StO : Type} (P : Azure.provider StA)
    (uuid_source : nat -> string) (gen_key_pair : nat -> string * string)
    (cl : OpenStack.clients StO)
    (valid_resource_name : OpenStack.resource_class -> string -> bool)
    (name : string) (wa : world StA Azure.call) (wo : world StO OpenStack.call) :
  (forall entity st,
      Azure.get_public_key (Azure.azure P) name (backend wa)
      = (Ok (Some entity), st) ->
      Azure.AzureKeyPairService_create P uuid_source gen_key_pair name wa
      = (Raise (PyException ("Keypair already exists with name " +:+ name)),
         World st (trace wa ++ [Azure.GetPublicKey name]) (uuids_drawn wa)))
  /\ (forall e st,
      valid_resource_name OpenStack.KeyPairClass name = true ->
      OpenStack.keypairs_create cl name (backend wo) = (Raise e, st) ->
      OpenStack.OpenStackKeyPairService_create cl valid_resource_name name wo
      = (Raise e,
         World st (trace wo ++ [OpenStack.KeypairsCreate name]) (uuids_drawn wo))).
Proof.
  split.
  - intros entity st H. unfold Azure.AzureKeyPairService_create,
      Azure.AzureKeyPairService_get, bind, try_except, invoke.
    rewrite H. reflexivity.
  - intros e st Hv H. unfold OpenStack.OpenStackKeyPairService_create,
      OpenStack.assert_valid_resource_name, bind, invoke.
    rewrite Hv. cbn. rewrite H. reflexivity.
Qed.

(** C8.  Two calls of get_or_create_default in sequence, without
    interference.  On Azure, on a backend that returns again a subnet it
    has returned or created: the second call returns the subnet of the
    first and makes a single lookup call.  On OpenStack, when the listing
    that follows the first call shows, as the first subnet of the default
    name, one with the identifier of the subnet the first call returned:
    the second call returns a subnet with that identifier and makes a
    single listing call. *)
Theorem C8_default_subnet_twice {StA StO : Type} (P : Azure.provider StA)
    (uuid_source : nat -> string) (NETa SUBa : string)
    (cl : OpenStack.clients StO)
    (valid_resource_name : OpenStack.resource_class -> string -> bool)
    (NETo SUBo ROUTER GATEWAY : string)
    (wa : world StA Azure.call) (wo : world StO OpenStack.call) :
  (forall st sn st',
      Azure.get_subnet (Azure.azure P) NETa SUBa st = (Ok (Some sn), st') ->
      Azure.get_subnet (Azure.azure P) NETa SUBa st' = (Ok (Some sn), st')) ->
  (forall params st sn st',
      Azure.create_subnet (Azure.azure P) NETa SUBa params st = (Ok sn, st') ->
      Azure.get_subnet (Azure.azure P) NETa SUBa st' = (Ok (Some sn), st')) ->
  (forall sn1 w1,
      Azure.AzureSubnetService_get_or_create_default P uuid_source NETa SUBa wa
      = (Ok sn1, w1) ->
      Azure.AzureSubnetService_get_or_create_default P uuid_source NETa SUBa w1
      = (Ok sn1, World (backend w1) (trace w1 ++ [Azure.GetSubnet NETa SUBa])
                       (uuids_drawn w1)))
  /\ (forall sn1 w1 l st sn' rest,
      OpenStack.OpenStackSubnetService_get_or_create_default cl
        valid_resource_name NETo SUBo ROUTER GATEWAY wo = (Ok (Some sn1), w1) ->
      OpenStack.list_subnets cl (backend w1) = (Ok l, st) ->
      List.filter (fun s => String.eqb (OpenStack.subnet_name s) SUBo) l
      = sn' :: rest ->
      OpenStack.subnet_id sn' = OpenStack.subnet_id sn1 ->
      exists sn2,
        OpenStack.OpenStackSubnetService_get_or_create_default cl
          valid_resource_name NETo SUBo ROUTER GATEWAY w1
        = (Ok (Some sn2),
           World st (trace w1 ++ [OpenStack.ListSubnets]) (uuids_drawn w1))
        /\ OpenStack.subnet_id sn2 = OpenStack.subnet_id sn1).
Proof.
  intros Hrr Hrw. split.
  - intros sn1 w1 H.
    by apply (AzureFacts.azure_default_subnet_twice P uuid_source NETa SUBa
                Hrr Hrw wa sn1 w1).
  - intros sn1 w1 l st sn' rest _ Hl Hf Hid. exists sn'. split; [|done].
    by eapply OpenStackFacts.default_subnet_found.
Qed.

End ProviderFacts.

(** * Examples

    The properties above at concrete inputs, on the in-memory clients. *)

(** ** Azure *)
Module AzureExamples.
Import Py PyFacts Azure AzureMock.

Lemma find_after_upsert {A} (f : A -> bool) (l : list A) (x : A) :
  f x = true ->
  List.find f (List.filter (fun e => negb (f e)) l ++ [x]) = Some x.
Proof.
  intros Hx. induction l as [|a l IH]; cbn; [by rewrite Hx|].
  destruct (f a) eqn:Ha; cbn; [done|]. by rewrite Ha.
Qed.

Lemma mock_read_is_repeatable (N S : string) st sn st' :
  get_subnet client N S st = (Ok (Some sn), st') ->
  get_subnet client N S st' = (Ok (Some sn), st').
Proof.
  cbn. unfold not_found.
  destruct (List.find _ (m_subnets st)) as [e|] eqn:E; [|done].
  intros [= <- <-]. by rewrite E.
Qed.

Lemma mock_read_after_create (N S : string) params st sn st' :
  create_subnet client N S params st = (Ok sn, st') ->
  get_subnet client N S st' = (Ok (Some sn), st').
Proof.
  cbn. unfold not_found.
  destruct (List.find _ (m_networks st)) as [n|]; [|done].
  intros [= <- <-]. cbn.
  rewrite find_after_upsert; [done|].
  unfold subnet_key. cbn. by rewrite !String.eqb_refl.
Qed.

Lemma find_after_create (l : list security_group) (g : security_group)
    (k : string) :
  String.eqb (sg_id g) k = false ->
  List.find (fun x => String.eqb (sg_id x) k) (without sg_id (sg_id g) l ++ [g])
  = List.find (fun x => String.eqb (sg_id x) k) l.
Proof.
  intros Hg. unfold without. induction l as [|a l IH]; cbn.
  - by rewrite Hg.
  - destruct (String.eqb (sg_id a) (sg_id g)) eqn:Ha; cbn.
    + apply String.eqb_eq in Ha. rewrite Ha, Hg. exact IH.
    + destruct (String.eqb (sg_id a) k); [done | exact IH].
Qed.

Lemma find_after_rule (l : list security_group) (gid k : string) (r : sg_rule) :
  String.eqb gid k = false ->
  List.find (fun x => String.eqb (sg_id x) k) (map (add_rule_to gid r) l)
  = List.find (fun x => String.eqb (sg_id x) k) l.
Proof.
  intros Hg. induction l as [|a l IH]; [done|]. cbn [map List.find].
  assert (Hid : sg_id (add_rule_to gid r a) = sg_id a).
  { unfold add_rule_to. by destruct (String.eqb (sg_id a) gid). }
  rewrite Hid. destruct (String.eqb (sg_id a) k) eqn:Hk; [|exact IH].
  apply String.eqb_eq in Hk. unfold add_rule_to.
  by rewrite Hk, String.eqb_sym, Hg.
Qed.

Lemma groups_found s st :
  In s ["ssh"; "web"] -> groups_kept st ->
  exists st', get_security_group client s st = (Ok (requested_group s), st')
              /\ groups_kept st'.
Proof.
  intros Hs [Hssh Hweb]. exists st. split; [|done].
  cbn. unfold lookup.
  destruct Hs as [<-|[<-|[]]]; [by rewrite Hssh | by rewrite Hweb].
Qed.

Lemma groups_kept_create name params st :
  String.eqb name "ssh" = false -> String.eqb name "web" = false ->
  groups_kept st ->
  exists st',
    create_security_group client name params st
    = (Ok (SecurityGroup name (resource_uri "networkSecurityGroups" name)
                         (sgp_tags params) []), st')
    /\ groups_kept st'.
Proof.
  intros H1 H2 [Hssh Hweb]. eexists. split; [reflexivity|].
  unfold groups_kept. cbn [m_security_groups set_security_groups].
  split.
  - rewrite <- Hssh.
    exact (find_after_create _ (SecurityGroup name _ _ _) "ssh" H1).
  - rewrite <- Hweb.
    exact (find_after_create _ (SecurityGroup name _ _ _) "web" H2).
Qed.

Lemma groups_kept_rule gid rule st :
  String.eqb gid "ssh" = false -> String.eqb gid "web" = false ->
  groups_kept st ->
  exists st',
    create_security_group_rule client gid rule st = (Ok tt, st')
    /\ groups_kept st'.
Proof.
  intros H1 H2 [Hssh Hweb]. eexists. split; [reflexivity|].
  unfold groups_kept. cbn [m_security_groups set_security_groups].
  by rewrite !find_after_rule.
Qed.

Lemma C4_merged_security_group_witness :
  (exists rest,
    trace (snd (AzureInstanceService_create provider uuid_source b64encode
                  DEFAULT_NETWORK DEFAULT_SUBNET "vm" (Obj example_image)
                  (ById "Standard_DS1_v2") (Some (Obj subnet_in_westus)) None
                  (Some (Obj example_key_pair))
                  (Some [Obj group_ssh; Obj group_web]) None None
                  (start empty)))
    = [CreateSecurityGroup "vm-012345-sg"
         (SgParameters "eastus"
            (name_tags "vm-012345-sg" (Some "Merge security groups ssh,web")));
       CreateSecurityGroupRule "vm-012345-sg" (SgRule "tcp" 22 22 "0.0.0.0/0");
       CreateSecurityGroupRule "vm-012345-sg" (SgRule "tcp" 80 80 "0.0.0.0/0");
       CreateNic "vm-012345_nic"
         (NicParameters "eastus" "vm-012345_ip_config" "Dynamic"
            "/providers/subnets/cb-subnet"
            (Some "/providers/networkSecurityGroups/vm-012345-sg"))]
      ++ rest)
  /\ (exists rest,
    trace (snd (AzureInstanceService_create provider uuid_source b64encode
                  DEFAULT_NETWORK DEFAULT_SUBNET "vm" (Obj example_image)
                  (ById "Standard_DS1_v2") (Some (Obj subnet_in_westus)) None
                  (Some (Obj example_key_pair))
                  (Some [ById "ssh"; ById "web"]) None None
                  (start two_groups)))
    = [GetSecurityGroup "ssh";
       CreateSecurityGroup "vm-012345-sg"
         (SgParameters "eastus"
            (name_tags "vm-012345-sg" (Some "Merge security groups ssh,web")));
       GetSecurityGroup "ssh";
       CreateSecurityGroupRule "vm-012345-sg" (SgRule "tcp" 22 22 "0.0.0.0/0");
       GetSecurityGroup "web";
       CreateSecurityGroupRule "vm-012345-sg" (SgRule "tcp" 80 80 "0.0.0.0/0");
       CreateNic "vm-012345_nic"
         (NicParameters "eastus" "vm-012345_ip_config" "Dynamic"
            "/providers/subnets/cb-subnet"
            (Some "/providers/networkSecurityGroups/vm-012345-sg"))]
      ++ rest).
Proof.
  split.
  - destruct (AzureFacts.C4_merged_security_group provider uuid_source
                b64encode DEFAULT_NETWORK DEFAULT_SUBNET
                (fun gid rule st => ex_intro _ _ eq_refl)
                "vm" example_image (ById "Standard_DS1_v2") subnet_in_westus
                None None example_key_pair None [group_ssh; group_web]
                merged_group (set_security_groups [merged_group] empty)
                (start empty)) as (_ & (rest & Ht & _) & _).
    + cbn. lia.
    + reflexivity.
    + exists rest. exact Ht.
  - destruct (AzureFacts.C4_merged_security_group provider uuid_source
                b64encode DEFAULT_NETWORK DEFAULT_SUBNET
                (fun gid rule st => ex_intro _ _ eq_refl)
                "vm" example_image (ById "Standard_DS1_v2") subnet_in_westus
                None None example_key_pair None [group_ssh; group_web]
                merged_group
                (set_security_groups [group_ssh; group_web; merged_group] empty)
                (start two_groups)) as (_ & _ & Hids & _).
    + cbn. lia.
    + reflexivity.
    + destruct (Hids groups_kept requested_group ["ssh"; "web"] merged_group)
        as (_ & _ & rest & Ht & _).
      * cbn. lia.
      * split; reflexivity.
      * apply groups_found.
      * intros st Hst. by apply groups_kept_create.
      * intros rule st Hst. by apply groups_kept_rule.
      * exists rest. exact Ht.
Defined.

Lemma C5_subnet_zone_overrides_witness :
  (exists iname params,
      In (CreateVm iname params)
         (trace (snd (AzureInstanceService_create provider uuid_source
                        b64encode DEFAULT_NETWORK DEFAULT_SUBNET "vm"
                        (Obj example_image) (ById "Standard_DS1_v2")
                        (Some (Obj subnet_in_westus))
                        (Some (ById "centralus")) (Some (Obj example_key_pair))
                        None None None (start empty))))
      /\ vm_location params = "westus")
  /\ (exists params rest,
         trace (snd (AzureInstanceService_create provider uuid_source
                       b64encode DEFAULT_NETWORK DEFAULT_SUBNET "vm"
                       (Obj example_image) (ById "Standard_DS1_v2")
                       (Some (ById "cb-net|$|cb-subnet"))
                       (Some (ById "centralus")) (Some (Obj example_key_pair))
                       None None None (start launch_ready)))
         = [GetSubnet "cb-net" "cb-subnet"; CreateNic "vm-012345_nic" params;
            CreateVm "vm-012345"
              (VmParameters "westus" "cbuser" "vm-012345" true
                 "/home/cbuser/.ssh/authorized_keys"
                 (Key (_key_pair example_key_pair)) None "Standard_DS1_v2"
                 (resource_uri "networkInterfaces" "vm-012345_nic")
                 (img_resource_id example_image) "vm-012345_os_disk"
                 "fromImage" None None
                 (<["Key_Pair" := "cb-key"]> {[ "Name" := "vm" ]}))] ++ rest)
  /\ (exists t params,
         trace (snd (AzureInstanceService_create provider uuid_source
                          b64encode DEFAULT_NETWORK DEFAULT_SUBNET "vm"
                          (Obj example_image) (ById "Standard_DS1_v2") None
                          (Some (ById "centralus"))
                          (Some (Obj example_key_pair)) None None None
                          (start default_in_westus))) = t
         /\ In (CreateVm "vm-012345" params) t
         /\ vm_location params = "westus").
Proof.
  split; [|split].
  - destruct (AzureFacts.C5_subnet_zone_overrides provider uuid_source
                b64encode DEFAULT_NETWORK DEFAULT_SUBNET "vm"
                (Obj example_image) (ById "Standard_DS1_v2") subnet_in_westus
                None (Some (ById "centralus")) None
                (Some (Obj example_key_pair)) None None None (start empty))
      as (_ & _ & Hvm & _).
    exact (Hvm _ _ eq_refl).
  - destruct (AzureFacts.C5_subnet_zone_overrides provider uuid_source
                b64encode DEFAULT_NETWORK DEFAULT_SUBNET "vm"
                (Obj example_image) (ById "Standard_DS1_v2") subnet_in_westus
                (Some (ById "cb-net|$|cb-subnet")) (Some (ById "centralus"))
                None (Some (Obj example_key_pair)) None None None
                (start launch_ready)) as (_ & _ & _ & _ & _ & Hfound).
    destruct (Hfound "cb-net" "cb-subnet" subnet_in_westus example_image
                example_key_pair launch_ready
                (NicInfo (resource_uri "networkInterfaces" "vm-012345_nic"))
                launch_ready)
      as [_ (rest & Ht)].
    + split; reflexivity.
    + reflexivity.
    + reflexivity.
    + eexists _, rest. exact Ht.
  - destruct (AzureFacts.C5_subnet_zone_overrides provider uuid_source
                b64encode DEFAULT_NETWORK DEFAULT_SUBNET "vm"
                (Obj example_image) (ById "Standard_DS1_v2") subnet_in_westus
                None (Some (ById "centralus")) None
                (Some (Obj example_key_pair)) None None None
                (start default_in_westus)) as (_ & _ & _ & _ & Hok & _).
    destruct (Hok _ _ eq_refl)
      as (i & w1 & found & t & params & Hi & Hsn & Ht & Hin & Hloc).
    vm_compute in Hi. injection Hi as <- <-.
    cbn in Hsn. injection Hsn as <-.
    exists t, params.
    split; [exact Ht|]. split; [exact Hin | exact Hloc].
Defined.

(** C7 as stated fails: "a|$" and "x" do not contain the delimiter, yet
    their composite identifier splits into "a" and "$|x", so [get] asks for
    another subnet than the one joined. *)
Lemma C7_counterexample :
  contains "|$|" "a|$" = false /\ contains "|$|" "x" = false /\
  split "|$|" (composite_subnet_id "a|$" "x") = ["a"; "$|x"] /\
  split "|$|" (composite_subnet_id "a|$" "x") <> ["a|$"; "x"] /\
  trace (snd (AzureSubnetService_get provider (composite_subnet_id "a|$" "x")
                (start empty)))
  = [GetSubnet "a" "$|x"].
Proof. vm_compute. repeat split. discriminate. Qed.

Lemma C7_composite_subnet_id_witness :
  split "|$|" (composite_subnet_id "cloudbridge-net" "cloudbridge-subnet")
  = ["cloudbridge-net"; "cloudbridge-subnet"]
  /\ trace (snd (AzureSubnetService_delete provider
                   (ById "cloudbridge-net|$|cloudbridge-subnet") (start empty)))
     = [DeleteSubnet "cloudbridge-net" "cloudbridge-subnet"].
Proof.
  destruct (AzureFacts.C7_composite_subnet_id provider "cloudbridge-net"
              "cloudbridge-subnet" (ById "cloudbridge-net|$|cloudbridge-subnet")
              (start empty) eq_refl eq_refl eq_refl eq_refl)
    as (Hsplit & _ & _ & Hdel).
  split; [exact Hsplit | exact Hdel].
Defined.

Lemma C9_machine_image_device_skipped_witness :
  process_device provider uuid_source "vm" (Some "eastus") (BdmState [] 0 None)
    image_device (start empty)
  = (Ok (BdmState [] 1 None), start empty).
Proof.
  exact (proj1 (AzureFacts.C9_machine_image_device_skipped provider uuid_source
                  "vm" (Some "eastus") image_device example_image [] []
                  (BdmState [] 0 None) (start empty) eq_refl eq_refl eq_refl)).
Defined.

Lemma mock_uuid_hex_digits (n : nat) :
  String.length (uuid_source n) = 32 /\ all_hex (uuid_source n) = true.
Proof. split; reflexivity. Qed.

Lemma C10_suffixed_native_names_witness :
  String.length (slice_to 6 (uuid_source 0)) = 6
  /\ "data-012345" <> "data"
  /\ exists params,
       (In (CreateEmptyDisk "data-012345" params)
           (trace (snd (AzureVolumeService_create provider uuid_source "data"
                          (Some 10%Z) None None None (start empty))))
        \/ In (CreateSnapshotDisk "data-012345" params)
           (trace (snd (AzureVolumeService_create provider uuid_source "data"
                          (Some 10%Z) None None None (start empty)))))
       /\ dp_tags params !! "Name" = Some "data".
Proof.
  destruct (AzureFacts.C10_suffixed_native_names provider uuid_source b64encode
              tag_match DEFAULT_NETWORK DEFAULT_SUBNET mock_uuid_hex_digits
              "data" (start empty)) as ((Hlen & _ & Hneq) & Hvol & _).
  split; [exact Hlen|]. split; [exact Hneq|].
  exact (proj1 (Hvol (Some 10%Z) None None None _ _ eq_refl)).
Defined.

(** C3 as stated fails.  With a volume device listed before the blank
    one, [create] raises InvalidConfigurationException after the tags of
    the volume have been updated.  With two security groups, it raises it
    after the merge group and its rules have been created.  With a
    defaulted subnet on a backend without the default subnet, it raises it
    after the default network and subnet have been created.  With a
    security group identifier that does not resolve, another exception is
    raised before the block devices are looked at. *)
Lemma C3_counterexample :
  let create devices subnet sgs :=
    AzureInstanceService_create zoneless_provider uuid_source b64encode
      DEFAULT_NETWORK DEFAULT_SUBNET "vm" (Obj example_image)
      (ById "Standard_DS1_v2") subnet None (Some (Obj example_key_pair)) sgs
      None (Some (AzureLaunchConfig devices)) in
  let invalid := Raise (InvalidConfigurationException BLANK_VOLUME_NEEDS_ZONE) in
  let by_volume :=
    create [volume_device; blank_volume_device]
           (Some (Obj subnet_without_zone)) None (start with_data_volume) in
  let by_groups :=
    create [blank_volume_device] (Some (Obj subnet_without_zone))
           (Some [Obj group_ssh; Obj group_web]) (start empty) in
  let by_default := create [blank_volume_device] None None (start empty) in
  let by_lookup :=
    create [blank_volume_device] (Some (Obj subnet_without_zone))
           (Some [ById "no-such-group"]) (start empty) in
  (fst by_volume = invalid
   /\ mutations (trace (snd by_volume))
      = [UpdateDiskTags "data-1" {[ "delete_on_terminate" := "False" ]}])
  /\ (fst by_groups = invalid
      /\ map is_group_creation (mutations (trace (snd by_groups)))
         = [true; true; true])
  /\ (fst by_default = invalid
      /\ exists np sp,
           mutations (trace (snd by_default))
           = [CreateNetwork DEFAULT_NETWORK np;
              CreateSubnet DEFAULT_NETWORK DEFAULT_SUBNET sp])
  /\ fst by_lookup
     = Raise (AttributeError "'NoneType' object has no attribute 'resource_id'").
Proof.
  vm_compute. split; [done|]. split; [done|]. split; [|done].
  split; [done|]. by eexists _, _.
Qed.

Lemma zoneless_backend (subnet : option (arg subnet)) :
  match subnet with Some (Obj _) => False | _ => True end ->
  no_resolvable_zone zoneless_provider subnet.
Proof.
  assert (Hlaws :
    (forall N S st sn st',
        get_subnet zoneless_client N S st = (Ok (Some sn), st') ->
        truthy_opt_str (subnet_zone_id sn) = false)
    /\ (forall N S params st sn st',
           create_subnet zoneless_client N S params st = (Ok sn, st') ->
           truthy_opt_str (subnet_zone_id sn) = false)).
  { split.
    - intros N S st sn st'. cbn.
      destruct (List.find _ (m_subnets st)) as [e|]; [|done].
      by intros [= <- _].
    - intros N S params st sn st'. cbn.
      destruct (List.find _ (m_networks st)) as [n|]; [|done].
      by intros [= <- _]. }
  destruct subnet as [[s|sn]|]; [done | done | done].
Qed.

Lemma C3_blank_volume_without_zone_witness :
  let devices := [root_device; image_device; blank_volume_device; volume_device] in
  AzureInstanceService__process_block_device_mappings provider uuid_source
    (AzureLaunchConfig devices) "vm" None (start empty)
  = (Raise (InvalidConfigurationException BLANK_VOLUME_NEEDS_ZONE), start empty)
  /\ (let by_identifiers :=
        AzureInstanceService_create zoneless_provider uuid_source b64encode
          DEFAULT_NETWORK DEFAULT_SUBNET "vm" (ById "ubuntu")
          (ById "Standard_DS1_v2") (Some (ById "cb-net|$|cb-subnet")) None
          (Some (ById "cb-key")) (Some [ById "ssh"]) None
          (Some (AzureLaunchConfig devices)) (start launch_ready) in
      is_ok (fst by_identifiers) = false
      /\ mutations (trace (snd by_identifiers)) = [])
  /\ is_ok (fst (AzureInstanceService_create zoneless_provider uuid_source
                   b64encode DEFAULT_NETWORK DEFAULT_SUBNET "vm"
                   (Obj example_image) (ById "Standard_DS1_v2") None None
                   (Some (Obj example_key_pair))
                   (Some [Obj group_ssh; Obj group_web]) None
                   (Some (AzureLaunchConfig devices)) (start empty))) = false
  /\ AzureInstanceService_create provider uuid_source b64encode
       DEFAULT_NETWORK DEFAULT_SUBNET "vm" (Obj example_image)
       (ById "Standard_DS1_v2") (Some (Obj subnet_without_zone)) None
       (Some (Obj example_key_pair)) (Some [Obj group_ssh]) None
       (Some (AzureLaunchConfig devices)) (start empty)
     = (Raise (InvalidConfigurationException BLANK_VOLUME_NEEDS_ZONE),
        World empty [] 1).
Proof.
  intros devices.
  destruct (AzureFacts.C3_blank_volume_without_zone provider uuid_source
              b64encode DEFAULT_NETWORK DEFAULT_SUBNET "vm" None
              [root_device; image_device] [volume_device] blank_volume_device
              (start empty) eq_refl eq_refl) as (Hloop & _ & Hcreate).
  destruct (AzureFacts.C3_blank_volume_without_zone zoneless_provider
              uuid_source b64encode DEFAULT_NETWORK DEFAULT_SUBNET "vm" None
              [root_device; image_device] [volume_device] blank_volume_device
              (start launch_ready) eq_refl eq_refl) as (_ & Hready & _).
  destruct (AzureFacts.C3_blank_volume_without_zone zoneless_provider
              uuid_source b64encode DEFAULT_NETWORK DEFAULT_SUBNET "vm" None
              [root_device; image_device] [volume_device] blank_volume_device
              (start empty) eq_refl eq_refl) as (_ & Hempty & _).
  split; [exact Hloop|]. split; [|split].
  - destruct (Hready (ById "ubuntu") (ById "Standard_DS1_v2")
                (Some (ById "cb-net|$|cb-subnet")) None (Some (ById "cb-key"))
                (Some [ById "ssh"]) None
                (zoneless_backend (Some (ById "cb-net|$|cb-subnet")) I))
      as (_ & Hfail & _ & Hreads).
    split; [exact Hfail | exact (Hreads eq_refl eq_refl eq_refl)].
  - exact (proj1 (proj2 (Hempty (Obj example_image) (ById "Standard_DS1_v2")
                           None None (Some (Obj example_key_pair))
                           (Some [Obj group_ssh; Obj group_web]) None
                           (zoneless_backend None I)))).
  - exact (Hcreate example_image (ById "Standard_DS1_v2") subnet_without_zone
             None example_key_pair (Some group_ssh) None eq_refl eq_refl).
Defined.

Lemma volume_get_outcomes_witness :
  fst (AzureVolumeService_get provider "data-1" (start with_data_volume))
  = Ok (Some data_volume)
  /\ fst (AzureVolumeService_get provider "data-2" (start with_data_volume))
     = Ok None.
Proof.
  split.
  - apply (AzureFacts.volume_get_outcomes provider "data-1"
             (start with_data_volume)). reflexivity.
  - apply (AzureFacts.volume_get_outcomes provider "data-2"
             (start with_data_volume)).
    exists "ResourceNotFound: data-2". reflexivity.
Defined.

Lemma create_requires_key_pair_witness :
  AzureInstanceService_create provider uuid_source b64encode DEFAULT_NETWORK
    DEFAULT_SUBNET "vm" (Obj example_image) (ById "Standard_DS1_v2")
    (Some (Obj subnet_in_westus)) None (Some (ById "")) None None None
    (start empty)
  = (Raise (PyException KEYPAIR_REQUIRED), World empty [] 1).
Proof.
  exact (AzureFacts.create_requires_key_pair provider uuid_source b64encode
           DEFAULT_NETWORK DEFAULT_SUBNET "vm" (Obj example_image)
           (ById "Standard_DS1_v2") (Some (Obj subnet_in_westus)) None
           (Some (ById "")) None None None (start empty) eq_refl).
Defined.

Lemma cloud_init_header_witness :
  exists sent,
    cloud_init_user_data (Some "packages: [git]") = Some sent
    /\ (startswith sent "#!" = true \/ startswith sent "#cloud-config" = true)
    /\ (startswith "packages: [git]" "#!" = true -> sent = "packages: [git]").
Proof.
  exact (proj2 (AzureFacts.cloud_init_header (Some "packages: [git]"))
           "packages: [git]" eq_refl eq_refl).
Defined.

Lemma data_disk_luns_increase_witness :
  StronglySorted lt [1; 2]
  /\ NoDup [1; 2]
  /\ Forall (fun d => dd_create_option d = "attach")
       [DataDisk 1 "data-1" "attach" (resource_uri "disks" "data-1");
        DataDisk 2 "data-1" "attach" (resource_uri "disks" "data-1")].
Proof.
  exact (AzureFacts.data_disk_luns_increase provider uuid_source
           (AzureLaunchConfig [image_device; volume_device; root_device;
                               volume_device])
           "vm" (Some "eastus") (start with_data_volume)
           [DataDisk 1 "data-1" "attach" (resource_uri "disks" "data-1");
            DataDisk 2 "data-1" "attach" (resource_uri "disks" "data-1")]
           (Some 30%Z) _ eq_refl).
Defined.

Lemma default_subnet_creation_witness :
  trace (snd (AzureSubnetService_get_or_create_default provider uuid_source
                DEFAULT_NETWORK DEFAULT_SUBNET (start empty)))
  = [GetSubnet DEFAULT_NETWORK DEFAULT_SUBNET; GetNetwork DEFAULT_NETWORK;
     CreateNetwork DEFAULT_NETWORK
       (NetworkParameters "eastus" ["10.0.0.0/16"] {[ "Name" := DEFAULT_NETWORK ]});
     GetNetwork DEFAULT_NETWORK;
     CreateSubnet DEFAULT_NETWORK DEFAULT_SUBNET (SubnetParameters "10.0.1.0/24")].
Proof.
  rewrite (proj2 (AzureFacts.default_subnet_creation provider uuid_source
                    DEFAULT_NETWORK DEFAULT_SUBNET (start empty) _ _ eq_refl)
             _ _ _ _ _ eq_refl eq_refl eq_refl).
  reflexivity.
Defined.

Lemma subnet_id_without_delimiter_witness :
  AzureSubnetService_get provider "cloudbridge-subnet" (start empty)
  = (Raise (IndexError "list index out of range"), start empty)
  /\ AzureSubnetService_delete provider (ById "cloudbridge-subnet") (start empty)
     = (Raise (IndexError "list index out of range"), start empty).
Proof.
  exact (AzureFacts.subnet_id_without_delimiter provider "cloudbridge-subnet"
           (start empty) eq_refl).
Defined.

Lemma region_get_finds_by_name_witness :
  fst (AzureRegionService_get provider "westus" (start empty))
  = Ok (Some (AzureRegion "westus"))
  /\ region_name_of (AzureRegion "westus") = "westus".
Proof.
  split; [reflexivity|].
  exact (proj1 (AzureFacts.region_get_finds_by_name provider "westus"
                  (start empty))).
Defined.

Lemma key_pair_create_stores_entity_witness :
  AzureKeyPairService_create provider uuid_source gen_key_pair "cb-key"
    (start empty)
  = (Ok (AzureKeyPair
           (PublicKeyEntity PARTITION_KEY (uuid_str (uuid_source 1)) "cb-key"
                            "ssh-rsa AAAA")
           (Some "PRIVATE KEY")),
     World (set_public_keys
              [PublicKeyEntity PARTITION_KEY (uuid_str (uuid_source 1)) "cb-key"
                               "ssh-rsa AAAA"] empty)
           [GetPublicKey "cb-key";
            CreatePublicKey
              (PublicKeyEntity PARTITION_KEY (uuid_str (uuid_source 1)) "cb-key"
                               "ssh-rsa AAAA");
            GetPublicKey "cb-key"] 2).
Proof.
  exact (AzureFacts.key_pair_create_stores_entity provider uuid_source
           gen_key_pair "cb-key" (start empty) _ _ _ _ eq_refl eq_refl eq_refl).
Defined.

Lemma snapshot_of_missing_volume_witness :
  AzureSnapshotService_create provider uuid_source "snap" (ById "data-2") None
    (start with_data_volume)
  = (Raise (AttributeError "'NoneType' object has no attribute 'resource_id'"),
     World with_data_volume [GetDisk "data-2"] 1).
Proof.
  exact (AzureFacts.snapshot_of_missing_volume provider uuid_source "snap"
           "data-2" None (start with_data_volume) _ _ eq_refl).
Defined.

Lemma unresolved_key_pair_fails_after_nic_witness :
  AzureInstanceService_create provider uuid_source b64encode DEFAULT_NETWORK
    DEFAULT_SUBNET "vm" (Obj example_image) (ById "Standard_DS1_v2")
    (Some (Obj subnet_in_westus)) None (Some (ById "no-such-key")) None None
    None (start empty)
  = (Raise (AttributeError "'NoneType' object has no attribute '_key_pair'"),
     World empty
       [GetPublicKey "no-such-key";
        CreateNic "vm-012345_nic"
          (NicParameters "eastus" "vm-012345_ip_config" "Dynamic"
             (resource_uri "subnets" "cb-subnet") None)] 1).
Proof.
  exact (AzureFacts.unresolved_key_pair_fails_after_nic provider uuid_source
           b64encode DEFAULT_NETWORK DEFAULT_SUBNET "vm" example_image
           (ById "Standard_DS1_v2") subnet_in_westus None "no-such-key" None
           (start empty) _ _ _ eq_refl eq_refl eq_refl).
Defined.

Lemma delete_reports_cloud_error_as_false_witness :
  fst (AzureNetworkService_delete provider "cloudbridge-net" (start empty))
  = Ok false.
Proof.
  apply (AzureFacts.delete_reports_cloud_error_as_false provider
           "cloudbridge-net" (ById "cloudbridge-net|$|cloudbridge-subnet")
           (start empty)).
  exists "ResourceNotFound: cloudbridge-net". reflexivity.
Defined.

Lemma subnets_of_all_networks_witness :
  exists nets st parts,
    list_networks client two_networks = (Ok nets, st)
    /\ trace (snd (AzureSubnetService__list_subnets provider None
                     (start two_networks)))
       = [ListNetworks; ListSubnets "net-a"; ListSubnets "net-b"]
    /\ length parts = length nets
    /\ fst (AzureSubnetService__list_subnets provider None (start two_networks))
       = Ok (concat parts).
Proof.
  destruct (AzureFacts.subnets_of_all_networks provider (start two_networks)
              _ _ eq_refl) as (nets & st & parts & Hn & Ht & Hp & Hr).
  exists nets, st, parts. split; [exact Hn|]. split.
  - injection Hn as <- _. exact Ht.
  - split; [symmetry; exact (Forall2_length _ _ _ Hp)|]. by rewrite <- Hr.
Defined.

Lemma volume_create_source_witness :
  exists rest,
    trace (snd (AzureVolumeService_create provider uuid_source "data"
                  (Some 10%Z) None (Some (ById "snap-1")) None (start empty)))
    = GetSnapshot "snap-1"
      :: CreateEmptyDisk "data-012345"
           (DiskParameters "eastus" (Some 10%Z) "empty" None
                           {[ "Name" := "data" ]})
      :: rest
    /\ (rest = [] \/ rest = [GetDisk "data-012345"]).
Proof.
  exact (proj1 (proj2 (AzureFacts.volume_create_source provider uuid_source
                         "data" (Some 10%Z) None None (start empty)))
           "snap-1" _ _ eq_refl eq_refl).
Defined.

End AzureExamples.

(** ** OpenStack *)
Module OpenStackExamples.
Import Py PyFacts OpenStack OpenStackMock.

Lemma keypair_get_outcomes_witness :
  fst (OpenStackKeyPairService_get clients "cb-key"
         (start (State [OpenStackKeyPair "cb-key"] [] [] [] [] [])))
  = Ok (Some (OpenStackKeyPair "cb-key"))
  /\ fst (OpenStackKeyPairService_get clients "cb-key" (start empty)) = Ok None.
Proof.
  split.
  - apply (OpenStackFacts.keypair_get_outcomes clients "cb-key"
             (start (State [OpenStackKeyPair "cb-key"] [] [] [] [] []))).
    reflexivity.
  - apply (OpenStackFacts.keypair_get_outcomes clients "cb-key" (start empty)).
    exists "keypair". reflexivity.
Defined.

Lemma invalid_name_rejected_before_any_call_witness :
  OpenStackKeyPairService_create clients valid_resource_name "" (start empty)
  = (Raise (InvalidNameException ""), start empty)
  /\ OpenStackRouterService_create clients valid_resource_name "" (start empty)
     = (Raise (InvalidNameException ""), start empty).
Proof.
  destruct (OpenStackFacts.invalid_name_rejected_before_any_call clients
              valid_resource_name "" (start empty) (fun c => eq_refl))
    as (Hkp & _ & _ & _ & _ & _ & _ & Hrouter).
  split; [exact Hkp | exact Hrouter].
Defined.

Lemma bucket_get_exact_match_witness :
  exists found,
    fst (OpenStackObjectStoreService_get clients "abc"
           (start (State [] [] [Container "abcd"; Container "abc"] [] [] [])))
    = Ok (Some (OpenStackBucket (Some found)))
    /\ container_name found = "abc"
    /\ In found [Container "abcd"; Container "abc"].
Proof.
  exact (OpenStackFacts.bucket_get_exact_match clients "abc"
           (start (State [] [] [Container "abcd"; Container "abc"] [] [] []))
           _ _ (Container "abc") eq_refl (or_intror (or_introl eq_refl)) eq_refl).
Defined.

Lemma gateway_lookup_only_reads_witness :
  mutations (trace (snd (OpenStackGatewayService_get_or_create_inet_gateway
                           clients valid_resource_name "gw"
                           (start external_only))))
  = []
  /\ fst (OpenStackGatewayService_get_or_create_inet_gateway clients
            valid_resource_name "gw" (start external_only))
     = Ok (Some (OpenStackInternetGateway
                   (OpenStackNetwork "net-public" "public" true)))
  /\ external (OpenStackNetwork "net-public" "public" true) = true.
Proof.
  destruct (OpenStackFacts.gateway_lookup_only_reads clients valid_resource_name
              "gw" (start external_only) eq_refl) as [Hm Hgw].
  split; [exact Hm|]. split; [reflexivity|].
  exact (Hgw _ eq_refl).
Defined.

Lemma subnets_of_network_witness :
  objects (default (PagedList [] None None)
             (match fst (OpenStackSubnetService_list clients page
                           (Some (Obj private_network)) None None
                           (start two_networks)) with
              | Ok r => Some r
              | Raise _ => None
              end))
  = [OpenStackSubnet "s1" "a" "net-1"]
  /\ Forall (fun s => network_id s = "net-1") [OpenStackSubnet "s1" "a" "net-1"]
  /\ trace (snd (OpenStackSubnetService_list clients page
                   (Some (Obj private_network)) None None (start two_networks)))
     = [ListSubnets].
Proof.
  destruct (OpenStackFacts.subnets_of_network clients page private_network None
              None (start two_networks) _ _ eq_refl) as (Hall & Htrace & _).
  split; [reflexivity|]. split; [exact Hall | exact Htrace].
Defined.

Lemma default_subnet_built_in_order_witness :
  OpenStackSubnetService_get_or_create_default clients valid_resource_name
    "cb-net" "cb-subnet" "cb-router" "cb-gateway" (start external_only)
  = (Ok (Some (OpenStackSubnet "subnet-cb-subnet" "cb-subnet" "net-cb-net")),
     World (State [] [] []
              [OpenStackNetwork "net-public" "public" true;
               OpenStackNetwork "net-cb-net" "cb-net" false]
              [OpenStackSubnet "subnet-cb-subnet" "cb-subnet" "net-cb-net"]
              [OpenStackRouter "router-cb-router" "cb-router"])
           [ListSubnets; CreateNetwork "cb-net";
            NetworkCreateSubnet "net-cb-net" "cb-subnet" "10.0.0.0/24";
            CreateRouter (Some "cb-router");
            RouterAttachSubnet "router-cb-router" "subnet-cb-subnet";
            ListNetworks None;
            RouterAttachGateway "router-cb-router" (Some "net-public")] 0)
  /\ fst (OpenStackSubnetService_get_or_create_default clients
            valid_resource_name "cb-net" "cb-subnet" "cb-router" "cb-gateway"
            (start empty))
     = Ok None.
Proof.
  split.
  - exact (proj1 (OpenStackFacts.default_subnet_built_in_order clients
                    valid_resource_name "cb-net" "cb-subnet" "cb-router"
                    "cb-gateway" (start external_only) _ _ _ _ _ _ _ _ _ _ _
                    eq_refl eq_refl eq_refl eq_refl eq_refl (List.Forall_nil _)
                    eq_refl eq_refl eq_refl eq_refl eq_refl) _ eq_refl).
  - rewrite (proj2 (OpenStackFacts.default_subnet_built_in_order clients
                      valid_resource_name "cb-net" "cb-subnet" "cb-router"
                      "cb-gateway" (start empty) _ _ _ _ _ _ _ _ _ _ _
                      eq_refl eq_refl eq_refl eq_refl eq_refl (List.Forall_nil _)
                      eq_refl eq_refl eq_refl eq_refl eq_refl)
               "no external network" _ eq_refl).
    reflexivity.
Defined.

End OpenStackExamples.

(** ** Both providers *)
Module ProviderExamples.
Import Py PyFacts.

(** C1 as stated fails on Azure: deleting a security group that does not
    exist returns False, although the group does not exist afterwards. *)
Lemma C1_counterexample :
  let w := AzureMock.start AzureMock.empty in
  let run := Azure.AzureSecurityGroupService_delete AzureMock.provider "sg-1" w in
  fst run = Ok false /\ fst run <> Ok true /\
  fst (Azure.AzureSecurityGroupService_get AzureMock.provider "sg-1" (snd run))
  = Ok None.
Proof. vm_compute. repeat split. discriminate. Qed.

Lemma C1_delete_outcomes_witness :
  fst (Azure.AzureSecurityGroupService_delete AzureMock.provider "sg-1"
         (AzureMock.start AzureMock.empty)) = Ok false
  /\ OpenStack.OpenStackSecurityGroupService_delete OpenStackMock.clients "sg-web"
       (OpenStackMock.start OpenStackMock.empty)
     = (Ok true, World OpenStackMock.empty [OpenStack.SecurityGroupsGet "sg-web"] 0).
Proof.
  pose proof (ProviderFacts.C1_delete_outcomes AzureMock.provider
                OpenStackMock.clients "sg-1"
                (AzureMock.start AzureMock.empty)
                (OpenStackMock.start OpenStackMock.empty)) as (_ & _ & _ & Haz).
  pose proof (ProviderFacts.C1_delete_outcomes AzureMock.provider
                OpenStackMock.clients "sg-web"
                (AzureMock.start AzureMock.empty)
                (OpenStackMock.start OpenStackMock.empty)) as (_ & Hos & _ & _).
  split.
  - apply (Haz "ResourceNotFound: sg-1" AzureMock.empty). reflexivity.
  - apply (Hos "security group" OpenStackMock.empty). reflexivity.
Defined.

(** C2 at the failing input: only "abcd" is listed for the prefix "abc", and
    [get] returns a bucket object instead of None. *)
Lemma C2_bucket_get_failing_input :
  fst (OpenStack.OpenStackObjectStoreService_get OpenStackMock.clients "abc"
         (OpenStackMock.start
            (OpenStackMock.State [] [] [OpenStack.Container "abcd"] [] [] [])))
  = Ok (Some (OpenStack.OpenStackBucket None)).
Proof.
  eapply (ProviderFacts.C2_bucket_get_wraps_missing_container
            OpenStackMock.clients "abc").
  - reflexivity.
  - repeat constructor. cbn. discriminate.
Defined.

Lemma C6_key_pair_name_conflict_witness :
  fst (Azure.AzureKeyPairService_create AzureMock.provider AzureMock.uuid_source
         AzureMock.gen_key_pair "cb-key"
         (AzureMock.start
            (AzureMock.set_public_keys
               [Azure._key_pair AzureMock.example_key_pair] AzureMock.empty)))
  = Raise (PyException "Keypair already exists with name cb-key")
  /\ fst (OpenStack.OpenStackKeyPairService_create OpenStackMock.clients
            OpenStackMock.valid_resource_name "cb-key"
            (OpenStackMock.start
               (OpenStackMock.State [OpenStack.OpenStackKeyPair "cb-key"]
                                    [] [] [] [] [])))
     = Raise (OtherError "Conflict" "Key pair 'cb-key' already exists.").
Proof.
  destruct (ProviderFacts.C6_key_pair_name_conflict AzureMock.provider
              AzureMock.uuid_source AzureMock.gen_key_pair OpenStackMock.clients
              OpenStackMock.valid_resource_name "cb-key"
              (AzureMock.start
                 (AzureMock.set_public_keys
                    [Azure._key_pair AzureMock.example_key_pair] AzureMock.empty))
              (OpenStackMock.start
                 (OpenStackMock.State [OpenStack.OpenStackKeyPair "cb-key"]
                                      [] [] [] [] []))) as [Haz Hos].
  split.
  - by rewrite (Haz _ _ eq_refl).
  - by rewrite (Hos _ _ eq_refl eq_refl).
Defined.

Lemma C8_default_subnet_twice_witness :
  (exists sn1 w1,
      Azure.AzureSubnetService_get_or_create_default AzureMock.provider
        AzureMock.uuid_source AzureMock.DEFAULT_NETWORK AzureMock.DEFAULT_SUBNET
        (AzureMock.start AzureMock.empty) = (Ok sn1, w1)
      /\ Azure.AzureSubnetService_get_or_create_default AzureMock.provider
           AzureMock.uuid_source AzureMock.DEFAULT_NETWORK
           AzureMock.DEFAULT_SUBNET w1
         = (Ok sn1,
            World (backend w1)
                  (trace w1 ++ [Azure.GetSubnet AzureMock.DEFAULT_NETWORK
                                                AzureMock.DEFAULT_SUBNET])
                  (uuids_drawn w1)))
  /\ (exists sn1 w1 sn2,
      OpenStack.OpenStackSubnetService_get_or_create_default
        OpenStackMock.clients OpenStackMock.valid_resource_name
        "cb-net" "cb-subnet" "cb-router" "public"
        (OpenStackMock.start OpenStackMock.external_only) = (Ok (Some sn1), w1)
      /\ OpenStack.OpenStackSubnetService_get_or_create_default
           OpenStackMock.clients OpenStackMock.valid_resource_name
           "cb-net" "cb-subnet" "cb-router" "public" w1
         = (Ok (Some sn2),
            World (backend w1) (trace w1 ++ [OpenStack.ListSubnets])
                  (uuids_drawn w1))
      /\ OpenStack.subnet_id sn2 = OpenStack.subnet_id sn1).
Proof.
  destruct (ProviderFacts.C8_default_subnet_twice AzureMock.provider
              AzureMock.uuid_source AzureMock.DEFAULT_NETWORK
              AzureMock.DEFAULT_SUBNET OpenStackMock.clients
              OpenStackMock.valid_resource_name
              "cb-net" "cb-subnet" "cb-router" "public"
              (AzureMock.start AzureMock.empty)
              (OpenStackMock.start OpenStackMock.external_only)
              (AzureExamples.mock_read_is_repeatable _ _)
              (AzureExamples.mock_read_after_create _ _)) as [Haz Hos].
  split.
  - eexists _, _. split; [reflexivity|]. apply Haz. reflexivity.
  - destruct (Hos _ _ _ _ _ _ eq_refl eq_refl eq_refl eq_refl)
      as (sn2 & Hrun & Hid).
    eexists _, _, sn2. split; [reflexivity|]. split; [exact Hrun | exact Hid].
Defined.

End ProviderExamples.
